(** * MultiQC Plotly plot model: [multiqc/plots/plotly/plot.py]

    A shallow embedding of the plot model of MultiQC: construction of a
    plot from a loosely typed configuration ([Plot.initialize],
    [_dataset_layout]), the per-view axis resolution ([Plot.get_figure],
    [_set_axis_log_scale]), the flat rendering loop ([Plot.flat_plot],
    [fig_to_static_html]) and the renaming of deprecated keys
    ([rename_deprecated_highcharts_keys]).

    Python dictionaries are finite maps with string keys, Python values
    are a small universe of dynamically typed values, exceptions are an
    explicit result type, and the [go.Layout] objects that the code
    mutates live in an object store. *)

From Stdlib Require Import QArith.
From stdpp Require Import gmap strings list pretty.

#[local] Set Warnings "-register-all".

(** ** Python values and exceptions *)

Module Py.

(** The values a configuration dictionary can hold.  A [float] is kept as
    the rational it denotes; [bool] is kept apart from [int] because the
    source tests identity with [True] and [False]. *)
Inductive value :=
  | VNone
  | VBool (b : bool)
  | VInt (z : Z)
  | VFloat (q : Q)
  | VStr (s : string)
  | VList (l : list value)
  | VDict (d : gmap string value).

(** Exceptions raised by the modelled code.  [ValidationError], raised by
    pydantic, is a subclass of [ValueError]; the others are the builtin
    classes. *)
Inductive exn :=
  | ValueError (msg : string)
  | KeyError (key : string)
  | TypeError
  | AttributeError
  | IndexError
  | AssertionError
  | ValidationError.

Inductive result (A : Type) :=
  | Ok (a : A)
  | Raise (e : exn).
Arguments Ok {A} a.
Arguments Raise {A} e.

Definition rbind {A B} (r : result A) (k : A -> result B) : result B :=
  match r with
  | Ok a => k a
  | Raise e => Raise e
  end.

Definition is_ok {A} (r : result A) : bool :=
  match r with Ok _ => true | Raise _ => false end.

(** [d.get(k, default)]: the default is used only when the key is absent;
    a key bound to [None] yields [None]. *)
Definition dict_get (d : gmap string value) (k : string) (default : value) : value :=
  match d !! k with
  | Some v => v
  | None => default
  end.

(** [d.get(k)] *)
Definition dict_get_none (d : gmap string value) (k : string) : value :=
  dict_get d k VNone.

(** [k in d] *)
Definition dict_has (d : gmap string value) (k : string) : bool :=
  match d !! k with
  | Some _ => true
  | None => false
  end.

(** [d.pop(k)]: the value and the dictionary without the key, or
    [KeyError]. *)
Definition dict_pop (d : gmap string value) (k : string)
  : result (value * gmap string value) :=
  match d !! k with
  | Some v => Ok (v, delete k d)
  | None => Raise (KeyError k)
  end.

(** [p.copy(); p.update(d)]: the keys of [d] win. *)
Definition dict_update (p d : gmap string value) : gmap string value := d ∪ p.

(** A number as Python compares it: [bool] is a subclass of [int]. *)
Definition as_number (v : value) : option Q :=
  match v with
  | VBool b => Some (if b then 1%Q else 0%Q)
  | VInt z => Some (inject_Z z)
  | VFloat q => Some q
  | _ => None
  end.

(** Truth value of an object, as [if v:], [not v], [v or w] test it. *)
Definition truthy (v : value) : bool :=
  match v with
  | VNone => false
  | VBool b => b
  | VInt z => negb (z =? 0)%Z
  | VFloat q => negb (Qeq_bool q 0)
  | VStr s => negb (String.eqb s "")
  | VList l => match l with [] => false | _ => true end
  | VDict d => negb (bool_decide (d = ∅))
  end.

Definition is_none (v : value) : bool :=
  match v with VNone => true | _ => false end.

(** [v is True] and [v is False]: identity with the two singletons. *)
Definition is_True (v : value) : bool :=
  match v with VBool true => true | _ => false end.

Definition is_False (v : value) : bool :=
  match v with VBool false => true | _ => false end.

(** [v or w] *)
Definition py_or (v w : value) : value := if truthy v then v else w.

(** [v and w] *)
Definition py_and (v w : value) : value := if truthy v then w else v.

(** [v == s] for a string [s]: no other type equals a string. *)
Definition eq_str (v : value) (s : string) : bool :=
  match v with
  | VStr t => String.eqb t s
  | _ => false
  end.

(** [v == 0]: numbers compare by value across [bool], [int], [float]. *)
Definition eq_zero (v : value) : bool :=
  match as_number v with
  | Some q => Qeq_bool q 0
  | None => false
  end.

(** [v > 0]: a [TypeError] for what does not order against an [int]. *)
Definition gt_zero (v : value) : result bool :=
  match as_number v with
  | Some q => Ok (negb (Qle_bool q 0))
  | None => Raise TypeError
  end.

(** *** Methods of [str] *)

(** ASCII white space, as [str.strip] removes it. *)
Definition isspace (c : Ascii.ascii) : bool :=
  let n := Ascii.nat_of_ascii c in
  ((9 <=? n) && (n <=? 13)) || ((28 <=? n) && (n <=? 32)).

Fixpoint lstrip (s : string) : string :=
  match s with
  | String c s' => if isspace c then lstrip s' else s
  | EmptyString => EmptyString
  end.

(** [s.strip()] *)
Definition strip (s : string) : string :=
  String.rev (lstrip (String.rev (lstrip s))).

(** [s.startswith(p)] *)
Definition startswith (s p : string) : bool := String.prefix p s.

(** [s.endswith(p)] *)
Definition endswith (s p : string) : bool :=
  String.prefix (String.rev p) (String.rev s).

(** [sub in s] *)
Fixpoint contains (sub s : string) : bool :=
  String.prefix sub s ||
  match s with
  | String _ s' => contains sub s'
  | EmptyString => false
  end.

Definition lower_ascii (c : Ascii.ascii) : Ascii.ascii :=
  let n := Ascii.nat_of_ascii c in
  if (65 <=? n) && (n <=? 90) then Ascii.ascii_of_nat (n + 32) else c.

(** [s.lower()], on ASCII letters *)
Fixpoint lower (s : string) : string :=
  match s with
  | String c s' => String (lower_ascii c) (lower s')
  | EmptyString => EmptyString
  end.

(** [s.split(sep)] for a non-empty separator: [skip] counts the characters
    of a separator occurrence still to be dropped, [cur] is the piece being
    read, in reverse. *)
Fixpoint split_aux (sep : string) (skip : nat) (cur : string) (s : string)
  : list string :=
  match s with
  | EmptyString => [String.rev cur]
  | String c s' =>
      match skip with
      | S k => split_aux sep k cur s'
      | O =>
          if String.prefix sep s
          then String.rev cur :: split_aux sep (String.length sep - 1) EmptyString s'
          else split_aux sep 0 (String c cur) s'
      end
  end.

Definition split (s sep : string) : list string := split_aux sep 0 EmptyString s.

(** [s.replace(old, new)] for a non-empty [old]: occurrences are replaced
    from the left, without overlap. *)
Fixpoint replace_aux (old new : string) (skip : nat) (s : string) : string :=
  match s with
  | EmptyString => EmptyString
  | String c s' =>
      match skip with
      | S k => replace_aux old new k s'
      | O =>
          if String.prefix old s
          then new +:+ replace_aux old new (String.length old - 1) s'
          else String c (replace_aux old new 0 s')
      end
  end.

Definition replace (s old new : string) : string := replace_aux old new 0 s.

(** [l[i]] on a Python list, with negative indices counted from the end. *)
Definition list_index {A} (l : list A) (i : Z) : result A :=
  let n := Z.of_nat (length l) in
  let j := if (i <? 0)%Z then (n + i)%Z else i in
  if (j <? 0)%Z then Raise IndexError
  else match l !! Z.to_nat j with
       | Some a => Ok a
       | None => Raise IndexError
       end.

End Py.
Import Py.

(** ** The world around the module *)

(** The settings of [multiqc.config] and the paths of [multiqc.report]
    that the module reads. *)
Record Config := {
  strict : bool;
  plots_force_flat : bool;
  plots_force_interactive : bool;
  plots_flat_numseries : Z;
  export_plots : bool;
  development : bool;
  simple_output : bool;
  export_plot_formats : list string;
  plots_dir_name : string;
  plots_tmp_dir : string
}.

(** What the module takes from outside: the configuration as the calls
    find it, the configuration as it was when the module was imported
    (the default arguments of [fig_to_static_html] are evaluated there,
    once), [math.log10] on the positive numbers it is called on, [str] on
    the floats, and the two random sources, each indexed by the number of
    draws made before. *)
Record Env := {
  config : Config;
  import_config : Config;
  math_log10 : Q -> Q;
  float_str : Q -> string;
  random_sample : nat -> string;
  random_randint : nat -> Z
}.

(** ** Layout objects *)

(** [autorangeoptions] of an axis. *)
Record AutoRangeOptions := {
  clipmin : value;
  clipmax : value;
  minallowed : value;
  maxallowed : value
}.

(** [hoverformat]: unset, a literal format, or [f",.{decimals}f"] for the
    configured value of the decimals. *)
Inductive HoverFormat :=
  | HoverUnset
  | HoverLiteral (fmt : string)
  | HoverDecimals (decimals : value).

(** The properties of a [go.layout.XAxis] / [YAxis] that the module sets.
    The colours and fonts given to both axes at construction are constants
    and are left out. *)
Record Axis := {
  type : option string;
  hoverformat : HoverFormat;
  ticksuffix : value;
  axis_title : value;
  rangemode : option string;
  autorangeoptions : AutoRangeOptions
}.

(** The properties of a [go.Layout] that the module sets and reads; the
    constant styling (margins, colours, fonts) is left out. *)
Record Layout := {
  title : value;
  xaxis : Axis;
  yaxis : Axis;
  height : value;
  width : value;
  showlegend : bool;
  legend : bool
}.

Definition set_type (t : string) (a : Axis) : Axis :=
  {| type := Some t; hoverformat := hoverformat a; ticksuffix := ticksuffix a;
     axis_title := axis_title a; rangemode := rangemode a;
     autorangeoptions := autorangeoptions a |}.

Definition set_minallowed (v : value) (a : Axis) : Axis :=
  {| type := type a; hoverformat := hoverformat a; ticksuffix := ticksuffix a;
     axis_title := axis_title a; rangemode := rangemode a;
     autorangeoptions :=
       {| clipmin := clipmin (autorangeoptions a);
          clipmax := clipmax (autorangeoptions a);
          minallowed := v;
          maxallowed := maxallowed (autorangeoptions a) |} |}.

Definition set_maxallowed (v : value) (a : Axis) : Axis :=
  {| type := type a; hoverformat := hoverformat a; ticksuffix := ticksuffix a;
     axis_title := axis_title a; rangemode := rangemode a;
     autorangeoptions :=
       {| clipmin := clipmin (autorangeoptions a);
          clipmax := clipmax (autorangeoptions a);
          minallowed := minallowed (autorangeoptions a);
          maxallowed := v |} |}.

Definition set_width (w : value) (l : Layout) : Layout :=
  {| title := title l; xaxis := xaxis l; yaxis := yaxis l; height := height l;
     width := w; showlegend := showlegend l; legend := legend l |}.

(** [layout[name]] for an axis name.  A layout has its two axes from the
    start; a name that is no property of the layout is a [KeyError]. *)
Definition layout_axis (l : Layout) (name : string) : result Axis :=
  if String.eqb name "xaxis" then Ok (xaxis l)
  else if String.eqb name "yaxis" then Ok (yaxis l)
  else Raise (KeyError name).

(** Assignment through [layout[name]]. *)
Definition layout_set_axis (l : Layout) (name : string) (a : Axis) : result Layout :=
  if String.eqb name "xaxis" then
    Ok {| title := title l; xaxis := a; yaxis := yaxis l; height := height l;
          width := width l; showlegend := showlegend l; legend := legend l |}
  else if String.eqb name "yaxis" then
    Ok {| title := title l; xaxis := xaxis l; yaxis := a; height := height l;
          width := width l; showlegend := showlegend l; legend := legend l |}
  else Raise (KeyError name).

(** ** State: the object store, the logger and the report *)

Inductive message :=
  | LintTitleMissing (id : value)
  | InvalidDataLabelsType (dconfig : value)
  | WritingPlot (short_path : string).

Inductive level := DEBUG | WARNING | ERROR.

(** [go.Layout] objects are mutable and passed by reference: they live in
    a store, addressed by their position; an object once allocated stays.
    [files] are the paths written so far, [draws] counts the random draws. *)
Record State := {
  heap : list Layout;
  log : list (level * message);
  lint_errors : list message;
  files : list string;
  draws : nat
}.

Definition loc := nat.

Definition set_heap (h : list Layout) (st : State) : State :=
  {| heap := h; log := log st; lint_errors := lint_errors st;
     files := files st; draws := draws st |}.

(** Computations that read and change the state and may raise. *)
Definition M (A : Type) : Type := State -> result A * State.

Definition ret {A} (a : A) : M A := fun st => (Ok a, st).

Definition raise {A} (e : exn) : M A := fun st => (Raise e, st).

Definition bind {A B} (m : M A) (k : A -> M B) : M B :=
  fun st =>
    match m st with
    | (Ok a, st') => k a st'
    | (Raise e, st') => (Raise e, st')
    end.

Definition lift {A} (r : result A) : M A := fun st => (r, st).

Declare Scope py_scope.
Delimit Scope py_scope with py.
Notation "'let*' x ':=' m 'in' k" := (bind m (fun x => k))
  (at level 10, x pattern, m at level 100, k at level 200) : py_scope.
Notation "m ';;' k" := (bind m (fun _ => k))
  (at level 100, k at level 200, right associativity) : py_scope.
Notation "'let?' x ':=' r 'in' k" := (rbind r (fun x => k))
  (at level 10, x pattern, r at level 100, k at level 200) : py_scope.
#[local] Open Scope py_scope.

(** [for x in l: body x] *)
Fixpoint for_each {A} (l : list A) (body : A -> M unit) : M unit :=
  match l with
  | [] => ret tt
  | x :: l' => body x ;; for_each l' body
  end.

(** A new object: it takes the next position of the store. *)
Definition alloc (l : Layout) : M loc :=
  fun st => (Ok (length (heap st)), set_heap (heap st ++ [l]) st).

Definition load (r : loc) : M Layout :=
  fun st =>
    match heap st !! r with
    | Some l => (Ok l, st)
    | None => (Raise (KeyError "dangling"), st)
    end.

Definition store (r : loc) (l : Layout) : M unit :=
  fun st => (Ok tt, set_heap (<[r := l]> (heap st)) st).

(** An axis object is reached through its layout: [layout[name]]. *)
Definition load_axis (r : loc) (name : string) : M Axis :=
  let* l := load r in lift (layout_axis l name).

Definition store_axis (r : loc) (name : string) (a : Axis) : M unit :=
  let* l := load r in
  let* l' := lift (layout_set_axis l name a) in
  store r l'.

Definition logger (lv : level) (msg : message) : M unit :=
  fun st => (Ok tt,
    {| heap := heap st; log := log st ++ [(lv, msg)];
       lint_errors := lint_errors st; files := files st; draws := draws st |}).

Definition lint_append (msg : message) : M unit :=
  fun st => (Ok tt,
    {| heap := heap st; log := log st;
       lint_errors := lint_errors st ++ [msg]; files := files st;
       draws := draws st |}).

Definition write_file (path : string) : M unit :=
  fun st => (Ok tt,
    {| heap := heap st; log := log st; lint_errors := lint_errors st;
       files := files st ++ [path]; draws := draws st |}).

(** One draw from a random source. *)
Definition draw {A} (source : nat -> A) : M A :=
  fun st => (Ok (source (draws st)),
    {| heap := heap st; log := log st; lint_errors := lint_errors st;
       files := files st; draws := S (draws st) |}).

(** ** [_set_axis_log_scale] and [rename_deprecated_highcharts_keys] *)

(** [math.log10(v) if v is not None and v > 0 else None] *)
Definition log10_bound (E : Env) (v : value) : result value :=
  if is_none v then Ok VNone
  else
    let? positive := gt_zero v in
    if positive
    then match as_number v with
         | Some q => Ok (VFloat (math_log10 E q))
         | None => Raise TypeError
         end
    else Ok VNone.

Definition _set_axis_log_scale (E : Env) (layout : loc) (axis : string) : M unit :=
  let* a := load_axis layout axis in
  store_axis layout axis (set_type "log" a) ;;
  let* a := load_axis layout axis in
  let minval := minallowed (autorangeoptions a) in
  let maxval := maxallowed (autorangeoptions a) in
  let* minval := lift (log10_bound E minval) in
  let* maxval := lift (log10_bound E maxval) in
  let* a := load_axis layout axis in
  store_axis layout axis (set_minallowed minval a) ;;
  let* a := load_axis layout axis in
  store_axis layout axis (set_maxallowed maxval a).

Definition rename_deprecated_highcharts_keys (conf : gmap string value)
  : result (gmap string value) :=
  let? conf :=
    if dict_has conf "yCeiling"
    then let? (v, conf) := dict_pop conf "y_ceiling" in Ok (<["yaxis" := v]> conf)
    else Ok conf in
  let? conf :=
    if dict_has conf "xAxis"
    then let? (v, conf) := dict_pop conf "xAxis" in Ok (<["xaxis" := v]> conf)
    else Ok conf in
  let? conf :=
    if dict_has conf "tooltip"
    then let? (v, conf) := dict_pop conf "tooltip" in Ok (<["hovertemplate" := v]> conf)
    else Ok conf in
  Ok conf.

(** ** [_dataset_layout] and [_clean_config_tt_label] *)

(** The layout dictionary of a dataset, as [_dataset_layout] builds it:
    the title text and, for each axis, the properties that override the
    plot's layout (the axis type is not among them). *)
Record DatasetLayout := {
  dl_title : value;
  dl_xaxis : Axis;
  dl_yaxis : Axis
}.

(** A method of [str] called on a value: [AttributeError] on any other
    type. *)
Definition as_str (v : value) : result string :=
  match v with
  | VStr s => Ok s
  | _ => Raise AttributeError
  end.

(** [sub in v] for a string [sub]: a substring test on a string, a
    membership test on a list or on the keys of a dictionary, a
    [TypeError] on what is not iterable. *)
Definition py_in (sub : string) (v : value) : result bool :=
  match v with
  | VStr s => Ok (contains sub s)
  | VList l => Ok (existsb (fun x => eq_str x sub) l)
  | VDict d => Ok (dict_has d sub)
  | _ => Raise TypeError
  end.

(** [s + v] for a string [s]: only a string can be appended. *)
Definition str_add (s : string) (v : value) : result string :=
  match v with
  | VStr t => Ok (s +:+ t)
  | _ => Raise TypeError
  end.

Definition _clean_config_tt_label (tt_label : value) : result string :=
  let replace_d :=
    [ ("{point.x", "%{x");
      ("{point.y", "%{y");
      ("x:>", "x:");
      ("y:>", "y:");
      ("{point.category}", "%{x}");
      ("<strong>", "<b>");
      ("</strong>", "</b>");
      ("<br/>", "<br>") ] in
  let? tt_label := as_str tt_label in
  Ok (fold_left (fun tt kv => replace tt (fst kv) (snd kv)) replace_d tt_label).

Definition KNOWN_SUFFIXES : list string :=
  ["%"; "x"; "X"; "k"; "M"; " bp"; " kbp"; " Mbp"].

(** The suffix read from a deprecated label format:
    [fmt.split("}")[1]] when the format is set and holds a brace. *)
Definition suffix_of_labformat (suffix labformat : value) : result value :=
  if is_none suffix && truthy labformat then
    let? has_brace := py_in "}" labformat in
    if has_brace then
      let? s := as_str labformat in
      let? part := list_index (split s "}") 1 in
      Ok (VStr part)
    else Ok suffix
  else Ok suffix.

(** One round of the loop that sets the space in a known suffix. *)
Definition set_space (suffix : value) (suf : string) : value :=
  if negb (is_none suffix) && eq_str suffix (strip suf) then VStr suf else suffix.

(** The suffix read from an axis label such as ["% reads"] or
    ["Length (bp)"]. *)
Definition suffix_of_label (suffix lab : value) : result value :=
  if is_none suffix && truthy lab then
    match lab with
    | VStr s =>
        let suffix :=
          if contains "%" s || contains "percentage" (lower s)
          then VStr "%" else suffix in
        Ok (fold_left
              (fun acc suf =>
                 if endswith s (" (" +:+ strip suf +:+ ")") then VStr suf else acc)
              KNOWN_SUFFIXES suffix)
    | VList _ | VDict _ => Raise AttributeError
    | _ => Raise TypeError
    end
  else Ok suffix.

(** The first known suffix that [info] spells without its space: the inner
    loop with its [break]. *)
Definition known_suffix (info : string) : option string :=
  find (fun suf => String.eqb info (strip suf)) KNOWN_SUFFIXES.

(** The text that follows a placeholder in a piece of the tooltip label:
    [part.split("}")[1].replace("</b>", "")], cut at the first colon, comma
    and space. *)
Definition info_of_part (part : string) : result string :=
  let? info := list_index (split part "}") 1 in
  let info := replace info "</b>" "" in
  let? info := list_index (split info ":") 0 in
  let? info := list_index (split info ",") 0 in
  list_index (split (strip info) " ") 0.

(** One piece of [tt_label.split("%{")]: a suffix still missing is taken
    from the text after the [y] or [x] placeholder. *)
Definition suffix_of_part (acc : result (value * value)) (part : string)
  : result (value * value) :=
  let? (ysuffix, xsuffix) := acc in
  if is_none ysuffix && startswith part "y" && contains "}" part then
    let? info := info_of_part part in
    match (if String.eqb info "" then None else known_suffix info) with
    | Some suf => Ok (VStr suf, xsuffix)
    | None => Ok (ysuffix, xsuffix)
    end
  else if is_none xsuffix && startswith part "x" && contains "}" part then
    let? info := info_of_part part in
    match (if String.eqb info "" then None else known_suffix info) with
    | Some suf => Ok (ysuffix, VStr suf)
    | None => Ok (ysuffix, xsuffix)
    end
  else Ok (ysuffix, xsuffix).

(** The suffix is added to the ticks, so it is taken out of the label
    where it follows the plain placeholder. *)
Definition drop_suffix (placeholder : string) (suffix : value) (tt_label : string)
  : result string :=
  if negb (is_none suffix) then
    let? glued := str_add placeholder suffix in
    let tt_label :=
      if contains glued tt_label then replace tt_label glued placeholder
      else tt_label in
    let? spaced := str_add (placeholder +:+ " ") suffix in
    Ok (if contains spaced tt_label then replace tt_label spaced placeholder
        else tt_label)
  else Ok tt_label.

Definition _dataset_layout (pconfig dconfig : gmap string value)
    (default_tt_label : option string)
  : result (DatasetLayout * gmap string value) :=
  let pconfig := dict_update pconfig dconfig in
  let ysuffix := dict_get pconfig "ysuffix" (dict_get_none pconfig "tt_suffix") in
  let xsuffix := dict_get_none pconfig "xsuffix" in
  let ylabformat := dict_get pconfig "ylab_format" (dict_get_none pconfig "yLabFormat") in
  let? ysuffix := suffix_of_labformat ysuffix ylabformat in
  let xlabformat := dict_get pconfig "xlab_format" (dict_get_none pconfig "xLabFormat") in
  let? xsuffix := suffix_of_labformat xsuffix xlabformat in
  let (ysuffix, xsuffix) :=
    fold_left (fun yx suf => (set_space (fst yx) suf, set_space (snd yx) suf))
      KNOWN_SUFFIXES (ysuffix, xsuffix) in
  let ylab := dict_get_none pconfig "ylab" in
  let xlab := dict_get_none pconfig "xlab" in
  let? ysuffix := suffix_of_label ysuffix ylab in
  let? xsuffix := suffix_of_label xsuffix xlab in
  let? (tt_label, (ysuffix, xsuffix)) :=
    if dict_has pconfig "tt_label" then
      let? tt_label := _clean_config_tt_label (dict_get_none pconfig "tt_label") in
      let? (ysuffix, xsuffix) :=
        if is_none ysuffix || is_none xsuffix
        then fold_left suffix_of_part (split tt_label "%{") (Ok (ysuffix, xsuffix))
        else Ok (ysuffix, xsuffix) in
      let? tt_label := drop_suffix "{y}" ysuffix tt_label in
      let? tt_label := drop_suffix "{x}" xsuffix tt_label in
      let tt_label :=
        if negb (startswith tt_label "<br>") then "<br>" +:+ tt_label else tt_label in
      Ok (Some tt_label, (ysuffix, xsuffix))
    else Ok (default_tt_label, (ysuffix, xsuffix)) in
  let hovertemplate :=
    match tt_label with
    | Some s => if String.eqb s "" then None
                else Some ("<b>%{text}</b>" +:+ s +:+ "<extra></extra>")
    | None => None
    end in
  let y_decimals :=
    dict_get pconfig "tt_decimals"
      (dict_get pconfig "y_decimals" (dict_get_none pconfig "decimalPlaces")) in
  let y_hoverformat :=
    if negb (is_none y_decimals) then HoverDecimals y_decimals else HoverUnset in
  let x_decimals := dict_get_none pconfig "x_decimals" in
  let x_hoverformat :=
    if negb (is_none x_decimals) then HoverDecimals x_decimals else HoverUnset in
  let layout :=
    {| dl_title := dict_get_none pconfig "title";
       dl_xaxis :=
         {| type := None;
            hoverformat := x_hoverformat;
            ticksuffix := py_or xsuffix (VStr "");
            axis_title := dict_get_none pconfig "xlab";
            rangemode :=
              Some (if eq_zero (dict_get_none pconfig "xmin") then "tozero" else "normal");
            autorangeoptions :=
              {| clipmin := dict_get pconfig "x_clipmin" (dict_get_none pconfig "xFloor");
                 clipmax := dict_get pconfig "x_clipmax" (dict_get_none pconfig "xCeiling");
                 minallowed := dict_get_none pconfig "xmin";
                 maxallowed := dict_get_none pconfig "xmax" |} |};
       dl_yaxis :=
         {| type := None;
            hoverformat := y_hoverformat;
            ticksuffix := py_or ysuffix (VStr "");
            axis_title := dict_get_none pconfig "ylab";
            rangemode :=
              Some (if eq_zero (dict_get_none pconfig "ymin") && true
                    then "tozero" else "normal");
            autorangeoptions :=
              {| clipmin := dict_get pconfig "y_clipmin" (dict_get_none pconfig "yFloor");
                 clipmax := dict_get pconfig "y_clipmax" (dict_get_none pconfig "yCeiling");
                 minallowed := dict_get_none pconfig "ymin";
                 maxallowed := dict_get_none pconfig "ymax" |} |} |} in
  let trace_params : gmap string value :=
    match hovertemplate with
    | Some h => {[ "hovertemplate" := VStr h ]}
    | None => ∅
    end in
  Ok (layout, trace_params).

(** ** The data classes *)

Inductive PlotType := LINE | VIOLIN | BAR | SCATTER | HEATMAP | BOX.

Definition PlotType_value (t : PlotType) : string :=
  match t with
  | LINE => "xy_line"
  | VIOLIN => "violin"
  | BAR => "bar_graph"
  | SCATTER => "scatter"
  | HEATMAP => "heatmap"
  | BOX => "box"
  end.

Definition PlotType_eqb (a b : PlotType) : bool :=
  String.eqb (PlotType_value a) (PlotType_value b).

Module BaseDataset.
(** Fields are kept as the values assigned to them: the model class
    validates at construction only, and [label] is assigned later. *)
Record t := {
  plot_id : string;
  label : value;
  uid : string;
  dconfig : gmap string value;
  layout : DatasetLayout;
  trace_params : gmap string value;
  pct_range : gmap string (gmap string value)
}.
End BaseDataset.

(** What [create_figure] is given.  The method is abstract in
    [BaseDataset]; a figure is represented by the dataset, the resolved
    layout and the view it was asked for. *)
Record Figure := {
  fig_dataset : BaseDataset.t;
  fig_layout : Layout;
  fig_is_log : bool;
  fig_is_pct : bool
}.

Definition create_figure (dataset : BaseDataset.t) (layout : Layout)
    (is_log is_pct : bool) : Figure :=
  {| fig_dataset := dataset; fig_layout := layout;
     fig_is_log := is_log; fig_is_pct := is_pct |}.

(** The layout update of the percentage view. *)
Record AxisUpdate := {
  upd_ticksuffix : value;
  upd_hoverformat : HoverFormat
}.

(** [axis.update(upd)] *)
Definition axis_update (upd : AxisUpdate) (a : Axis) : Axis :=
  {| type := type a; hoverformat := upd_hoverformat upd;
     ticksuffix := upd_ticksuffix upd; axis_title := axis_title a;
     rangemode := rangemode a; autorangeoptions := autorangeoptions a |}.

(** The properties of an axis that a dataset's layout dictionary carries
    replace those of the axis; its type stays. *)
Definition axis_override (a over : Axis) : Axis :=
  {| type := type a; hoverformat := hoverformat over;
     ticksuffix := ticksuffix over; axis_title := axis_title over;
     rangemode := rangemode over; autorangeoptions := autorangeoptions over |}.

(** [layout.update] with the entries of [dataset.layout] *)
Definition layout_update (l : Layout) (d : DatasetLayout) : Layout :=
  {| title := dl_title d;
     xaxis := axis_override (xaxis l) (dl_xaxis d);
     yaxis := axis_override (yaxis l) (dl_yaxis d);
     height := height l; width := width l;
     showlegend := showlegend l; legend := legend l |}.

(** ** [fig_to_static_html] *)

(** The source of a static image: a file under the plots directory, or the
    PNG rendering of the figure embedded as a data URI. *)
Inductive ImgSrc :=
  | SrcPath (path : string)
  | SrcData (fig : Figure).

(** The [div] element of class [mqc_mplplot] wrapping one image. *)
Record StaticImage := {
  img_id : string;
  img_hidden : bool;
  img_src : ImgSrc;
  img_height : value;
  img_width : value
}.

Definition FLAT_PLOT_WIDTH : Z := 1100.

(** [Path(a) / b / c] *)
Definition path3 (a b c : string) : string := a +:+ "/" +:+ b +:+ "/" +:+ c.

Definition fig_to_static_html (E : Env) (fig : Figure) (active : bool)
    (export_plots embed : bool) (file_name : option string) : M StaticImage :=
  (if truthy (width (fig_layout fig)) then ret tt else raise AssertionError) ;;
  (if export_plots then
     match file_name with
     | None => raise (ValueError "file_name is required for export_plots")
     | Some file_name =>
         for_each (export_plot_formats (config E)) (fun file_ext =>
           let plot_path :=
             path3 (plots_tmp_dir (config E)) file_ext (file_name +:+ "." +:+ file_ext) in
           let short_path :=
             path3 (plots_dir_name (config E)) file_ext (file_name +:+ "." +:+ file_ext) in
           logger DEBUG (WritingPlot short_path) ;;
           write_file plot_path)
     end
   else ret tt) ;;
  let* src :=
    if negb embed then
      match file_name with
      | None => raise (ValueError "file_name is required for non-embedded plots")
      | Some file_name =>
          ret (SrcPath (path3 (plots_dir_name (config E)) "png" (file_name +:+ ".png")))
      end
    else ret (SrcData fig) in
  let* id :=
    match file_name with
    | Some (String c s) => ret (String c s)
    | _ => let* n := draw (random_randint E) in ret ("plot-" +:+ pretty n)
    end in
  ret {| img_id := id; img_hidden := negb active; img_src := src;
         img_height := height (fig_layout fig);
         img_width := width (fig_layout fig) |}.

(** ** The report fragments *)

Inductive Control :=
  | Btn (cls : string) (label : value) (data_attrs : list (string * value))
        (pressed : bool)
  | SwitchGroupOpen (cls : string)
  | SwitchGroupClose.

Inductive Html :=
  | FlatPlotNotice
  | PlotGroupOpen (id : string)
  | ControlPanel (switch_buttons export_btn : list Control)
  | Image (img : StaticImage)
  | PlotGroupClose.

(** ** The [Plot] model *)

Module Plot.

(** [layout] is a reference to the [go.Layout] object of the plot.  The
    fields annotated [bool] hold the truth values that the validation of
    the model leaves in them. *)
Record t := {
  id : string;
  plot_type : PlotType;
  layout : loc;
  datasets : list BaseDataset.t;
  pconfig : gmap string value;
  add_log_tab : bool;
  add_pct_tab : bool;
  l_active : bool;
  p_active : bool;
  pct_axis_update : AxisUpdate;
  axis_controlled_by_switches : list string;
  square : bool;
  flat : bool
}.

(** An axis as [go.layout.XAxis(...)] creates it. *)
Definition new_axis : Axis :=
  {| type := None; hoverformat := HoverUnset; ticksuffix := VNone;
     axis_title := VNone; rangemode := None;
     autorangeoptions :=
       {| clipmin := VNone; clipmax := VNone;
          minallowed := VNone; maxallowed := VNone |} |}.

(** The message of the [ValueError] that the validators of plotly raise
    for a value they refuse, kept to the line that names the property;
    the type and the value that the message quotes are left out. *)
Definition invalid_value (prop parent : string) : string :=
  "Invalid value received for the '" +:+ prop +:+ "' property of " +:+ parent.

(** The text of [go.layout.Title(text=v)]: the string validator of
    plotly passes [None] and strings through, writes a number as [str]
    does, and refuses everything else. *)
Definition title_text (E : Env) (v : value) : result value :=
  match v with
  | VNone | VStr _ => Ok v
  | VBool b => Ok (VStr (if b then "True" else "False"))
  | VInt z => Ok (VStr (pretty z))
  | VFloat q => Ok (VStr (float_str E q))
  | _ => Raise (ValueError (invalid_value "text" "layout.title"))
  end.

(** [height] and [width] of [go.Layout(...)]: the number validator of
    plotly passes [None] through and refuses what is not a number from 10
    on; [True] and [False] count as the numbers 1 and 0. *)
Definition layout_size (prop : string) (v : value) : result value :=
  if is_none v then Ok v else
  match as_number v with
  | Some q =>
      if Qle_bool 10 q then Ok v
      else Raise (ValueError (invalid_value prop "layout"))
  | None => Raise (ValueError (invalid_value prop "layout"))
  end.

(** [go.Layout(title=go.layout.Title(text=title, ...), ..., height=height,
    width=width, ..., showlegend=flat, ...)]: the title is built first,
    then the layout checks the height and the width.  The other arguments
    are constants that the validators accept. *)
Definition new_layout (E : Env) (title height width : value) (flat : bool)
  : M loc :=
  let* text := lift (title_text E title) in
  let* height := lift (layout_size "height" height) in
  let* width := lift (layout_size "width" width) in
  alloc {| title := text; xaxis := new_axis; yaxis := new_axis;
           height := height; width := width;
           showlegend := flat; legend := flat |}.

(** A field annotated [str] of a model under construction.
    [ValidationError] is a subclass of [ValueError]. *)
Definition validate_str (v : value) : M string :=
  match v with
  | VStr s => ret s
  | _ => raise ValidationError
  end.

(** The spellings of a truth value that pydantic reads in a string,
    whatever the case of the letters. *)
Definition false_spellings : list string := ["0"; "off"; "f"; "false"; "n"; "no"].
Definition true_spellings : list string := ["1"; "on"; "t"; "true"; "y"; "yes"].

(** A field annotated [bool] of a model under construction: pydantic
    takes a [bool], the numbers 0 and 1 and the strings that spell a truth
    value, and refuses everything else, [None] included. *)
Definition validate_bool (v : value) : M bool :=
  match v with
  | VBool b => ret b
  | VInt z =>
      if (z =? 0)%Z then ret false
      else if (z =? 1)%Z then ret true
      else raise ValidationError
  | VFloat q =>
      if Qeq_bool q 0 then ret false
      else if Qeq_bool q 1 then ret true
      else raise ValidationError
  | VStr s =>
      if existsb (String.eqb (lower s)) false_spellings then ret false
      else if existsb (String.eqb (lower s)) true_spellings then ret true
      else raise ValidationError
  | _ => raise ValidationError
  end.

(** [len(v)] *)
Definition py_len (v : value) : result nat :=
  match v with
  | VList l => Ok (length l)
  | VStr s => Ok (String.length s)
  | VDict d => Ok (size d)
  | _ => Raise TypeError
  end.

(** [v[idx]] for an index inside the length of [v]. *)
Definition py_item (v : value) (idx : nat) : result value :=
  match v with
  | VList l => list_index l (Z.of_nat idx)
  | VStr s =>
      match String.get idx s with
      | Some c => Ok (VStr (String c EmptyString))
      | None => Raise IndexError
      end
  | VDict d => Raise (KeyError (pretty idx))
  | _ => Raise TypeError
  end.

(** [l.remove(x)] for an [x] in [l]: the first occurrence goes. *)
Fixpoint list_remove (x : string) (l : list string) : list string :=
  match l with
  | [] => []
  | y :: l' => if String.eqb x y then l' else y :: list_remove x l'
  end.

Definition list_has (x : string) (l : list string) : bool :=
  existsb (String.eqb x) l.

(** The dictionary of a dataset is the object held by
    [pconfig["data_labels"]]: a key written to it shows there. *)
Definition write_back (pconfig : gmap string value) (idx : nat)
    (dconfig : gmap string value) : gmap string value :=
  match pconfig !! "data_labels" with
  | Some (VList l) =>
      match l !! idx with
      | Some (VDict _) => <["data_labels" := VList (<[idx := VDict dconfig]> l)]> pconfig
      | _ => pconfig
      end
  | _ => pconfig
  end.

(** The body of the loop over the dataset indices: the dataset of index
    [idx], and the plot configuration after it. *)
Definition initialize_dataset (pconfig : gmap string value) (n_datasets : Z)
    (id : value) (default_tt_label : option string) (idx : nat)
  : M (BaseDataset.t * gmap string value) :=
  let* plot_id := validate_str id in
  let* uid := validate_str id in
  let uid := if (n_datasets >? 1)%Z then uid +:+ "_" +:+ pretty (idx + 1) else uid in
  let dconfigs := py_or (dict_get_none pconfig "data_labels") (VList []) in
  let* len := lift (py_len dconfigs) in
  let* dconfig :=
    if idx <? len then lift (py_item dconfigs idx) else ret (VDict ∅) in
  (match dconfig with
   | VStr _ | VDict _ => ret tt
   | _ => logger WARNING (InvalidDataLabelsType dconfig)
   end) ;;
  let dconfig :=
    match dconfig with
    | VDict d => d
    | _ => {[ "name" := dconfig ]}
    end in
  let label :=
    dict_get dconfig "name" (dict_get dconfig "label" (VStr (pretty (idx + 1)))) in
  let dconfig :=
    if negb (dict_has dconfig "ylab") && negb (dict_has pconfig "ylab")
    then <["ylab" := dict_get dconfig "name" (dict_get_none dconfig "label")]> dconfig
    else dconfig in
  let pconfig := write_back pconfig idx dconfig in
  let* (layout, trace_params) :=
    lift (_dataset_layout pconfig dconfig default_tt_label) in
  ret ({| BaseDataset.plot_id := plot_id;
          BaseDataset.label := label;
          BaseDataset.uid := uid;
          BaseDataset.dconfig := dconfig;
          BaseDataset.layout := layout;
          BaseDataset.trace_params := trace_params;
          BaseDataset.pct_range :=
            {[ "xaxis" := {[ "min" := VInt 0; "max" := VInt 100 ]};
               "yaxis" := {[ "min" := VInt 0; "max" := VInt 100 ]} ]} |},
       pconfig).

(** [for idx in range(n_datasets)], from [idx] on. *)
Fixpoint initialize_datasets (pconfig : gmap string value) (n_datasets : Z)
    (id : value) (default_tt_label : option string) (idxs : list nat)
  : M (list BaseDataset.t * gmap string value) :=
  match idxs with
  | [] => ret ([], pconfig)
  | idx :: idxs' =>
      let* (dataset, pconfig) :=
        initialize_dataset pconfig n_datasets id default_tt_label idx in
      let* (datasets, pconfig) :=
        initialize_datasets pconfig n_datasets id default_tt_label idxs' in
      ret (dataset :: datasets, pconfig)
  end.

(** [Plot.initialize].  The switches [add_log_tab] and [l_active] are the
    values that [and] returns, booleans or not; the last steps are the
    validation that [Plot(...)] runs on the fields annotated [str] and
    [bool], whose failures make one [ValidationError]. *)
Definition initialize (E : Env) (plot_type : PlotType)
    (pconfig : gmap string value) (n_datasets : Z) (id : option string)
    (axis_controlled_by_switches : option (list string))
    (default_tt_label : option string) : M t :=
  if (n_datasets =? 0)%Z then raise (ValueError "No datasets to plot") else
  let id :=
    match id with
    | Some (String c s) => VStr (String c s)
    | _ => dict_get_none pconfig "id"
    end in
  let* id :=
    if is_none id then
      let* uniq_suffix := draw (random_sample E) in
      ret (VStr ("mqc_plot_" +:+ uniq_suffix))
    else ret id in
  let add_log_tab :=
    py_and (dict_get pconfig "logswitch" (VBool false))
      (VBool (PlotType_eqb plot_type BAR || PlotType_eqb plot_type LINE)) in
  let add_pct_tab :=
    negb (is_False (dict_get pconfig "cpswitch" (VBool true)))
    && PlotType_eqb plot_type BAR in
  let l_active :=
    py_and add_log_tab
      (VBool (is_True (dict_get_none pconfig "logswitch_active"))) in
  let p_active :=
    add_pct_tab && negb (is_True (dict_get pconfig "cpswitch_c_active" (VBool true))) in
  let height := dict_get pconfig "height" (VInt 500) in
  let width := dict_get_none pconfig "width" in
  let width := if truthy (dict_get_none pconfig "square") then height else width in
  let title := dict_get pconfig "table_title" (dict_get_none pconfig "title") in
  (if negb (truthy title) && strict (config E) then
     logger ERROR (LintTitleMissing id) ;;
     lint_append (LintTitleMissing id)
   else ret tt) ;;
  let flat :=
    plots_force_flat (config E)
    || (negb (plots_force_interactive (config E))
        && (n_datasets >? plots_flat_numseries (config E))%Z) in
  let* layout := new_layout E title height width flat in
  let pct_axis_update :=
    {| upd_ticksuffix := VStr "%"; upd_hoverformat := HoverLiteral ".1f" |} in
  let axis_controlled_by_switches :=
    match axis_controlled_by_switches with
    | Some l => l
    | None => []
    end in
  let* axis_controlled_by_switches :=
    if truthy (dict_get pconfig "xlog" (dict_get_none pconfig "xLog")) then
      _set_axis_log_scale E layout "xaxis" ;;
      ret (if list_has "xaxis" axis_controlled_by_switches
           then list_remove "xaxis" axis_controlled_by_switches
           else axis_controlled_by_switches)
    else ret axis_controlled_by_switches in
  let* axis_controlled_by_switches :=
    if truthy (dict_get pconfig "ylog" (dict_get_none pconfig "yLog")) then
      _set_axis_log_scale E layout "yaxis" ;;
      ret (if list_has "yaxis" axis_controlled_by_switches
           then list_remove "yaxis" axis_controlled_by_switches
           else axis_controlled_by_switches)
    else ret axis_controlled_by_switches in
  (if truthy add_log_tab && truthy l_active then
     for_each axis_controlled_by_switches (fun axis =>
       let* a := load_axis layout axis in
       store_axis layout axis (set_type "log" a))
   else ret tt) ;;
  let* (datasets, pconfig) :=
    initialize_datasets pconfig n_datasets id default_tt_label
      (seq 0 (Z.to_nat n_datasets)) in
  let* id := validate_str id in
  let* add_log_tab := validate_bool add_log_tab in
  let* l_active := validate_bool l_active in
  let* square := validate_bool (dict_get pconfig "square" (VBool false)) in
  ret {| id := id;
         plot_type := plot_type;
         layout := layout;
         datasets := datasets;
         pconfig := pconfig;
         add_log_tab := add_log_tab;
         add_pct_tab := add_pct_tab;
         l_active := l_active;
         p_active := p_active;
         pct_axis_update := pct_axis_update;
         axis_controlled_by_switches := axis_controlled_by_switches;
         square := square;
         flat := flat |}.

(** [dataset.pct_range.get(axis, {}).get(key, default)] *)
Definition pct_bound (dataset : BaseDataset.t) (axis key : string)
    (fallback : value) : value :=
  dict_get (default ∅ (BaseDataset.pct_range dataset !! axis)) key fallback.

(** The body of the loop over the axes controlled by the switches, on
    the layout object at [layout]. *)
Definition resolve_axis (E : Env) (self : t) (dataset : BaseDataset.t)
    (layout : loc) (is_log is_pct : bool) (axis : string) : M unit :=
  let* a := load_axis layout axis in
  store_axis layout axis (set_type "linear" a) ;;
  let* a := load_axis layout axis in
  let minval := minallowed (autorangeoptions a) in
  let maxval := maxallowed (autorangeoptions a) in
  let* (minval, maxval) :=
    if is_pct then
      let* a := load_axis layout axis in
      store_axis layout axis (axis_update (pct_axis_update self) a) ;;
      ret (pct_bound dataset axis "min" (VInt 0),
           pct_bound dataset axis "max" (VInt 100))
    else ret (minval, maxval) in
  let* (minval, maxval) :=
    if is_log then
      let* a := load_axis layout axis in
      store_axis layout axis (set_type "log" a) ;;
      let* minval := lift (log10_bound E minval) in
      let* maxval := lift (log10_bound E maxval) in
      ret (minval, maxval)
    else ret (minval, maxval) in
  let* a := load_axis layout axis in
  store_axis layout axis (set_minallowed minval a) ;;
  let* a := load_axis layout axis in
  store_axis layout axis (set_maxallowed maxval a).

Definition get_figure (E : Env) (self : t) (dataset_id : Z)
    (is_log is_pct flat : bool) : M Figure :=
  let* dataset := lift (list_index (datasets self) dataset_id) in
  let* base := load (layout self) in
  let* layout := alloc base in
  let* l := load layout in
  store layout (layout_update l (BaseDataset.layout dataset)) ;;
  (if flat then
     let* l := load layout in
     store layout (set_width (VInt FLAT_PLOT_WIDTH) l)
   else ret tt) ;;
  for_each (axis_controlled_by_switches self)
    (resolve_axis E self dataset layout is_log is_pct) ;;
  let* l := load layout in
  ret (create_figure dataset l is_log is_pct).

(** [_btn]: a switch button; the plot id is added to its data
    attributes when they do not name one. *)
Definition _btn (self : t) (cls : string) (label : value)
    (data_attrs : list (string * value)) (pressed : bool) : Control :=
  let data_attrs :=
    if existsb (fun kv => String.eqb (fst kv) "pid") data_attrs
    then data_attrs
    else data_attrs ++ [("pid", VStr (id self))] in
  Btn cls label data_attrs pressed.

(** [enumerate(l)], counting from [i]. *)
Fixpoint enumerate {A} (i : nat) (l : list A) : list (nat * A) :=
  match l with
  | [] => []
  | x :: l' => (i, x) :: enumerate (S i) l'
  end.

Definition buttons (self : t) (flat : bool) : list Control * list Control :=
  let cls := if flat then "mpl_switch_group" else "interactive-switch-group" in
  let switch_buttons :=
    if add_pct_tab self || add_log_tab self then
      (if add_pct_tab self then
         [_btn self (cls +:+ " percent-switch")
            (dict_get (pconfig self) "cpswitch_percent_label" (VStr "Percentages"))
            [] (p_active self)]
       else [])
      ++
      (if add_log_tab self then
         [_btn self (cls +:+ " log10-switch")
            (dict_get (pconfig self) "logswitch_label" (VStr "Log10"))
            [] (l_active self)]
       else [])
    else [] in
  let switch_buttons :=
    if 1 <? length (datasets self) then
      switch_buttons
      ++ [SwitchGroupOpen cls]
      ++ map (fun ids =>
                _btn self "mr-auto" (BaseDataset.label (snd ids))
                  [("dataset-index", VInt (Z.of_nat (fst ids)));
                   ("dataset-uid", VStr (BaseDataset.uid (snd ids)))]
                  (fst ids =? 0))
             (enumerate 0 (datasets self))
      ++ [SwitchGroupClose]
    else switch_buttons in
  let export_btn :=
    if negb flat then [_btn self "export-plot" (VStr "Export Plot") [] false]
    else [] in
  (switch_buttons, export_btn).

Definition control_panel (self : t) (flat : bool) : Html :=
  let (switch_buttons, export_btn) := buttons self flat in
  ControlPanel switch_buttons export_btn.

(** The body of the loop of [flat_plot] over the datasets: the images of
    one dataset, in the order they are added to the page.  The calls of
    [fig_to_static_html] pass neither [export_plots] nor [embed], which
    take their defaults: [config.export_plots] and
    [not config.development] as they were when the module was imported. *)
Definition flat_plot_dataset (E : Env) (self : t) (ds_idx : nat)
    (dataset : BaseDataset.t) : M (list Html) :=
  let export_plots := export_plots (import_config E) in
  let embed := negb (development (import_config E)) in
  let uid := BaseDataset.uid dataset in
  let* fig := get_figure E self (Z.of_nat ds_idx) false false true in
  let* img :=
    fig_to_static_html E fig
      ((ds_idx =? 0) && negb (p_active self) && negb (l_active self))
      export_plots embed
      (Some (if negb (add_log_tab self) && negb (add_pct_tab self)
             then uid else uid +:+ "-cnt")) in
  let html := [Image img] in
  let* html :=
    if add_pct_tab self then
      let* fig := get_figure E self (Z.of_nat ds_idx) false true true in
      let* img :=
        fig_to_static_html E fig ((ds_idx =? 0) && p_active self)
          export_plots embed (Some (uid +:+ "-pct")) in
      ret (html ++ [Image img])
    else ret html in
  let* html :=
    if add_log_tab self then
      let* fig := get_figure E self (Z.of_nat ds_idx) true false true in
      let* img :=
        fig_to_static_html E fig ((ds_idx =? 0) && l_active self)
          export_plots embed (Some (uid +:+ "-log")) in
      ret (html ++ [Image img])
    else ret html in
  if add_pct_tab self && add_log_tab self then
    let* fig := get_figure E self (Z.of_nat ds_idx) true true true in
    let* img :=
      fig_to_static_html E fig
        ((ds_idx =? 0) && p_active self && l_active self)
        export_plots embed (Some (uid +:+ "-pct-log")) in
    ret (html ++ [Image img])
  else ret html.

(** [for ds_idx, dataset in enumerate(self.datasets)] *)
Fixpoint flat_plot_datasets (E : Env) (self : t)
    (l : list (nat * BaseDataset.t)) : M (list Html) :=
  match l with
  | [] => ret []
  | (ds_idx, dataset) :: l' =>
      let* html := flat_plot_dataset E self ds_idx dataset in
      let* html' := flat_plot_datasets E self l' in
      ret (html ++ html')
  end.

Definition flat_plot (E : Env) (self : t) : M (list Html) :=
  let html := [FlatPlotNotice; PlotGroupOpen (id self)] in
  let html :=
    if negb (simple_output (config E))
    then html ++ [control_panel self true] else html in
  let* images := flat_plot_datasets E self (enumerate 0 (datasets self)) in
  ret (html ++ images ++ [PlotGroupClose]).

(** What [show] returns: the figure, or its static image wrapped as
    [IPython]'s [HTML]. *)
Inductive Shown :=
  | ShownFigure (fig : Figure)
  | ShownHTML (img : StaticImage).

(** [show], with the view that its keyword arguments pass on to
    [get_figure]. *)
Definition show (E : Env) (self : t) (dataset_id : Z) (is_log is_pct flat : bool)
  : M Shown :=
  let* fig := get_figure E self dataset_id is_log is_pct flat in
  if flat then
    let* img := fig_to_static_html E fig true false true (Some (id self)) in
    ret (ShownHTML img)
  else ret (ShownFigure fig).

End Plot.

(** ** [split_long_string] *)

(** A character of a word, as the pattern [\W] excludes it: a letter, a
    digit or the underscore.  A string is a sequence of bytes here and
    only ASCII is classified: a character outside ASCII, which Python
    classifies and counts as one code point, is a run of separators, one
    for each byte of its encoding. *)
Definition is_word_char (c : Ascii.ascii) : bool :=
  let n := Ascii.nat_of_ascii c in
  ((48 <=? n) && (n <=? 57)) || ((65 <=? n) && (n <=? 90))
  || ((97 <=? n) && (n <=? 122)) || (n =? 95).

(** [re.split(r"(\W+)", s)]: the words of [s] and, between them, the runs
    of other characters that separate them.  [in_word] tells which of the
    two is being read, [cur] holds it in reverse.  The list starts and ends
    with a word, empty when [s] starts or ends with a separator. *)
Fixpoint re_split_aux (in_word : bool) (cur : string) (s : string) : list string :=
  match s with
  | EmptyString =>
      if in_word then [String.rev cur] else [String.rev cur; EmptyString]
  | String c s' =>
      if Bool.eqb (is_word_char c) in_word
      then re_split_aux in_word (String c cur) s'
      else String.rev cur :: re_split_aux (is_word_char c) (String c EmptyString) s'
  end.

Definition re_split_nonword (s : string) : list string :=
  re_split_aux true EmptyString s.

(** One round of the loop over the words: the lines so far and the line
    being filled. *)
Definition split_step (max_width : Z) (acc : list string * string) (word : string)
  : list string * string :=
  let (lines, current_line) := acc in
  if (Z.of_nat (String.length (current_line +:+ word)) <=? max_width)%Z
  then (lines, current_line +:+ word)
  else ((if String.eqb current_line "" then lines else lines ++ [current_line]),
        word).

Definition split_long_string (s : string) (max_width : Z) : list string :=
  let (lines, current_line) :=
    fold_left (split_step max_width) (re_split_nonword s) ([], EmptyString) in
  if String.eqb current_line "" then lines else lines ++ [current_line].

(** ** A sample world and sample plots *)

Definition sample_config : Config :=
  {| strict := false; plots_force_flat := false;
     plots_force_interactive := false; plots_flat_numseries := 100;
     export_plots := false; development := false; simple_output := false;
     export_plot_formats := ["png"]; plots_dir_name := "multiqc_plots";
     plots_tmp_dir := "tmp" |}.

(** [math_log10] of the sample world is the integer part of the base-10
    logarithm (one less than the number of digits of the integer part of
    its argument), and [float_str] writes the integer part of a float with
    one decimal: the theorems hold for every function in their place. *)
Definition sample_env : Env :=
  {| config := sample_config;
     import_config := sample_config;
     math_log10 :=
       fun q =>
         inject_Z (Z.of_nat (String.length (pretty (Qnum q / Zpos (Qden q))%Z)) - 1);
     float_str := fun q => pretty (Qnum q / Zpos (Qden q))%Z +:+ ".0";
     random_sample := fun _ => "qwertyuiop";
     random_randint := fun n => (1000000 + Z.of_nat n)%Z |}.

Definition empty_state : State :=
  {| heap := []; log := []; lint_errors := []; files := []; draws := 0 |}.

Definition sample_pconfig : gmap string value :=
  {[ "ymin" := VInt 5; "ymax" := VInt 50; "logswitch" := VBool true ]}.

(** The plot that [initialize] builds for a bar graph of two datasets with
    the y axis under the switches, and the state it leaves. *)
Definition sample_run : result Plot.t * State :=
  Plot.initialize sample_env BAR sample_pconfig 2 (Some "p") (Some ["yaxis"]) None
    empty_state.

Definition sample_plot : Plot.t :=
  match fst sample_run with
  | Ok p => p
  | Raise _ =>
      {| Plot.id := ""; Plot.plot_type := BAR; Plot.layout := 0;
         Plot.datasets := []; Plot.pconfig := ∅; Plot.add_log_tab := false;
         Plot.add_pct_tab := false; Plot.l_active := false;
         Plot.p_active := false;
         Plot.pct_axis_update :=
           {| upd_ticksuffix := VNone; upd_hoverformat := HoverUnset |};
         Plot.axis_controlled_by_switches := []; Plot.square := false;
         Plot.flat := false |}
  end.

Definition sample_state : State := snd sample_run.

(** * Specification

    The notions the theorems are stated with: what a computation may
    write in the store, axis resolution as a function of the layout, the
    bounds a view can be resolved for, the images of a flat plot, the uids
    of the datasets, and the objects of the sample plot. *)

(** [frame r st st']: from [st] to [st'] the store keeps its size and every
    object other than the one at [r]. *)
Definition frame (r : loc) (st st' : State) : Prop :=
  length (heap st') = length (heap st)
  /\ forall l, l <> r -> heap st' !! l = heap st !! l.

(** A computation that writes to no object but the one at [r], whatever
    its outcome. *)
Definition writes_only (r : loc) {A} (m : M A) : Prop :=
  forall st res st', m st = (res, st') -> frame r st st'.

(** The state with the object at [r] replaced. *)
Definition put (r : loc) (l : Layout) (st : State) : State :=
  set_heap (<[r := l]> (heap st)) st.

(** What the loop body of [get_figure] makes of an axis, given the
    percentage update of the plot and the percentage range of the dataset
    for that axis. *)
Definition resolved_axis (E : Env) (upd : AxisUpdate) (pmin pmax : value)
    (is_log is_pct : bool) (a : Axis) : result Axis :=
  let a1 := set_type "linear" a in
  let a2 := if is_pct then axis_update upd a1 else a1 in
  let minval := if is_pct then pmin else minallowed (autorangeoptions a) in
  let maxval := if is_pct then pmax else maxallowed (autorangeoptions a) in
  if is_log then
    let? minval := log10_bound E minval in
    let? maxval := log10_bound E maxval in
    Ok (set_maxallowed maxval (set_minallowed minval (set_type "log" a2)))
  else Ok (set_maxallowed maxval (set_minallowed minval a2)).

(** The names of the two axes of a layout. *)
Definition is_axis (name : string) : Prop := name = "xaxis" \/ name = "yaxis".

(** The layout after the loop of [get_figure] over the axes. *)
Fixpoint resolved_layout (E : Env) (self : Plot.t) (ds : BaseDataset.t)
    (is_log is_pct : bool) (axes : list string) (l : Layout) : result Layout :=
  match axes with
  | [] => Ok l
  | axis :: axes' =>
      let? a := layout_axis l axis in
      let? a' := resolved_axis E (Plot.pct_axis_update self)
                   (Plot.pct_bound ds axis "min" (VInt 0))
                   (Plot.pct_bound ds axis "max" (VInt 100)) is_log is_pct a in
      let? l' := layout_set_axis l axis a' in
      resolved_layout E self ds is_log is_pct axes' l'
  end.

(** The layout that [get_figure] starts the loop from. *)
Definition merged_layout (base : Layout) (ds : BaseDataset.t) (flat : bool) : Layout :=
  let l := layout_update base (BaseDataset.layout ds) in
  if flat then set_width (VInt FLAT_PLOT_WIDTH) l else l.







(** The ids of the images of a page, in order. *)
Definition image_ids (html : list Html) : list string :=
  flat_map (fun h => match h with Image img => [img_id img] | _ => [] end) html.


(** The images of a page, in order. *)
Definition images (html : list Html) : list StaticImage :=
  flat_map (fun h => match h with Image img => [img] | _ => [] end) html.









(** A switch counted: 1 when it is there. *)
Definition b2n (b : bool) : nat := if b then 1 else 0.

(** The uid of the dataset of index [idx] of a plot of [n] datasets. *)
Definition dataset_uid (n : Z) (pid : string) (idx : nat) : string :=
  if (n >? 1)%Z then pid +:+ "_" +:+ pretty (idx + 1) else pid.

(** [isinstance(e, ValueError)]: the [ValidationError] of pydantic is a
    subclass of [ValueError]. *)
Definition is_ValueError (e : exn) : bool :=
  match e with
  | ValueError _ | ValidationError => true
  | _ => false
  end.

(** The error of a construction for no dataset. *)
Definition no_datasets : exn := ValueError "No datasets to plot".

(** An exception other than that one. *)
Definition benign (e : exn) : Prop := e <> no_datasets.

(** A result, and a computation, that does not raise it. *)
Definition rsafe {A} (r : result A) : Prop :=
  forall e, r = Raise e -> benign e.

Definition msafe {A} (m : M A) : Prop :=
  forall st e st', m st = (Raise e, st') -> benign e.

(** The layout object and the first dataset of the sample plot. *)
Definition sample_base : Layout :=
  default
    {| title := VNone; xaxis := Plot.new_axis; yaxis := Plot.new_axis;
       height := VNone; width := VNone; showlegend := false; legend := false |}
    (heap sample_state !! Plot.layout sample_plot).

Definition sample_dataset : BaseDataset.t :=
  default
    {| BaseDataset.plot_id := ""; BaseDataset.label := VNone;
       BaseDataset.uid := ""; BaseDataset.dconfig := ∅;
       BaseDataset.layout :=
         {| dl_title := VNone; dl_xaxis := Plot.new_axis;
            dl_yaxis := Plot.new_axis |};
       BaseDataset.trace_params := ∅; BaseDataset.pct_range := ∅ |}
    (Plot.datasets sample_plot !! 0).

(** A figure with no width: the first dataset on the layout of the plot,
    which the sample configuration gives no width. *)
Definition sample_figure : Figure :=
  create_figure sample_dataset sample_base false false.


Definition is_axis_b (name : string) : bool :=
  String.eqb name "xaxis" || String.eqb name "yaxis".



(** ** Notions for the further properties *)

(** The strings of a list, one after the other. *)
Definition joined (l : list string) : string := fold_right String.append EmptyString l.

(** A line that [split_long_string] may emit: not empty, and within the
    width unless it is one piece of the text on its own. *)
Definition line_ok (max_width : Z) (words : list string) (line : string) : Prop :=
  line <> ""
  /\ ((Z.of_nat (String.length line) <= max_width)%Z \/ line ∈ words).

(** The tokens of the older templating syntax that
    [_clean_config_tt_label] rewrites. *)
Definition legacy_tokens : list string :=
  ["{point.x"; "{point.y"; "x:>"; "y:>"; "{point.category}"; "<strong>";
   "</strong>"; "<br/>"].

(** The spelling that the loop over the known suffixes gives a suffix: the
    base-pair units take a leading space, any other string is kept. *)
Definition known_spelling (s : string) : string :=
  if existsb (String.eqb s) ["bp"; "kbp"; "Mbp"] then " " +:+ s else s.

(** The keys that [rename_deprecated_highcharts_keys] reads or writes. *)
Definition renamed_keys : list string :=
  ["y_ceiling"; "yaxis"; "xAxis"; "xaxis"; "tooltip"; "hovertemplate"].

(** The files that an export of [name] writes, and the log lines that
    announce them: one per export format, in the order of the
    configuration. *)
Definition exported_files (E : Env) (name : string) : list string :=
  map (fun file_ext =>
         path3 (plots_tmp_dir (config E)) file_ext (name +:+ "." +:+ file_ext))
      (export_plot_formats (config E)).

Definition export_messages (E : Env) (name : string) : list (level * message) :=
  map (fun file_ext =>
         (DEBUG, WritingPlot (path3 (plots_dir_name (config E)) file_ext
                                (name +:+ "." +:+ file_ext))))
      (export_plot_formats (config E)).

(** The state after some log lines, files and random draws. *)
Definition reported (msgs : list (level * message)) (paths : list string)
    (n : nat) (st : State) : State :=
  {| heap := heap st; log := log st ++ msgs; lint_errors := lint_errors st;
     files := files st ++ paths; draws := n + draws st |}.

(** A computation all of whose runs relate the state before to the state
    after by [R]. *)
Definition preserves (R : State -> State -> Prop) {A} (m : M A) : Prop :=
  forall st res st', m st = (res, st') -> R st st'.

(** From one state to a later one nothing is taken back: the objects of
    the store are there unchanged, the log and the list of files are
    extended, the lint errors are the same. *)
Definition only_adds (st st' : State) : Prop :=
  length (heap st) <= length (heap st')
  /\ (forall l, l < length (heap st) -> heap st' !! l = heap st !! l)
  /\ log st `prefix_of` log st'
  /\ files st `prefix_of` files st'
  /\ lint_errors st' = lint_errors st.

(** The images of a page that are shown when it loads, by id. *)
Definition visible_ids (html : list Html) : list string :=
  flat_map (fun h =>
              match h with
              | Image img => if img_hidden img then [] else [img_id img]
              | _ => []
              end) html.

(** The views of the first dataset that the switches make active. *)
Definition active_names (self : Plot.t) (ds : BaseDataset.t) : list string :=
  let uid := BaseDataset.uid ds in
  if Plot.p_active self && Plot.l_active self
  then [uid +:+ "-pct"; uid +:+ "-log"; uid +:+ "-pct-log"]
  else if Plot.p_active self then [uid +:+ "-pct"]
  else if Plot.l_active self then [uid +:+ "-log"]
  else [if negb (Plot.add_log_tab self) && negb (Plot.add_pct_tab self)
        then uid else uid +:+ "-cnt"].

(** The data attributes of the buttons of a list of controls. *)
Definition button_attrs (controls : list Control) : list (list (string * value)) :=
  flat_map (fun c =>
              match c with
              | Btn _ _ data_attrs _ => [data_attrs]
              | _ => []
              end) controls.

(** The buttons of the dataset switch: label, index, uid and whether the
    button is pressed. *)
Definition dataset_buttons (controls : list Control)
  : list (value * value * value * bool) :=
  flat_map (fun c =>
              match c with
              | Btn _ label [("dataset-index", i); ("dataset-uid", u); _] pressed =>
                  [(label, i, u, pressed)]
              | _ => []
              end) controls.

(** The plot id is the one [pid] attribute of a button. *)
Definition names_plot (self : Plot.t) (attrs : list (string * value)) : Prop :=
  filter (fun kv => fst kv = "pid") attrs = [("pid", VStr (Plot.id self))].

(** The files written for the images of a page, when the export of plots
    was on as the module was imported. *)
Definition page_files (E : Env) (html : list Html) : list string :=
  if export_plots (import_config E)
  then flat_map (exported_files E) (image_ids html)
  else [].

(** [id or pconfig.get("id")] *)
Definition given_id (pconfig : gmap string value) (id : option string) : value :=
  match id with
  | Some (String c s) => VStr (String c s)
  | _ => dict_get_none pconfig "id"
  end.

(** The label that the entry of index [idx] of [data_labels] gives a
    dataset: the name or else the label of a dictionary, the entry itself
    when it is no dictionary, the index counted from 1 where the list has
    no entry. *)
Definition label_of (entries : list value) (idx : nat) : value :=
  match entries !! idx with
  | Some (VDict d) => dict_get d "name" (dict_get d "label" (VStr (pretty (idx + 1))))
  | Some v => v
  | None => VStr (pretty (idx + 1))
  end.

(** From one state to a later one only the log and the object at [r] have
    changed. *)
Definition quiet_at (r : loc) (st st' : State) : Prop :=
  frame r st st'
  /\ files st' = files st
  /\ lint_errors st' = lint_errors st
  /\ draws st' = draws st.

(** The axis [axis] of the layout at [r] is logarithmic. *)
Definition log_at (r : loc) (axis : string) (st : State) : Prop :=
  exists l a, heap st !! r = Some l /\ layout_axis l axis = Ok a /\ type a = Some "log".

Definition keeps_log (r : loc) (axis : string) (st st' : State) : Prop :=
  log_at r axis st -> log_at r axis st'.

(** The layout at [r] has height [h] and width [w]. *)
Definition size_at (r : loc) (h w : value) (st : State) : Prop :=
  exists l, heap st !! r = Some l /\ height l = h /\ width l = w.

Definition keeps_size (r : loc) (h w : value) (st st' : State) : Prop :=
  size_at r h w st -> size_at r h w st'.

(** A setting that is unset or a string. *)
Definition text_or_none (v : value) : bool :=
  match v with
  | VNone | VStr _ => true
  | _ => false
  end.

(** The settings that [_dataset_layout] treats as text. *)
Definition text_keys : list string :=
  ["ysuffix"; "tt_suffix"; "xsuffix"; "ylab_format"; "yLabFormat";
   "xlab_format"; "xLabFormat"; "ylab"; "xlab"].

(** A configuration whose text settings are unset or strings, and whose
    tooltip label, when it has one, is a string. *)
Definition text_config (conf : gmap string value) : Prop :=
  Forall (fun k => text_or_none (dict_get_none conf k) = true) text_keys
  /\ match conf !! "tt_label" with
     | Some (VStr _) | None => True
     | Some _ => False
     end.

(** An entry of [data_labels] that gives a dataset a label and a layout:
    a string, or a dictionary whose text settings, laid over those of the
    plot, are unset or strings. *)
Definition label_entry_ok (pconfig : gmap string value) (entry : value) : Prop :=
  match entry with
  | VStr _ => True
  | VDict d =>
      text_config (dict_update pconfig d)
      /\ text_or_none (dict_get d "name" (dict_get_none d "label")) = true
  | _ => False
  end.

Definition plot_config_ok (pconfig : gmap string value) : Prop :=
  text_config pconfig
  /\ match pconfig !! "data_labels" with
     | None => True
     | Some (VList entries) => Forall (label_entry_ok pconfig) entries
     | Some _ => False
     end.

(** A height or a width that the layout takes: unset, or a number, no
    boolean, from 10 on. *)
Definition size_ok (v : value) : bool :=
  match v with
  | VNone => true
  | VInt z => (10 <=? z)%Z
  | VFloat q => Qle_bool 10 q
  | _ => false
  end.

(** A [logswitch] that leaves a boolean in the fields of the switch: the
    value [False], or any value that counts as true. *)
Definition switch_ok (v : value) : bool := truthy v || is_False v.

(** A configuration that the layout and the model of the plot take: the
    title is unset or a string, the height and the width are unset or
    numbers from 10 on, [logswitch] is [False] or counts as true, and
    [square] is absent or a boolean. *)
Definition fields_ok (pconfig : gmap string value) : Prop :=
  text_or_none (dict_get pconfig "table_title" (dict_get_none pconfig "title")) = true
  /\ size_ok (dict_get pconfig "height" (VInt 500)) = true
  /\ size_ok (dict_get_none pconfig "width") = true
  /\ switch_ok (dict_get pconfig "logswitch" (VBool false)) = true
  /\ match pconfig !! "square" with
     | None | Some (VBool _) => True
     | Some _ => False
     end.

(** Two configurations with the same text settings. *)
Definition same_text (c1 c2 : gmap string value) : Prop :=
  Forall (fun k => c1 !! k = c2 !! k) ("tt_label" :: text_keys).

(** What the loop over the datasets keeps of [data_labels]: the entries
    from [idx] on are those of the configuration given to [initialize]. *)
Definition labels_from (pconfig0 : gmap string value) (idx : nat)
    (pconfig : gmap string value) : Prop :=
  match pconfig0 !! "data_labels" with
  | None => pconfig !! "data_labels" = None
  | Some (VList entries) =>
      exists l, pconfig !! "data_labels" = Some (VList l)
                /\ forall j, idx <= j -> l !! j = entries !! j
  | Some _ => False
  end.

(** The entry of [data_labels] that a round of the loop reads. *)
Definition entry_read (pconfig : gmap string value) (idx : nat) (dconfig : value)
  : Prop :=
  exists l, py_or (dict_get_none pconfig "data_labels") (VList []) = VList l
            /\ (l !! idx = Some dconfig \/ (l !! idx = None /\ dconfig = VDict ∅)).

(** A layout whose axes have no bounds, as [initialize] creates it. *)
Definition unbounded (l : Layout) : Prop :=
  minallowed (autorangeoptions (xaxis l)) = VNone
  /\ maxallowed (autorangeoptions (xaxis l)) = VNone
  /\ minallowed (autorangeoptions (yaxis l)) = VNone
  /\ maxallowed (autorangeoptions (yaxis l)) = VNone.

(** A configuration with exports on, in two formats. *)
Definition export_config : Config :=
  {| strict := false; plots_force_flat := false;
     plots_force_interactive := false; plots_flat_numseries := 100;
     export_plots := true; development := false; simple_output := false;
     export_plot_formats := ["png"; "svg"]; plots_dir_name := "multiqc_plots";
     plots_tmp_dir := "tmp" |}.

(** The sample world with exports on from the import of the module on. *)
Definition export_env : Env :=
  {| config := export_config;
     import_config := export_config;
     math_log10 := math_log10 sample_env;
     float_str := float_str sample_env;
     random_sample := random_sample sample_env;
     random_randint := random_randint sample_env |}.

(** The sample world with exports switched on after the import of the
    module. *)
Definition late_export_env : Env :=
  {| config := export_config;
     import_config := sample_config;
     math_log10 := math_log10 sample_env;
     float_str := float_str sample_env;
     random_sample := random_sample sample_env;
     random_randint := random_randint sample_env |}.

(** A configuration with two labelled datasets. *)
Definition labelled_pconfig : gmap string value :=
  {[ "title" := VStr "Reads";
     "data_labels" :=
       VList [VStr "Counts";
              VDict {[ "name" := VStr "Share"; "ysuffix" := VStr "%" ]}] ]}.

(** * Verification *)

(** ** The model on small inputs *)

Example strip_bp : strip " bp" = "bp".
Proof. reflexivity. Qed.

Example split_brace : split "{:.1f}%" "}" = ["{:.1f"; "%"].
Proof. reflexivity. Qed.

Example split_multi : split "a%{b%{c" "%{" = ["a"; "b"; "c"].
Proof. reflexivity. Qed.

Example replace_point :
  replace "{point.y:.2f} of {point.y}" "{point.y" "%{y" = "%{y:.2f} of %{y}".
Proof. reflexivity. Qed.

Example endswith_ok : endswith "Depth (x)" " (x)" = true.
Proof. reflexivity. Qed.

Example lower_ok : lower "Percentage OF" = "percentage of".
Proof. reflexivity. Qed.

Example rename_tooltip :
  rename_deprecated_highcharts_keys {[ "tooltip" := VStr "x"; "id" := VStr "p" ]}
  = Ok {[ "hovertemplate" := VStr "x"; "id" := VStr "p" ]}.
Proof. vm_compute. reflexivity. Qed.

Example dataset_layout_percent :
  (let? r := _dataset_layout {[ "ylab" := VStr "% reads" ]} ∅ None in
   Ok (ticksuffix (dl_yaxis (fst r)))) = Ok (VStr "%").
Proof. vm_compute. reflexivity. Qed.

Example dataset_layout_tt_label :
  (let? r := _dataset_layout
       {[ "tt_label" := VStr "<strong>{point.x} bp</strong>: {point.y:.2f}%" ]} ∅ None in
   Ok (ticksuffix (dl_xaxis (fst r)), ticksuffix (dl_yaxis (fst r)),
       snd r !! "hovertemplate"))
  = Ok (VStr " bp", VStr "%",
        Some (VStr "<b>%{text}</b><br><b>%{x}</b>: %{y:.2f}%<extra></extra>")).
Proof. vm_compute. reflexivity. Qed.

(** ** Reasoning about computations *)

Lemma bind_ok_inv {A B} (m : M A) (k : A -> M B) st b st' :
  bind m k st = (Ok b, st') ->
  exists a st1, m st = (Ok a, st1) /\ k a st1 = (Ok b, st').
Proof.
  unfold bind. destruct (m st) as [[a|e] st1]; intros H; [eauto | discriminate].
Qed.

Lemma bind_ok {A B} (m : M A) (k : A -> M B) st a st1 :
  m st = (Ok a, st1) -> bind m k st = k a st1.
Proof. unfold bind. intros ->. reflexivity. Qed.

Lemma bind_raise {A B} (m : M A) (k : A -> M B) st e st1 :
  m st = (Raise e, st1) -> bind m k st = (Raise e, st1).
Proof. unfold bind. intros ->. reflexivity. Qed.

Lemma rbind_ok_inv {A B} (r : result A) (k : A -> result B) b :
  rbind r k = Ok b -> exists a, r = Ok a /\ k a = Ok b.
Proof. destruct r; simpl; intros H; [eauto | discriminate]. Qed.

(** ** Deprecated keys *)

(** A deprecated key that is absent leaves the configuration alone, and
    the x-axis and tooltip keys are renamed. *)
Lemma rename_without_yCeiling (conf : gmap string value) :
  conf !! "yCeiling" = None ->
  exists conf', rename_deprecated_highcharts_keys conf = Ok conf'.
Proof.
  intros Hy. unfold rename_deprecated_highcharts_keys, dict_has, dict_pop.
  rewrite Hy. simpl.
  destruct (conf !! "xAxis") as [vx|] eqn:Hx; simpl.
  - rewrite lookup_insert_ne by discriminate.
    rewrite lookup_delete_ne by discriminate.
    destruct (conf !! "tooltip") as [vt|] eqn:Ht; simpl; eauto.
  - destruct (conf !! "tooltip") as [vt|] eqn:Ht; simpl; eauto.
Qed.

Lemma rename_unknown_only (conf : gmap string value) :
  conf !! "yCeiling" = None -> conf !! "xAxis" = None ->
  conf !! "tooltip" = None ->
  rename_deprecated_highcharts_keys conf = Ok conf.
Proof.
  intros Hy Hx Ht. unfold rename_deprecated_highcharts_keys, dict_has.
  rewrite Hy. simpl. rewrite Hx. simpl. rewrite Ht. reflexivity.
Qed.

(** With the legacy y-ceiling key present, the key that is popped is
    another one: the renaming raises unless [y_ceiling] is present too. *)
Lemma rename_yCeiling_raises (conf : gmap string value) v :
  conf !! "yCeiling" = Some v -> conf !! "y_ceiling" = None ->
  rename_deprecated_highcharts_keys conf = Raise (KeyError "y_ceiling").
Proof.
  intros Hy Hp. unfold rename_deprecated_highcharts_keys, dict_has, dict_pop.
  rewrite Hy, Hp. reflexivity.
Qed.

(** C3: on the configuration that holds only the legacy y-ceiling key,
    [rename_deprecated_highcharts_keys] raises [KeyError] for the key
    [y_ceiling]: it tests for [yCeiling] and pops [y_ceiling], where the
    x-axis and tooltip branches pop the key they test for. *)
Theorem rename_deprecated_yCeiling_KeyError :
  rename_deprecated_highcharts_keys {[ "yCeiling" := VInt 100 ]}
  = Raise (KeyError "y_ceiling").
Proof. apply (rename_yCeiling_raises _ (VInt 100)); reflexivity. Qed.

(** ** Known suffixes *)

(** A bare token of the known suffixes takes the spelling of the list. *)
Lemma set_space_bare :
  fold_left set_space KNOWN_SUFFIXES (VStr "%") = VStr "%"
  /\ fold_left set_space KNOWN_SUFFIXES (VStr "bp") = VStr " bp"
  /\ fold_left set_space KNOWN_SUFFIXES (VStr "kbp") = VStr " kbp".
Proof. repeat split; reflexivity. Qed.

(** A suffix written with a space that the list does not have keeps it:
    the loop compares the suffix itself, not its stripped form. *)
Lemma set_space_padded :
  fold_left set_space KNOWN_SUFFIXES (VStr " %") = VStr " %"
  /\ fold_left set_space KNOWN_SUFFIXES (VStr "bp ") = VStr "bp ".
Proof. split; reflexivity. Qed.

(** C9: for the suffix value [" %"], the tick suffix that
    [_dataset_layout] resolves is [" %"], not ["%"]; the bare values ["%"]
    and ["bp"] resolve to ["%"] and [" bp"].  The loop is headed "Set or
    remove space in known suffixes" and only sets the space. *)
Theorem dataset_layout_padded_percent :
  (let? r := _dataset_layout {[ "ysuffix" := VStr " %" ]} ∅ None in
   Ok (ticksuffix (dl_yaxis (fst r)))) = Ok (VStr " %")
  /\ (let? r := _dataset_layout {[ "ysuffix" := VStr "%" ]} ∅ None in
      Ok (ticksuffix (dl_yaxis (fst r)))) = Ok (VStr "%")
  /\ (let? r := _dataset_layout {[ "ysuffix" := VStr "bp" ]} ∅ None in
      Ok (ticksuffix (dl_yaxis (fst r)))) = Ok (VStr " bp").
Proof. repeat split; vm_compute; reflexivity. Qed.

(** ** Static images *)

Lemma export_loop_ok (body : string -> string * string) (l : list string) st :
  exists st',
    for_each l (fun x =>
      logger DEBUG (WritingPlot (fst (body x))) ;; write_file (snd (body x))) st
    = (Ok tt, st').
Proof.
  revert st. induction l as [|x l IH]; intros st; simpl.
  - eexists. reflexivity.
  - unfold bind at 1. unfold bind at 1. simpl. apply IH.
Qed.

(** C10: [fig_to_static_html] raises [AssertionError] on a figure whose
    layout has no width (or a width that counts as false), before anything
    is written; with a width, it raises [ValueError] when plots are
    exported, or the image is not embedded, and no file name is given; with
    a width and a file name it returns the image. *)
Theorem fig_to_static_html_contract (E : Env) (fig : Figure)
    (active export_plots embed : bool) (file_name : option string) (st : State) :
  (truthy (width (fig_layout fig)) = false ->
   fig_to_static_html E fig active export_plots embed file_name st
   = (Raise AssertionError, st))
  /\ (truthy (width (fig_layout fig)) = true -> file_name = None ->
      export_plots = true ->
      fig_to_static_html E fig active export_plots embed file_name st
      = (Raise (ValueError "file_name is required for export_plots"), st))
  /\ (truthy (width (fig_layout fig)) = true -> file_name = None ->
      export_plots = false -> embed = false ->
      fig_to_static_html E fig active export_plots embed file_name st
      = (Raise (ValueError "file_name is required for non-embedded plots"), st))
  /\ (truthy (width (fig_layout fig)) = true ->
      forall name, file_name = Some name ->
      exists img st',
        fig_to_static_html E fig active export_plots embed file_name st
        = (Ok img, st')).
Proof.
  unfold fig_to_static_html. repeat split.
  - intros ->. reflexivity.
  - intros -> -> ->. reflexivity.
  - intros -> -> -> ->. reflexivity.
  - intros -> name ->.
    rewrite (bind_ok _ _ st tt st) by reflexivity.
    destruct export_plots.
    + destruct (export_loop_ok
                  (fun file_ext =>
                     (path3 (plots_dir_name (config E)) file_ext
                        (name +:+ "." +:+ file_ext),
                      path3 (plots_tmp_dir (config E)) file_ext
                        (name +:+ "." +:+ file_ext)))
                  (export_plot_formats (config E)) st) as [st1 H1].
      simpl in H1. rewrite (bind_ok _ _ st tt st1) by exact H1.
      destruct embed, name; simpl; unfold bind; simpl; eauto.
    + rewrite (bind_ok _ _ st tt st) by reflexivity.
      destruct embed, name; simpl; unfold bind; simpl; eauto.
Qed.

(** ** Construction: dataset labels *)

(** C8: a [data_labels] entry that is neither a string nor a dictionary
    (here the integer 42) is warned about and then used as the name of the
    dataset.  Construction raises [TypeError] when the configuration has
    no [ylab], since the entry becomes the y label and is searched for a
    percent sign; with a [ylab] it succeeds and the label of the dataset is
    the entry itself, not the index string. *)
Theorem initialize_invalid_data_label (E : Env) (st : State) :
  fst (Plot.initialize E BAR
         {[ "title" := VStr "T"; "data_labels" := VList [VInt 42] ]}
         1 (Some "p") None None st) = Raise TypeError
  /\ exists plot st',
       Plot.initialize E BAR
         {[ "title" := VStr "T"; "ylab" := VStr "Reads";
            "data_labels" := VList [VInt 42] ]}
         1 (Some "p") None None st = (Ok plot, st')
       /\ map BaseDataset.label (Plot.datasets plot) = [VInt 42]
       /\ map BaseDataset.label (Plot.datasets plot) <> [VStr "1"]
       /\ log st' = log st ++ [(WARNING, InvalidDataLabelsType (VInt 42))].
Proof.
  destruct E as [cfg lg rs ri]. destruct st as [h lo li fi dr]. split.
  - vm_compute. reflexivity.
  - eexists. eexists. split; [vm_compute; reflexivity |].
    repeat split; try discriminate.
Qed.

(** ** The object store: what a computation may write *)

Lemma frame_refl r st : frame r st st.
Proof. split; auto. Qed.

Lemma frame_trans r st1 st2 st3 :
  frame r st1 st2 -> frame r st2 st3 -> frame r st1 st3.
Proof.
  intros [L1 H1] [L2 H2]. split; [congruence |].
  intros l Hl. rewrite H2, H1; auto.
Qed.

Lemma wo_ret r {A} (a : A) : writes_only r (ret a).
Proof. intros st res st' [= <- <-]. apply frame_refl. Qed.

Lemma wo_raise r {A} e : writes_only r (@raise A e).
Proof. intros st res st' [= <- <-]. apply frame_refl. Qed.

Lemma wo_lift r {A} (x : result A) : writes_only r (lift x).
Proof. intros st res st' [= <- <-]. apply frame_refl. Qed.

Lemma wo_bind r {A B} (m : M A) (k : A -> M B) :
  writes_only r m -> (forall a, writes_only r (k a)) -> writes_only r (bind m k).
Proof.
  intros Hm Hk st res st'. unfold bind.
  destruct (m st) as [[a|e] st1] eqn:Em; intros H.
  - eapply frame_trans; [eapply Hm; eauto | eapply Hk; eauto].
  - injection H as <- <-. eapply Hm; eauto.
Qed.

Lemma wo_load r r' : writes_only r (load r').
Proof.
  intros st res st'. unfold load.
  destruct (heap st !! r'); intros [= <- <-]; apply frame_refl.
Qed.

Lemma wo_store r l : writes_only r (store r l).
Proof.
  intros st res st' [= <- <-]. split; simpl.
  - apply length_insert.
  - intros l' Hl. apply list_lookup_insert_ne. congruence.
Qed.

Lemma wo_load_axis r r' name : writes_only r (load_axis r' name).
Proof.
  unfold load_axis. apply wo_bind; [apply wo_load | intros; apply wo_lift].
Qed.

Lemma wo_store_axis r name a : writes_only r (store_axis r name a).
Proof.
  unfold store_axis. apply wo_bind; [apply wo_load | intros l].
  apply wo_bind; [apply wo_lift | intros; apply wo_store].
Qed.

Lemma wo_for_each r {A} (l : list A) (body : A -> M unit) :
  (forall x, writes_only r (body x)) -> writes_only r (for_each l body).
Proof.
  intros Hb. induction l as [|x l IH]; simpl.
  - apply wo_ret.
  - apply wo_bind; [apply Hb | intros; apply IH].
Qed.

Create HintDb wo.
#[local] Hint Resolve wo_ret wo_raise wo_lift wo_load wo_store wo_load_axis
  wo_store_axis : wo.

(** One step through a computation built from the primitives above. *)
Ltac wo_step :=
  first
    [ apply wo_bind; [| intros ]
    | apply wo_for_each; intros
    | solve [ auto with wo ]
    | match goal with
      | |- writes_only _ (let (_, _) := ?p in _) => destruct p
      | |- writes_only _ (if ?b then _ else _) => destruct b
      end ].

Lemma wo_set_axis_log_scale E r axis : writes_only r (_set_axis_log_scale E r axis).
Proof. unfold _set_axis_log_scale. repeat wo_step. Qed.

Lemma wo_resolve_axis E self dataset r is_log is_pct axis :
  writes_only r (Plot.resolve_axis E self dataset r is_log is_pct axis).
Proof. unfold Plot.resolve_axis. repeat wo_step. Qed.


(** ** Axis resolution as a function of the layout *)

Lemma layout_axis_ok l name a : layout_axis l name = Ok a -> is_axis name.
Proof.
  unfold layout_axis, is_axis.
  destruct (String.eqb name "xaxis") eqn:Ex; [apply String.eqb_eq in Ex; auto |].
  destruct (String.eqb name "yaxis") eqn:Ey; [apply String.eqb_eq in Ey; auto |].
  discriminate.
Qed.

(** The primitives, run on a state whose object at [r] is [l]. *)
Lemma put_put r l1 l2 st : put r l2 (put r l1 st) = put r l2 st.
Proof. unfold put, set_heap. simpl. f_equal. apply list_insert_insert_eq. Qed.

Lemma put_id r l st : heap st !! r = Some l -> put r l st = st.
Proof.
  intros H. unfold put, set_heap. rewrite list_insert_id by exact H.
  destruct st; reflexivity.
Qed.

Lemma load_put r l st :
  r < length (heap st) -> load r (put r l st) = (Ok l, put r l st).
Proof.
  intros H. unfold load. simpl. rewrite list_lookup_insert_eq by exact H.
  reflexivity.
Qed.

Lemma store_put r l l' st : store r l' (put r l st) = (Ok tt, put r l' st).
Proof. unfold store. rewrite <- (put_put r l l' st). reflexivity. Qed.

Lemma load_axis_put r name l st :
  r < length (heap st) ->
  load_axis r name (put r l st) = (layout_axis l name, put r l st).
Proof.
  intros H. unfold load_axis. rewrite (bind_ok _ _ _ _ _ (load_put r l st H)).
  reflexivity.
Qed.

Lemma store_axis_put r name a l l' st :
  r < length (heap st) -> layout_set_axis l name a = Ok l' ->
  store_axis r name a (put r l st) = (Ok tt, put r l' st).
Proof.
  intros H Hs. unfold store_axis. rewrite (bind_ok _ _ _ _ _ (load_put r l st H)).
  unfold lift. unfold bind at 1. rewrite Hs. apply store_put.
Qed.

Lemma step_load_axis {B} r name l st (k : Axis -> M B) a :
  r < length (heap st) -> layout_axis l name = Ok a ->
  bind (load_axis r name) k (put r l st) = k a (put r l st).
Proof.
  intros H Ha. unfold bind. rewrite load_axis_put, Ha by exact H. reflexivity.
Qed.

Lemma step_store_axis {B} r name a l l' st (k : unit -> M B) :
  r < length (heap st) -> layout_set_axis l name a = Ok l' ->
  bind (store_axis r name a) k (put r l st) = k tt (put r l' st).
Proof.
  intros H Hs. unfold bind. rewrite (store_axis_put r name a l l' st H Hs).
  reflexivity.
Qed.

Lemma step_lift {A B} (x : result A) (k : A -> M B) a st :
  x = Ok a -> bind (lift x) k st = k a st.
Proof. intros ->. reflexivity. Qed.

Lemma step_ret {A B} (a : A) (k : A -> M B) st : bind (ret a) k st = k a st.
Proof. reflexivity. Qed.

Lemma bind_assoc {A B C} (m : M A) (k : A -> M B) (k' : B -> M C) st :
  bind (bind m k) k' st = bind m (fun x => bind (k x) k') st.
Proof. unfold bind. destruct (m st) as [[a|e] st1]; reflexivity. Qed.

(** Running a computation on the object at [r], one primitive at a time. *)
Ltac exec Hlt :=
  repeat first
    [ rewrite bind_assoc
    | rewrite step_ret; cbv beta iota
    | erewrite step_load_axis by (first [exact Hlt | reflexivity])
    | erewrite step_store_axis by (first [exact Hlt | reflexivity])
    | erewrite step_lift by eassumption ].

(** The loop body of [get_figure], run on the object at [r], leaves there
    the layout with the axis replaced by its resolved form. *)
Lemma resolve_axis_put E self ds r lg pc axis st l a a' :
  r < length (heap st) -> layout_axis l axis = Ok a ->
  resolved_axis E (Plot.pct_axis_update self)
    (Plot.pct_bound ds axis "min" (VInt 0))
    (Plot.pct_bound ds axis "max" (VInt 100)) lg pc a = Ok a' ->
  exists l',
    layout_set_axis l axis a' = Ok l'
    /\ Plot.resolve_axis E self ds r lg pc axis (put r l st)
       = (Ok tt, put r l' st).
Proof.
  intros Hlt Ha Hres.
  unfold Plot.resolve_axis, resolved_axis in *.
  destruct (layout_axis_ok _ _ _ Ha) as [-> | ->]; simpl in Ha; injection Ha as <-;
  destruct pc, lg;
    try (apply rbind_ok_inv in Hres as (mn & Hmn & Hres);
         apply rbind_ok_inv in Hres as (mx & Hmx & Hres));
    injection Hres as <-; exec Hlt.
  all: try (erewrite store_axis_put by (first [exact Hlt | reflexivity])).
  all: try (eexists; split; reflexivity).
Qed.

Lemma for_each_put E self ds r lg pc axes : forall st l l',
  r < length (heap st) ->
  resolved_layout E self ds lg pc axes l = Ok l' ->
  for_each axes (Plot.resolve_axis E self ds r lg pc) (put r l st)
  = (Ok tt, put r l' st).
Proof.
  induction axes as [|axis axes IH]; intros st l l' Hlt H; simpl in *.
  - injection H as <-. reflexivity.
  - apply rbind_ok_inv in H as (a & Ha & H).
    apply rbind_ok_inv in H as (a' & Ha' & H).
    apply rbind_ok_inv in H as (l1 & Hl1 & H).
    destruct (resolve_axis_put E self ds r lg pc axis st l a a' Hlt Ha Ha')
      as (l1' & Hl1' & Hrun).
    rewrite Hl1 in Hl1'. injection Hl1' as <-.
    unfold bind. rewrite Hrun. apply IH; assumption.
Qed.

Lemma step_load {B} r l st (k : Layout -> M B) :
  r < length (heap st) -> bind (load r) k (put r l st) = k l (put r l st).
Proof. intros H. unfold bind. rewrite load_put by exact H. reflexivity. Qed.

Lemma step_store {B} r l l' st (k : unit -> M B) :
  bind (store r l') k (put r l st) = k tt (put r l' st).
Proof. unfold bind. rewrite store_put. reflexivity. Qed.

(** [get_figure] returns the figure of the resolved layout, and adds that
    layout, a new object, to the store. *)
Lemma get_figure_ok E self dataset_id lg pc flat st base ds l' :
  heap st !! Plot.layout self = Some base ->
  list_index (Plot.datasets self) dataset_id = Ok ds ->
  resolved_layout E self ds lg pc (Plot.axis_controlled_by_switches self)
    (merged_layout base ds flat) = Ok l' ->
  Plot.get_figure E self dataset_id lg pc flat st
  = (Ok (create_figure ds l' lg pc), set_heap (heap st ++ [l']) st).
Proof.
  intros Hb Hd Hr. unfold Plot.get_figure.
  rewrite (step_lift _ _ ds) by exact Hd.
  unfold bind at 1. unfold load at 1. rewrite Hb.
  unfold bind at 1. unfold alloc at 1.
  set (st1 := set_heap (heap st ++ [base]) st).
  set (r := length (heap st)).
  assert (Hlt : r < length (heap st1)).
  { unfold st1, r. simpl. rewrite length_app. simpl. lia. }
  assert (H1 : heap st1 !! r = Some base).
  { unfold st1, r. simpl. apply list_lookup_middle. reflexivity. }
  rewrite <- (put_id r base st1 H1).
  rewrite step_load by exact Hlt. rewrite step_store.
  assert (Hm : (if flat
       then let* l := load r in store r (set_width (VInt FLAT_PLOT_WIDTH) l)
       else ret ()) (put r (layout_update base (BaseDataset.layout ds)) st1)
     = (Ok tt, put r (merged_layout base ds flat) st1)).
  { unfold merged_layout. destruct flat; [| reflexivity].
    rewrite step_load by exact Hlt. apply store_put. }
  unfold bind at 1. rewrite Hm.
  unfold bind at 1. rewrite (for_each_put _ _ _ _ _ _ _ _ _ _ Hlt Hr).
  rewrite step_load by exact Hlt. unfold ret. f_equal.
  unfold put, st1, r, set_heap. simpl. f_equal.
  replace (length (heap st)) with (length (heap st) + 0) at 1 by lia.
  rewrite insert_app_r. reflexivity.
Qed.

Lemma is_axis_layout_axis l name :
  is_axis name -> exists a, layout_axis l name = Ok a.
Proof. intros [-> | ->]; eexists; reflexivity. Qed.

Lemma layout_set_axis_ok l name a :
  is_axis name -> exists l', layout_set_axis l name a = Ok l'.
Proof. intros [-> | ->]; eexists; reflexivity. Qed.

Lemma layout_axis_set l name a l' :
  layout_set_axis l name a = Ok l' -> layout_axis l' name = Ok a.
Proof.
  intros H. assert (Hn : is_axis name).
  { unfold layout_set_axis in H.
    destruct (String.eqb name "xaxis") eqn:Ex;
      [apply String.eqb_eq in Ex; left; auto |].
    destruct (String.eqb name "yaxis") eqn:Ey;
      [apply String.eqb_eq in Ey; right; auto |].
    discriminate. }
  destruct Hn as [-> | ->]; injection H as <-; reflexivity.
Qed.

Lemma layout_axis_set_ne l name a l' other :
  layout_set_axis l name a = Ok l' -> other <> name ->
  layout_axis l' other = layout_axis l other.
Proof.
  intros H Hne. unfold layout_set_axis in H. unfold layout_axis.
  destruct (String.eqb name "xaxis") eqn:Ex.
  - apply String.eqb_eq in Ex. subst name. injection H as <-.
    destruct (String.eqb other "xaxis") eqn:Eo;
      [apply String.eqb_eq in Eo; congruence | reflexivity].
  - destruct (String.eqb name "yaxis") eqn:Ey; [| discriminate].
    apply String.eqb_eq in Ey. subst name. injection H as <-.
    destruct (String.eqb other "xaxis") eqn:Eo; [reflexivity |].
    destruct (String.eqb other "yaxis") eqn:Eo';
      [apply String.eqb_eq in Eo'; congruence | reflexivity].
Qed.

Lemma layout_set_axis_size l name a l' :
  layout_set_axis l name a = Ok l' -> width l' = width l /\ height l' = height l.
Proof.
  unfold layout_set_axis.
  destruct (String.eqb name "xaxis"); [intros [= <-]; auto |].
  destruct (String.eqb name "yaxis"); [intros [= <-]; auto | discriminate].
Qed.

(** *** The plain view *)







(** *** The logarithmic view *)








Lemma resolved_layout_inv E self ds lg pc x axes l l' :
  resolved_layout E self ds lg pc (x :: axes) l = Ok l' ->
  exists a a' l1,
    layout_axis l x = Ok a
    /\ resolved_axis E (Plot.pct_axis_update self)
         (Plot.pct_bound ds x "min" (VInt 0))
         (Plot.pct_bound ds x "max" (VInt 100)) lg pc a = Ok a'
    /\ layout_set_axis l x a' = Ok l1
    /\ resolved_layout E self ds lg pc axes l1 = Ok l'.
Proof.
  cbn [resolved_layout]. intros H.
  apply rbind_ok_inv in H as (a & Ha & H).
  apply rbind_ok_inv in H as (a' & Ha' & H).
  apply rbind_ok_inv in H as (l1 & Hl1 & H). eauto 10.
Qed.

(** An axis that the loop does not visit is as it was. *)
Lemma resolved_layout_notin E self ds lg pc axes : forall l l' x,
  x ∉ axes -> resolved_layout E self ds lg pc axes l = Ok l' ->
  layout_axis l' x = layout_axis l x.
Proof.
  induction axes as [|y axes IH]; intros l l' x Hx H.
  - injection H as <-. reflexivity.
  - apply resolved_layout_inv in H as (a & a' & l1 & Ha & Hr & Hs & H).
    rewrite (IH l1 l' x); [| set_solver | exact H].
    eapply layout_axis_set_ne; [exact Hs | set_solver].
Qed.


Lemma layout_axis_merged base ds flat axis :
  layout_axis (merged_layout base ds flat) axis
  = layout_axis (layout_update base (BaseDataset.layout ds)) axis.
Proof. unfold merged_layout. destruct flat; reflexivity. Qed.


Lemma set_axis_log_scale_put E r axis st l a mn mx :
  r < length (heap st) -> layout_axis l axis = Ok a ->
  log10_bound E (minallowed (autorangeoptions a)) = Ok mn ->
  log10_bound E (maxallowed (autorangeoptions a)) = Ok mx ->
  exists l',
    layout_set_axis l axis (set_maxallowed mx (set_minallowed mn (set_type "log" a)))
    = Ok l'
    /\ _set_axis_log_scale E r axis (put r l st) = (Ok tt, put r l' st).
Proof.
  intros Hlt Ha Hmn Hmx. unfold _set_axis_log_scale.
  destruct (layout_axis_ok _ _ _ Ha) as [-> | ->]; simpl in Ha; injection Ha as <-;
    exec Hlt.
  all: erewrite store_axis_put by (first [exact Hlt | reflexivity]).
  all: eexists; split; reflexivity.
Qed.


(** ** Flat plots *)



Lemma list_index_nat {A} (l : list A) i d :
  l !! i = Some d -> list_index l (Z.of_nat i) = Ok d.
Proof.
  intros H. unfold list_index.
  destruct (Z.of_nat i <? 0)%Z eqn:E1; [apply Z.ltb_lt in E1; lia |].
  rewrite E1. rewrite Nat2Z.id, H. reflexivity.
Qed.

Lemma append_nonempty (u t : string) : t <> "" -> u +:+ t <> "".
Proof. destruct u; simpl; [auto | discriminate]. Qed.






Lemma image_ids_app h1 h2 : image_ids (h1 ++ h2) = image_ids h1 ++ image_ids h2.
Proof. unfold image_ids. apply flat_map_app. Qed.













(** A scatter plot of one dataset whose configured id is empty: the plot
    has no switch, the dataset has no uid, and the one image of the page
    has a random id. *)
Lemma flat_plot_random_id :
  exists plot st html st',
    Plot.initialize sample_env SCATTER {[ "id" := VStr "" ]} 1 None None None
      empty_state
    = (Ok plot, st)
    /\ BaseDataset.uid <$> Plot.datasets plot = [""]
    /\ Plot.flat_plot sample_env plot st = (Ok html, st')
    /\ image_ids html = ["plot-1000000"].
Proof.
  eexists. eexists. eexists. eexists.
  split; [vm_compute; reflexivity |]. split; [reflexivity |].
  split; [vm_compute; reflexivity |]. reflexivity.
Qed.

(** ** Construction *)

Lemma validate_str_inv v st s st' :
  Plot.validate_str v st = (Ok s, st') -> v = VStr s /\ st' = st.
Proof. destruct v; simpl; intros H; try discriminate. injection H as <- <-. auto. Qed.

Lemma truthy_py_and x c : truthy (py_and x (VBool c)) = truthy x && c.
Proof. unfold py_and. destruct (truthy x) eqn:T; [reflexivity | exact T]. Qed.

Lemma validate_bool_state v st r st' :
  Plot.validate_bool v st = (r, st') -> st' = st.
Proof.
  unfold Plot.validate_bool.
  destruct v as [|b|z|q|s|l|m]; simpl;
    repeat match goal with |- context [if ?c then _ else _] => destruct c end;
    intros [= _ <-]; reflexivity.
Qed.

Lemma layout_size_inv prop v v' : Plot.layout_size prop v = Ok v' -> v' = v.
Proof.
  unfold Plot.layout_size. destruct (is_none v); [congruence |].
  destruct (as_number v); [| discriminate].
  destruct (Qle_bool 10 _); congruence.
Qed.

(** A layout that [go.Layout] returns: a new object of the store, with
    the height and the width as they were given. *)
Lemma new_layout_inv E v h w flat st r st' :
  Plot.new_layout E v h w flat st = (Ok r, st') ->
  exists text,
    Plot.title_text E v = Ok text
    /\ r = length (heap st)
    /\ st' = set_heap
               (heap st
                ++ [{| title := text; xaxis := Plot.new_axis; yaxis := Plot.new_axis;
                       height := h; width := w;
                       showlegend := flat; legend := flat |}]) st.
Proof.
  unfold Plot.new_layout. intros H.
  apply bind_ok_inv in H as (text & s1 & H1 & H). injection H1 as H1 <-.
  apply bind_ok_inv in H as (h' & s2 & H2 & H). injection H2 as H2 <-.
  apply bind_ok_inv in H as (w' & s3 & H3 & H). injection H3 as H3 <-.
  apply layout_size_inv in H2 as ->. apply layout_size_inv in H3 as ->.
  injection H as <- <-. exists text. auto.
Qed.

(** The truth value that the validation leaves in a field given
    [x and c] for a boolean [c]: that of the expression. *)
Lemma validate_bool_and x c st b st' :
  Plot.validate_bool (py_and x (VBool c)) st = (Ok b, st') ->
  b = truthy x && c /\ st' = st.
Proof.
  intros H. split; [| eapply validate_bool_state; exact H].
  unfold py_and in H. destruct (truthy x) eqn:T.
  - injection H as <- _. reflexivity.
  - destruct x as [|b0|z|q|s|l|m]; simpl in T, H; try discriminate.
    + injection H as <- _. exact T.
    + apply negb_false_iff in T. rewrite T in H. injection H as <- _. reflexivity.
    + apply negb_false_iff in T. rewrite T in H. injection H as <- _. reflexivity.
    + apply negb_false_iff, String.eqb_eq in T. subst s. discriminate.
Qed.

(** What a successful construction fixes: the switches are read from the
    configuration, and the datasets are those of the loop, run with the id
    of the plot. *)
Lemma initialize_inv E pt pconfig n id acs tt st plot st' :
  Plot.initialize E pt pconfig n id acs tt st = (Ok plot, st') ->
  n <> 0%Z
  /\ Plot.add_log_tab plot
     = truthy (dict_get pconfig "logswitch" (VBool false))
       && (PlotType_eqb pt BAR || PlotType_eqb pt LINE)
  /\ Plot.add_pct_tab plot
     = negb (is_False (dict_get pconfig "cpswitch" (VBool true)))
       && PlotType_eqb pt BAR
  /\ Plot.l_active plot
     = Plot.add_log_tab plot && is_True (dict_get_none pconfig "logswitch_active")
  /\ Plot.p_active plot
     = Plot.add_pct_tab plot
       && negb (is_True (dict_get pconfig "cpswitch_c_active" (VBool true)))
  /\ exists pconfig' sa sb,
       Plot.initialize_datasets pconfig n (VStr (Plot.id plot)) tt
         (seq 0 (Z.to_nat n)) sa
       = (Ok (Plot.datasets plot, pconfig'), sb).
Proof.
  unfold Plot.initialize. intros H.
  destruct (n =? 0)%Z eqn:En; [discriminate |].
  apply Z.eqb_neq in En. split; [exact En |].
  cbv zeta in H.
  apply bind_ok_inv in H as (idv & s1 & _ & H).
  apply bind_ok_inv in H as ([] & s2 & _ & H).
  apply bind_ok_inv in H as (layout & s3 & _ & H).
  apply bind_ok_inv in H as (acs1 & s4 & _ & H).
  apply bind_ok_inv in H as (acs2 & s5 & _ & H).
  apply bind_ok_inv in H as ([] & s6 & _ & H).
  apply bind_ok_inv in H as ([datasets pconfig'] & s7 & Hds & H).
  apply bind_ok_inv in H as (pid & s8 & Hid & H).
  apply validate_str_inv in Hid as [-> ->].
  apply bind_ok_inv in H as (lt & s9 & Hlt & H).
  apply bind_ok_inv in H as (la & s10 & Hla & H).
  apply bind_ok_inv in H as (sq & s11 & _ & H).
  apply validate_bool_and in Hlt as [-> ->].
  apply validate_bool_and in Hla as [-> ->].
  injection H as <- <-. cbn. rewrite truthy_py_and.
  repeat (split; [reflexivity |]).
  eauto.
Qed.

Lemma is_True_false v : is_True v = false <-> v <> VBool true.
Proof.
  destruct v as [| [] | | | | |]; simpl; split; intros H; try congruence; try discriminate.
Qed.

Lemma PlotType_eqb_eq a b : PlotType_eqb a b = true <-> a = b.
Proof. destruct a, b; vm_compute; split; intros H; congruence. Qed.

(** C5, as the code has it: on a bar graph with the percentage switch, the
    percentage view is active from the start exactly when the configuration
    sets [cpswitch_c_active] to something other than [True]; with the key
    absent the counts are shown.  The log switch exists exactly when the
    plot is a bar or line graph and [logswitch] is set to a true value. *)
Theorem initialize_switches (E : Env) (pt : PlotType)
    (pconfig : gmap string value) (n : Z) (id : option string)
    (acs : option (list string)) (tt : option string) (st : State)
    (plot : Plot.t) (st' : State) :
  Plot.initialize E pt pconfig n id acs tt st = (Ok plot, st') ->
  (Plot.add_pct_tab plot = true ->
   pt = BAR
   /\ (Plot.p_active plot = true <->
       exists v, pconfig !! "cpswitch_c_active" = Some v /\ v <> VBool true))
  /\ (Plot.add_log_tab plot = true <->
      (pt = BAR \/ pt = LINE)
      /\ exists v, pconfig !! "logswitch" = Some v /\ truthy v = true).
Proof.
  intros H. apply initialize_inv in H as (_ & Hlog & Hpct & _ & Hp & _).
  split.
  - intros Hadd. rewrite Hadd in Hpct, Hp. symmetry in Hpct.
    apply andb_true_iff in Hpct as [_ Hbar]. apply PlotType_eqb_eq in Hbar.
    split; [exact Hbar |]. rewrite Hp. cbn [andb]. unfold dict_get.
    destruct (pconfig !! "cpswitch_c_active") as [v|]; simpl.
    + rewrite negb_true_iff, is_True_false. split.
      * intros Hv. eauto.
      * intros (v' & [= <-] & Hv). exact Hv.
    + split; [discriminate | intros (v & Hv & _); discriminate].
  - rewrite Hlog, andb_true_iff, orb_true_iff, !PlotType_eqb_eq. unfold dict_get.
    destruct (pconfig !! "logswitch") as [v|]; simpl.
    + split.
      * intros [Hv Hpt]. split; [exact Hpt | eauto].
      * intros (Hpt & v' & [= <-] & Hv). auto.
    + split; [intros [Hv _]; discriminate | intros (_ & v & Hv & _); discriminate].
Qed.

(** C5, as stated, fails on a bar graph with an empty configuration: the
    percentage switch is there and the percentage view is not active. *)
Lemma percent_view_inactive_by_default :
  exists plot st',
    Plot.initialize sample_env BAR ∅ 1 (Some "p") None None empty_state
    = (Ok plot, st')
    /\ Plot.add_pct_tab plot = true
    /\ Plot.p_active plot = false.
Proof. eexists. eexists. split; [vm_compute; reflexivity |]. split; reflexivity. Qed.

Lemma initialize_dataset_uid pconfig n pid tt idx st ds pconfig' st' :
  Plot.initialize_dataset pconfig n (VStr pid) tt idx st = (Ok (ds, pconfig'), st') ->
  BaseDataset.uid ds = dataset_uid n pid idx.
Proof.
  unfold Plot.initialize_dataset. intros H. cbv zeta in H.
  apply bind_ok_inv in H as (p1 & s1 & H1 & H). injection H1 as <- <-.
  apply bind_ok_inv in H as (p2 & s2 & H2 & H). injection H2 as <- <-.
  apply bind_ok_inv in H as (len & s3 & _ & H).
  apply bind_ok_inv in H as (dconfig & s4 & _ & H).
  apply bind_ok_inv in H as ([] & s5 & _ & H).
  apply bind_ok_inv in H as ([layout trace_params] & s6 & _ & H).
  injection H as <- _ _. reflexivity.
Qed.

Lemma initialize_datasets_uids n pid tt : forall idxs pconfig st dss pconfig' st',
  Plot.initialize_datasets pconfig n (VStr pid) tt idxs st = (Ok (dss, pconfig'), st') ->
  BaseDataset.uid <$> dss = dataset_uid n pid <$> idxs.
Proof.
  induction idxs as [|idx idxs IH]; intros pconfig st dss pconfig' st' H.
  - injection H as <- _ _. reflexivity.
  - cbn [Plot.initialize_datasets] in H.
    apply bind_ok_inv in H as ([ds pc1] & s1 & H1 & H).
    apply bind_ok_inv in H as ([dss1 pc2] & s2 & H2 & H).
    injection H as <- _ _.
    rewrite !fmap_cons. f_equal.
    + eapply initialize_dataset_uid; eauto.
    + eapply IH; eauto.
Qed.

Lemma dataset_uid_inj n pid : (1 < n)%Z -> Inj (=) (=) (dataset_uid n pid).
Proof.
  intros Hn i j. unfold dataset_uid.
  destruct (n >? 1)%Z eqn:En; [| rewrite Z.gtb_ltb in En; apply Z.ltb_ge in En; lia].
  intros H. apply String.app_inj in H. apply String.app_inj in H.
  apply pretty_nat_inj in H. lia.
Qed.

(** C6: a plot built for one dataset gives it the id of the plot as uid; a
    plot built for more gives the dataset of index [i] the id of the plot
    followed by [_] and [i + 1]; in both cases the uids of the datasets of
    the plot are pairwise distinct. *)
Theorem dataset_uids_distinct (E : Env) (pt : PlotType)
    (pconfig : gmap string value) (n : Z) (id : option string)
    (acs : option (list string)) (tt : option string) (st : State)
    (plot : Plot.t) (st' : State) :
  Plot.initialize E pt pconfig n id acs tt st = (Ok plot, st') ->
  length (Plot.datasets plot) = Z.to_nat n
  /\ (n = 1%Z -> BaseDataset.uid <$> Plot.datasets plot = [Plot.id plot])
  /\ ((1 < n)%Z -> forall i, i < Z.to_nat n ->
        BaseDataset.uid <$> (Plot.datasets plot !! i)
        = Some (Plot.id plot +:+ "_" +:+ pretty (i + 1)))
  /\ NoDup (BaseDataset.uid <$> Plot.datasets plot).
Proof.
  intros H. apply initialize_inv in H as (Hn & _ & _ & _ & _ & pc' & sa & sb & Hds).
  apply initialize_datasets_uids in Hds.
  split; [| split; [| split]].
  - rewrite <- (length_fmap BaseDataset.uid), Hds, length_fmap, length_seq.
    reflexivity.
  - intros ->. rewrite Hds. reflexivity.
  - intros Hgt i Hi. rewrite <- list_lookup_fmap, Hds, list_lookup_fmap.
    rewrite lookup_seq_lt by exact Hi. simpl. unfold dataset_uid.
    destruct (n >? 1)%Z eqn:En; [reflexivity | rewrite Z.gtb_ltb in En; apply Z.ltb_ge in En; lia].
  - rewrite Hds. destruct (Z_lt_le_dec 1 n) as [Hgt | Hle].
    + pose proof (dataset_uid_inj n (Plot.id plot) Hgt) as Hinj.
      apply (NoDup_fmap_2 _). apply NoDup_seq.
    + destruct (Z.to_nat n) as [|[|k]] eqn:Ek; simpl; [constructor | | lia].
      apply NoDup_singleton.
Qed.

(** ** Construction: the error for no datasets *)

(** An exception of another class, or with another message. *)
Ltac other_error :=
  unfold benign, no_datasets;
  first [ discriminate
        | unfold Plot.invalid_value; cbn [String.append]; discriminate ].

Lemma rsafe_ok {A} (a : A) : rsafe (Ok a).
Proof. intros e H. discriminate. Qed.

Lemma rsafe_raise {A} e : benign e -> rsafe (@Raise A e).
Proof. intros He e' [= <-]. exact He. Qed.

Lemma rsafe_rbind {A B} (r : result A) (k : A -> result B) :
  rsafe r -> (forall a, rsafe (k a)) -> rsafe (rbind r k).
Proof.
  intros Hr Hk e. destruct r as [a|e']; simpl.
  - apply Hk.
  - intros [= <-]. apply Hr. reflexivity.
Qed.

Lemma msafe_ret {A} (a : A) : msafe (ret a).
Proof. intros st e st' H. discriminate. Qed.

Lemma msafe_raise {A} e : benign e -> msafe (@raise A e).
Proof. intros He st e' st' [= <- _]. exact He. Qed.

Lemma msafe_lift {A} (r : result A) : rsafe r -> msafe (lift r).
Proof. intros Hr st e st' [= -> _]. apply Hr. reflexivity. Qed.

Lemma msafe_bind {A B} (m : M A) (k : A -> M B) :
  msafe m -> (forall a, msafe (k a)) -> msafe (bind m k).
Proof.
  intros Hm Hk st e st'. unfold bind.
  destruct (m st) as [[a|e'] st1] eqn:Em.
  - apply Hk.
  - intros [= <- _]. eapply Hm. exact Em.
Qed.

Lemma msafe_for_each {A} (l : list A) (body : A -> M unit) :
  (forall x, msafe (body x)) -> msafe (for_each l body).
Proof.
  intros Hb. induction l as [|x l IH]; simpl.
  - apply msafe_ret.
  - apply msafe_bind; [apply Hb | intros; apply IH].
Qed.

Lemma msafe_total {A} (m : M A) :
  (forall st, exists a st', m st = (Ok a, st')) -> msafe m.
Proof. intros H st e st' Hr. destruct (H st) as (a & s & Ha). congruence. Qed.

Lemma msafe_load r : msafe (load r).
Proof.
  intros st e st'. unfold load. destruct (heap st !! r); intros [= <- _]; other_error.
Qed.

Lemma msafe_store r l : msafe (store r l).
Proof. apply msafe_total. intros st. eexists. eexists. reflexivity. Qed.

Lemma msafe_alloc l : msafe (alloc l).
Proof. apply msafe_total. intros st. eexists. eexists. reflexivity. Qed.

Lemma msafe_logger lv msg : msafe (logger lv msg).
Proof. apply msafe_total. intros st. eexists. eexists. reflexivity. Qed.

Lemma msafe_lint_append msg : msafe (lint_append msg).
Proof. apply msafe_total. intros st. eexists. eexists. reflexivity. Qed.

Lemma msafe_draw {A} (source : nat -> A) : msafe (draw source).
Proof. apply msafe_total. intros st. eexists. eexists. reflexivity. Qed.

Lemma rsafe_layout_axis l name : rsafe (layout_axis l name).
Proof.
  unfold layout_axis. destruct (String.eqb name "xaxis"); [apply rsafe_ok |].
  destruct (String.eqb name "yaxis"); [apply rsafe_ok | apply rsafe_raise; other_error].
Qed.

Lemma rsafe_layout_set_axis l name a : rsafe (layout_set_axis l name a).
Proof.
  unfold layout_set_axis. destruct (String.eqb name "xaxis"); [apply rsafe_ok |].
  destruct (String.eqb name "yaxis"); [apply rsafe_ok | apply rsafe_raise; other_error].
Qed.

Lemma rsafe_list_index {A} (l : list A) i : rsafe (list_index l i).
Proof.
  unfold list_index.
  destruct (_ <? 0)%Z; [apply rsafe_raise; other_error |].
  destruct (l !! _); [apply rsafe_ok | apply rsafe_raise; other_error].
Qed.

Lemma rsafe_log10_bound E v : rsafe (log10_bound E v).
Proof.
  unfold log10_bound, gt_zero. destruct (is_none v); [apply rsafe_ok |].
  destruct (as_number v); simpl; [| apply rsafe_raise; other_error].
  destruct (negb _); apply rsafe_ok.
Qed.

Lemma rsafe_as_str v : rsafe (as_str v).
Proof. destruct v; simpl; first [apply rsafe_ok | apply rsafe_raise; other_error]. Qed.

Lemma rsafe_py_in sub v : rsafe (py_in sub v).
Proof. destruct v; simpl; first [apply rsafe_ok | apply rsafe_raise; other_error]. Qed.

Lemma rsafe_str_add s v : rsafe (str_add s v).
Proof. destruct v; simpl; first [apply rsafe_ok | apply rsafe_raise; other_error]. Qed.

Create HintDb safe.
#[local] Hint Resolve rsafe_ok rsafe_layout_axis rsafe_layout_set_axis
  rsafe_list_index rsafe_log10_bound rsafe_as_str rsafe_py_in rsafe_str_add
  msafe_ret msafe_load msafe_store msafe_alloc msafe_logger msafe_lint_append
  msafe_draw : safe.

(** One step through a result or a computation. *)
Ltac safe_step :=
  first
    [ solve [ auto with safe ]
    | apply rsafe_rbind; [| intros ]
    | apply msafe_bind; [| intros ]
    | apply msafe_for_each; intros
    | apply msafe_lift
    | apply rsafe_raise; other_error
    | apply msafe_raise; other_error
    | match goal with
      | |- rsafe (let (_, _) := ?p in _) => destruct p
      | |- msafe (let (_, _) := ?p in _) => destruct p
      | |- rsafe (if ?b then _ else _) => destruct b
      | |- msafe (if ?b then _ else _) => destruct b
      | |- rsafe (match ?x with _ => _ end) => destruct x
      | |- msafe (match ?x with _ => _ end) => destruct x
      end ].

Lemma rsafe_clean_config_tt_label v : rsafe (_clean_config_tt_label v).
Proof. unfold _clean_config_tt_label. repeat safe_step. Qed.

Lemma rsafe_suffix_of_labformat s f : rsafe (suffix_of_labformat s f).
Proof. unfold suffix_of_labformat. repeat safe_step. Qed.

Lemma rsafe_suffix_of_label s lab : rsafe (suffix_of_label s lab).
Proof. unfold suffix_of_label. repeat safe_step. Qed.

Lemma rsafe_info_of_part part : rsafe (info_of_part part).
Proof. unfold info_of_part. repeat safe_step. Qed.

Lemma rsafe_suffix_of_part acc part : rsafe acc -> rsafe (suffix_of_part acc part).
Proof.
  intros Hacc. unfold suffix_of_part.
  apply rsafe_rbind; [exact Hacc | intros [y x]].
  pose proof (rsafe_info_of_part part).
  repeat safe_step.
Qed.

Lemma rsafe_fold_suffix_of_part parts : forall acc,
  rsafe acc -> rsafe (fold_left suffix_of_part parts acc).
Proof.
  induction parts as [|p parts IH]; intros acc Hacc; simpl; [exact Hacc |].
  apply IH. apply rsafe_suffix_of_part. exact Hacc.
Qed.

Lemma rsafe_drop_suffix p s t : rsafe (drop_suffix p s t).
Proof. unfold drop_suffix. repeat safe_step. Qed.

Lemma rsafe_dataset_layout pconfig dconfig tt :
  rsafe (_dataset_layout pconfig dconfig tt).
Proof.
  unfold _dataset_layout. cbv zeta.
  apply rsafe_rbind; [apply rsafe_suffix_of_labformat | intros ysuffix].
  apply rsafe_rbind; [apply rsafe_suffix_of_labformat | intros xsuffix].
  destruct (fold_left _ KNOWN_SUFFIXES _) as [ys xs].
  apply rsafe_rbind; [apply rsafe_suffix_of_label | intros ys1].
  apply rsafe_rbind; [apply rsafe_suffix_of_label | intros xs1].
  apply rsafe_rbind; [| intros [t [y x]]; apply rsafe_ok].
  destruct (dict_has _ "tt_label"); [| apply rsafe_ok].
  apply rsafe_rbind; [apply rsafe_clean_config_tt_label | intros t].
  apply rsafe_rbind.
  - destruct (_ || _); [| apply rsafe_ok].
    apply rsafe_fold_suffix_of_part. apply rsafe_ok.
  - intros [y x].
    apply rsafe_rbind; [apply rsafe_drop_suffix | intros t1].
    apply rsafe_rbind; [apply rsafe_drop_suffix | intros t2].
    apply rsafe_ok.
Qed.

Lemma msafe_load_axis r name : msafe (load_axis r name).
Proof. unfold load_axis. repeat safe_step. Qed.

Lemma msafe_store_axis r name a : msafe (store_axis r name a).
Proof. unfold store_axis. repeat safe_step. Qed.

#[local] Hint Resolve msafe_load_axis msafe_store_axis rsafe_dataset_layout : safe.

Lemma msafe_set_axis_log_scale E r axis : msafe (_set_axis_log_scale E r axis).
Proof. unfold _set_axis_log_scale. repeat safe_step. Qed.

Lemma rsafe_title_text E v : rsafe (Plot.title_text E v).
Proof. destruct v; simpl; first [apply rsafe_ok | apply rsafe_raise; other_error]. Qed.

Lemma rsafe_layout_size prop v : rsafe (Plot.layout_size prop v).
Proof. unfold Plot.layout_size. repeat safe_step. Qed.

Lemma msafe_new_layout E title height width flat :
  msafe (Plot.new_layout E title height width flat).
Proof.
  unfold Plot.new_layout.
  apply msafe_bind; [apply msafe_lift, rsafe_title_text | intros].
  apply msafe_bind; [apply msafe_lift, rsafe_layout_size | intros].
  apply msafe_bind; [apply msafe_lift, rsafe_layout_size | intros].
  apply msafe_alloc.
Qed.

Lemma msafe_validate_bool v : msafe (Plot.validate_bool v).
Proof. unfold Plot.validate_bool. repeat safe_step. Qed.

Lemma msafe_validate_str v : msafe (Plot.validate_str v).
Proof. destruct v; simpl; first [apply msafe_ret | apply msafe_raise; other_error]. Qed.

Lemma rsafe_py_len v : rsafe (Plot.py_len v).
Proof. destruct v; simpl; first [apply rsafe_ok | apply rsafe_raise; other_error]. Qed.

Lemma rsafe_py_item v idx : rsafe (Plot.py_item v idx).
Proof.
  destruct v; simpl; try (apply rsafe_raise; other_error).
  - destruct (String.get idx s); [apply rsafe_ok | apply rsafe_raise; other_error].
  - apply rsafe_list_index.
Qed.

#[local] Hint Resolve msafe_set_axis_log_scale msafe_validate_str rsafe_py_len
  rsafe_py_item msafe_new_layout msafe_validate_bool : safe.

Lemma msafe_initialize_dataset pconfig n id tt idx :
  msafe (Plot.initialize_dataset pconfig n id tt idx).
Proof. unfold Plot.initialize_dataset. cbv zeta. repeat safe_step. Qed.

Lemma msafe_initialize_datasets n id tt : forall idxs pconfig,
  msafe (Plot.initialize_datasets pconfig n id tt idxs).
Proof.
  induction idxs as [|idx idxs IH]; intros pconfig; simpl.
  - apply msafe_ret.
  - apply msafe_bind; [apply msafe_initialize_dataset | intros [ds pc]].
    apply msafe_bind; [apply IH | intros [dss pc']]. apply msafe_ret.
Qed.

#[local] Hint Resolve msafe_initialize_datasets : safe.

(** C7, as the code has it: construction for no dataset raises
    [ValueError] with the message [No datasets to plot], before anything
    else is done, and gives no plot; construction for one dataset or more
    does not raise that error, whatever else it raises. *)
Theorem initialize_no_datasets (E : Env) (pt : PlotType)
    (pconfig : gmap string value) (id : option string)
    (acs : option (list string)) (tt : option string) (st : State) :
  Plot.initialize E pt pconfig 0 id acs tt st
  = (Raise (ValueError "No datasets to plot"), st)
  /\ forall n, (1 <= n)%Z ->
       fst (Plot.initialize E pt pconfig n id acs tt st)
       <> Raise (ValueError "No datasets to plot").
Proof.
  split; [reflexivity |].
  intros n Hn Hr.
  assert (Hs : msafe (Plot.initialize E pt pconfig n id acs tt)).
  { unfold Plot.initialize.
    destruct (n =? 0)%Z eqn:E0; [apply Z.eqb_eq in E0; lia |].
    cbv zeta. repeat safe_step. }
  destruct (Plot.initialize E pt pconfig n id acs tt st) as [r st'] eqn:Hrun.
  simpl in Hr. subst r. apply Hs in Hrun. apply Hrun. reflexivity.
Qed.

(** C7, as stated, fails for one dataset: a height of 5 is refused by the
    layout, and a [logswitch] set to [None] by the model of the plot, each
    with a [ValueError]. *)
Lemma initialize_invalid_input :
  fst (Plot.initialize sample_env BAR {[ "height" := VInt 5 ]} 1 (Some "p")
         None None empty_state)
  = Raise (ValueError (Plot.invalid_value "height" "layout"))
  /\ exists e,
       fst (Plot.initialize sample_env BAR {[ "logswitch" := VNone ]} 1 (Some "p")
              None None empty_state)
       = Raise e
       /\ is_ValueError e = true.
Proof.
  split; [vm_compute; reflexivity |].
  exists ValidationError. split; [vm_compute; reflexivity | reflexivity].
Qed.

(** ** Side conditions, decided on a concrete plot *)


Lemma is_axis_b_sound l : forallb is_axis_b l = true -> Forall is_axis l.
Proof.
  intros H. apply Forall_forall. intros x Hx.
  rewrite forallb_forall in H. specialize (H x).
  unfold is_axis_b, is_axis in *.
  rewrite orb_true_iff, !String.eqb_eq in H. apply H.
  apply list_elem_of_In. exact Hx.
Qed.





Lemma sample_run_ok : sample_run = (Ok sample_plot, sample_state).
Proof. vm_compute. reflexivity. Qed.








(** ** Instances of the theorems on the sample plot *)




(** The sample plot is a bar graph with [logswitch] set and no
    [cpswitch_c_active]: it has the log switch, and its percentage view is
    not active. *)
Lemma initialize_switches_witness :
  Plot.add_log_tab sample_plot = true /\ Plot.p_active sample_plot <> true.
Proof.
  destruct (initialize_switches sample_env BAR sample_pconfig 2 (Some "p")
              (Some ["yaxis"]) None empty_state sample_plot sample_state
              sample_run_ok) as [Hpct Hlog].
  split.
  - apply Hlog. split; [left; reflexivity |].
    exists (VBool true). split; reflexivity.
  - destruct (Hpct eq_refl) as [_ Hact]. intros Hp.
    apply Hact in Hp as (v & Hv & _). vm_compute in Hv. discriminate.
Defined.

(** The two datasets of the sample plot have the uids [p_1] and [p_2]. *)
Lemma dataset_uids_distinct_witness :
  NoDup (BaseDataset.uid <$> Plot.datasets sample_plot)
  /\ BaseDataset.uid <$> (Plot.datasets sample_plot !! 1) = Some "p_2".
Proof.
  destruct (dataset_uids_distinct sample_env BAR sample_pconfig 2 (Some "p")
              (Some ["yaxis"]) None empty_state sample_plot sample_state
              sample_run_ok) as (_ & _ & Hi & Hnd).
  split; [exact Hnd |]. apply (Hi ltac:(lia) 1). vm_compute. lia.
Defined.

(** The sample plot is built for two datasets: the error for no datasets
    is not raised. *)
Lemma initialize_no_datasets_witness :
  (1 <= 2)%Z
  /\ fst (Plot.initialize sample_env BAR sample_pconfig 2 (Some "p")
            (Some ["yaxis"]) None empty_state)
     <> Raise (ValueError "No datasets to plot").
Proof.
  split; [lia |].
  apply (proj2 (initialize_no_datasets sample_env BAR sample_pconfig (Some "p")
                  (Some ["yaxis"]) None empty_state) 2%Z); lia.
Defined.

(** A figure with no width is refused; the same figure at the width of
    flat plots, with a file name, gives its image. *)
Lemma fig_to_static_html_contract_witness :
  fig_to_static_html sample_env sample_figure true false true (Some "p") empty_state
  = (Raise AssertionError, empty_state)
  /\ exists img st',
       fig_to_static_html sample_env
         (create_figure sample_dataset
            (set_width (VInt FLAT_PLOT_WIDTH) sample_base) false false)
         true false true (Some "p") empty_state
       = (Ok img, st').
Proof.
  split.
  - apply (proj1 (fig_to_static_html_contract sample_env sample_figure true false
                    true (Some "p") empty_state)).
    vm_compute. reflexivity.
  - apply (proj2 (proj2 (proj2
             (fig_to_static_html_contract sample_env
                (create_figure sample_dataset
                   (set_width (VInt FLAT_PLOT_WIDTH) sample_base) false false)
                true false true (Some "p") empty_state))) eq_refl "p" eq_refl).
Defined.

(** * Further properties *)

(** ** Strings *)

Lemma str_app_cons (c : Ascii.ascii) (a b : string) :
  String c a +:+ b = String c (a +:+ b).
Proof. reflexivity. Qed.

Lemma str_app_nil_l (s : string) : "" +:+ s = s.
Proof. reflexivity. Qed.

Lemma str_app_nil_r (s : string) : s +:+ "" = s.
Proof.
  induction s as [|c s IH]; [reflexivity |]. rewrite str_app_cons, IH. reflexivity.
Qed.

Lemma str_app_assoc (a b c : string) : (a +:+ b) +:+ c = a +:+ (b +:+ c).
Proof.
  induction a as [|x a IH]; [reflexivity |]. rewrite !str_app_cons, IH. reflexivity.
Qed.

Lemma str_length_app (a b : string) :
  String.length (a +:+ b) = String.length a + String.length b.
Proof.
  induction a as [|x a IH]; [reflexivity |].
  rewrite str_app_cons. simpl. rewrite IH. reflexivity.
Qed.

Lemma str_rev_app (s acc : string) :
  String.rev_app s acc = String.rev s +:+ acc.
Proof.
  unfold String.rev. revert acc.
  induction s as [|c s IH]; intros acc; simpl; [reflexivity |].
  rewrite (IH (String c acc)), (IH (String c "")), str_app_assoc. reflexivity.
Qed.

Lemma str_rev_cons (c : Ascii.ascii) (s : string) :
  String.rev (String c s) = String.rev s +:+ String c "".
Proof. unfold String.rev at 1. simpl. apply str_rev_app. Qed.

Lemma join_app (l1 l2 : list string) : joined (l1 ++ l2) = joined l1 +:+ joined l2.
Proof.
  induction l1 as [|x l1 IH]; simpl; [reflexivity |].
  rewrite IH, str_app_assoc. reflexivity.
Qed.

(** ** [split_long_string] *)

(** The pieces of [re.split] are the string, cut. *)
Lemma join_re_split_aux s : forall in_word cur,
  joined (re_split_aux in_word cur s) = String.rev cur +:+ s.
Proof.
  induction s as [|c s IH]; intros in_word cur; simpl.
  - destruct in_word; simpl; rewrite ?str_app_nil_r; reflexivity.
  - destruct (Bool.eqb (is_word_char c) in_word).
    + rewrite IH, str_rev_cons, str_app_assoc. reflexivity.
    + simpl. rewrite IH. reflexivity.
Qed.

Lemma join_re_split s : joined (re_split_nonword s) = s.
Proof. unfold re_split_nonword. rewrite join_re_split_aux. reflexivity. Qed.

(** The lines so far, the line being filled and the words still to come
    always spell the text read. *)
Lemma split_step_join max_width words : forall lines cur lines' cur',
  fold_left (split_step max_width) words (lines, cur) = (lines', cur') ->
  joined lines' +:+ cur' = joined lines +:+ cur +:+ joined words.
Proof.
  induction words as [|w words IH]; intros lines cur lines' cur' H; simpl in *.
  - injection H as <- <-. rewrite str_app_nil_r. reflexivity.
  - destruct (Z.of_nat (String.length (cur +:+ w)) <=? max_width)%Z.
    + rewrite (IH _ _ _ _ H), str_app_assoc. reflexivity.
    + rewrite (IH _ _ _ _ H). destruct (String.eqb_spec cur "") as [-> | Hne].
      * reflexivity.
      * rewrite join_app. simpl. rewrite str_app_nil_r, !str_app_assoc. reflexivity.
Qed.

(** X1: [split_long_string] loses and adds no character: the lines it
    returns, one after the other, spell the string it was given, for every
    string and every width. *)
Theorem split_long_string_join (s : string) (max_width : Z) :
  joined (split_long_string s max_width) = s.
Proof.
  unfold split_long_string.
  destruct (fold_left _ _ _) as [lines cur] eqn:H.
  apply split_step_join in H. simpl in H. rewrite join_re_split in H.
  destruct (String.eqb_spec cur "") as [-> | Hne].
  - rewrite str_app_nil_r in H. exact H.
  - rewrite join_app. simpl. rewrite str_app_nil_r. exact H.
Qed.

Lemma split_step_lines max_width all : forall words lines cur lines' cur',
  words ⊆ all ->
  Forall (line_ok max_width all) lines ->
  (cur = "" \/ line_ok max_width all cur) ->
  fold_left (split_step max_width) words (lines, cur) = (lines', cur') ->
  Forall (line_ok max_width all) lines'
  /\ (cur' = "" \/ line_ok max_width all cur').
Proof.
  induction words as [|w words IH]; intros lines cur lines' cur' Hsub Hl Hc H;
    simpl in *.
  - injection H as <- <-. auto.
  - assert (Hw : w ∈ all) by (apply Hsub; left).
    assert (Hsub' : words ⊆ all) by (intros x Hx; apply Hsub; right; exact Hx).
    destruct (Z.of_nat (String.length (cur +:+ w)) <=? max_width)%Z eqn:Hle.
    + apply (IH _ _ _ _ Hsub' Hl) in H; [exact H |].
      destruct (String.eqb_spec (cur +:+ w) "") as [He | Hne]; [left; exact He |].
      right. split; [exact Hne |]. left. apply Z.leb_le. exact Hle.
    + apply (IH _ _ _ _ Hsub') in H; [exact H | |].
      * destruct (String.eqb_spec cur "") as [-> | Hne]; [exact Hl |].
        apply Forall_app. split; [exact Hl |].
        constructor; [| constructor]. destruct Hc as [Hc | Hc]; [contradiction | exact Hc].
      * destruct (String.eqb_spec w "") as [-> | Hne]; [left; reflexivity |].
        right. split; [exact Hne |]. right. exact Hw.
Qed.

(** X2: no line returned by [split_long_string] is empty, and every line
    is within the width unless it is a single piece of the text (a word or
    a run of separators) that is longer than the width on its own. *)
Theorem split_long_string_lines (s : string) (max_width : Z) (line : string) :
  line ∈ split_long_string s max_width ->
  line <> ""
  /\ ((Z.of_nat (String.length line) <= max_width)%Z
      \/ line ∈ re_split_nonword s).
Proof.
  unfold split_long_string.
  destruct (fold_left _ _ _) as [lines cur] eqn:H.
  apply (split_step_lines max_width (re_split_nonword s)) in H as [Hl Hc];
    [| reflexivity | constructor | left; reflexivity].
  rewrite Forall_forall in Hl.
  destruct (String.eqb_spec cur "") as [-> | Hne]; [apply Hl |].
  intros Hin. apply elem_of_app in Hin as [Hin | Hin]; [apply Hl; exact Hin |].
  apply list_elem_of_singleton in Hin as ->.
  destruct Hc as [Hc | Hc]; [contradiction | exact Hc].
Qed.

Lemma split_step_short max_width : forall words cur,
  (Z.of_nat (String.length (cur +:+ joined words)) <= max_width)%Z ->
  fold_left (split_step max_width) words ([], cur) = ([], cur +:+ joined words).
Proof.
  induction words as [|w words IH]; intros cur H; simpl in *.
  - rewrite str_app_nil_r. reflexivity.
  - assert (Hle : (Z.of_nat (String.length (cur +:+ w)) <= max_width)%Z).
    { rewrite <- str_app_assoc in H. rewrite (str_length_app (cur +:+ w)) in H. lia. }
    apply Z.leb_le in Hle. rewrite Hle.
    rewrite IH; rewrite str_app_assoc; [reflexivity | exact H].
Qed.

(** X3: a non-empty string that fits the width is returned by
    [split_long_string] as its one line, unchanged. *)
Theorem split_long_string_short (s : string) (max_width : Z) :
  s <> "" -> (Z.of_nat (String.length s) <= max_width)%Z ->
  split_long_string s max_width = [s].
Proof.
  intros Hne Hle. unfold split_long_string.
  rewrite split_step_short; rewrite join_re_split, str_app_nil_l; [| exact Hle].
  destruct (String.eqb_spec s "") as [He | _]; [contradiction | reflexivity].
Qed.

(** ** Tooltip labels *)

Lemma contains_cons sub c s :
  contains sub (String c s) = false ->
  String.prefix sub (String c s) = false /\ contains sub s = false.
Proof.
  cbn [contains]. intros H. apply orb_false_iff in H. exact H.
Qed.

Lemma replace_absent s old new : contains old s = false -> replace s old new = s.
Proof.
  unfold replace. induction s as [|c s IH]; intros H; [reflexivity |].
  apply contains_cons in H as [Hp Hc]. cbn [replace_aux].
  rewrite Hp, (IH Hc). reflexivity.
Qed.

(** X4: a tooltip label that holds none of the tokens of the older
    templating syntax is returned by [_clean_config_tt_label] as it is. *)
Theorem clean_config_tt_label_plain (s : string) :
  Forall (fun token => contains token s = false) legacy_tokens ->
  _clean_config_tt_label (VStr s) = Ok s.
Proof.
  intros H. unfold _clean_config_tt_label. cbn [as_str rbind fold_left fst snd].
  repeat (apply Forall_cons in H as [Ht H]; rewrite (replace_absent _ _ _ Ht);
          clear Ht).
  reflexivity.
Qed.

(** ** Suffixes *)

Lemma set_space_str s suf :
  set_space (VStr s) suf = VStr (if String.eqb s (strip suf) then suf else s).
Proof. unfold set_space. simpl. destruct (String.eqb s (strip suf)); reflexivity. Qed.

Lemma fold_set_space_str s :
  fold_left set_space KNOWN_SUFFIXES (VStr s) = VStr (known_spelling s).
Proof.
  unfold known_spelling, KNOWN_SUFFIXES. cbn [fold_left existsb].
  repeat
    (rewrite set_space_str;
     match goal with
     | |- context [String.eqb s (strip ?suf)] =>
         let k := eval vm_compute in (strip suf) in
         change (strip suf) with k;
         destruct (String.eqb_spec s k) as [-> | ?]; [vm_compute; reflexivity |]
     end).
  repeat match goal with
         | H : s <> ?k |- context [String.eqb s ?k] =>
             rewrite (proj2 (String.eqb_neq s k) H)
         end.
  reflexivity.
Qed.

Lemma fold_set_space_pair ys xs :
  fold_left (fun yx suf => (set_space (fst yx) suf, set_space (snd yx) suf))
    KNOWN_SUFFIXES (ys, xs)
  = (fold_left set_space KNOWN_SUFFIXES ys, fold_left set_space KNOWN_SUFFIXES xs).
Proof. reflexivity. Qed.

Lemma fold_suffix_of_part_raise parts e :
  fold_left suffix_of_part parts (Raise e) = Raise e.
Proof. induction parts as [|p parts IH]; [reflexivity | exact IH]. Qed.

(** The pass over the pieces of the tooltip label fills a missing suffix
    only. *)
Lemma suffix_of_part_y y x p :
  is_none y = false ->
  (exists x', suffix_of_part (Ok (y, x)) p = Ok (y, x'))
  \/ exists e, suffix_of_part (Ok (y, x)) p = Raise e.
Proof.
  intros Hy. unfold suffix_of_part. cbn [rbind]. rewrite Hy. cbn [andb].
  destruct (is_none x && startswith p "x" && contains "}" p); [| eauto].
  destruct (info_of_part p) as [info|e]; cbn [rbind]; [| eauto].
  destruct (if String.eqb info "" then None else known_suffix info); eauto.
Qed.

Lemma suffix_of_part_x y x p :
  is_none x = false ->
  (exists y', suffix_of_part (Ok (y, x)) p = Ok (y', x))
  \/ exists e, suffix_of_part (Ok (y, x)) p = Raise e.
Proof.
  intros Hx. unfold suffix_of_part. cbn [rbind]. rewrite Hx.
  destruct (is_none y && startswith p "y" && contains "}" p).
  - destruct (info_of_part p) as [info|e]; cbn [rbind]; [| eauto].
    destruct (if String.eqb info "" then None else known_suffix info); eauto.
  - cbn [andb]. eauto.
Qed.

Lemma suffix_of_part_keeps_y parts : forall y x y' x',
  is_none y = false ->
  fold_left suffix_of_part parts (Ok (y, x)) = Ok (y', x') -> y' = y.
Proof.
  induction parts as [|p parts IH]; intros y x y' x' Hy H; cbn [fold_left] in H.
  - injection H as <- _. reflexivity.
  - destruct (suffix_of_part_y y x p Hy) as [[x1 E] | [e E]]; rewrite E in H.
    + eapply IH; eauto.
    + rewrite fold_suffix_of_part_raise in H. discriminate.
Qed.

Lemma suffix_of_part_keeps_x parts : forall y x y' x',
  is_none x = false ->
  fold_left suffix_of_part parts (Ok (y, x)) = Ok (y', x') -> x' = x.
Proof.
  induction parts as [|p parts IH]; intros y x y' x' Hx H; cbn [fold_left] in H.
  - injection H as _ <-. reflexivity.
  - destruct (suffix_of_part_x y x p Hx) as [[y1 E] | [e E]]; rewrite E in H.
    + eapply IH; eauto.
    + rewrite fold_suffix_of_part_raise in H. discriminate.
Qed.

Lemma str_prefix_app (p s : string) : String.prefix p (p +:+ s) = true.
Proof.
  induction p as [|c p IH]; [destruct s; reflexivity |].
  change (String c p +:+ s) with (String c (p +:+ s)). cbn [String.prefix].
  destruct (Ascii.ascii_dec c c); [exact IH | congruence].
Qed.

(** What a call of [_dataset_layout] that returns has gone through: the
    suffixes after the label formats, after the axis labels, and at the
    end; the tooltip label with its line break, when the configuration has
    one. *)
Lemma dataset_layout_inv p d tt layout trace :
  _dataset_layout p d tt = Ok (layout, trace) ->
  exists ys1 xs1 ys3 xs3 ysF xsF tl,
    suffix_of_labformat
      (dict_get (d ∪ p) "ysuffix" (dict_get_none (d ∪ p) "tt_suffix"))
      (dict_get (d ∪ p) "ylab_format" (dict_get_none (d ∪ p) "yLabFormat")) = Ok ys1
    /\ suffix_of_labformat (dict_get_none (d ∪ p) "xsuffix")
         (dict_get (d ∪ p) "xlab_format" (dict_get_none (d ∪ p) "xLabFormat")) = Ok xs1
    /\ suffix_of_label (fold_left set_space KNOWN_SUFFIXES ys1)
         (dict_get_none (d ∪ p) "ylab") = Ok ys3
    /\ suffix_of_label (fold_left set_space KNOWN_SUFFIXES xs1)
         (dict_get_none (d ∪ p) "xlab") = Ok xs3
    /\ (is_none ys3 = false -> ysF = ys3)
    /\ (is_none xs3 = false -> xsF = xs3)
    /\ ticksuffix (dl_yaxis layout) = py_or ysF (VStr "")
    /\ ticksuffix (dl_xaxis layout) = py_or xsF (VStr "")
    /\ (if dict_has (d ∪ p) "tt_label"
        then exists t, tl = Some t /\ startswith t "<br>" = true
        else tl = tt /\ ysF = ys3 /\ xsF = xs3)
    /\ trace
       = match tl with
         | Some (String c t) =>
             {[ "hovertemplate" :=
                  VStr ("<b>%{text}</b>" +:+ String c t +:+ "<extra></extra>") ]}
         | _ => ∅
         end.
Proof.
  unfold _dataset_layout, dict_update. cbv zeta. intros H.
  apply rbind_ok_inv in H as (ys1 & Hys1 & H).
  apply rbind_ok_inv in H as (xs1 & Hxs1 & H).
  rewrite fold_set_space_pair in H.
  apply rbind_ok_inv in H as (ys3 & Hys3 & H).
  apply rbind_ok_inv in H as (xs3 & Hxs3 & H).
  apply rbind_ok_inv in H as ([tl [ysF xsF]] & Htt & H).
  exists ys1, xs1, ys3, xs3, ysF, xsF, tl.
  do 4 (split; [assumption |]).
  injection H as <- <-. cbn [dl_yaxis dl_xaxis ticksuffix].
  assert (Hkeep : (is_none ys3 = false -> ysF = ys3)
                  /\ (is_none xs3 = false -> xsF = xs3)
                  /\ (if dict_has (d ∪ p) "tt_label"
                      then exists t, tl = Some t /\ startswith t "<br>" = true
                      else tl = tt /\ ysF = ys3 /\ xsF = xs3)).
  { destruct (dict_has (d ∪ p) "tt_label").
    - apply rbind_ok_inv in Htt as (t0 & _ & Htt).
      apply rbind_ok_inv in Htt as ([y x] & Hfold & Htt).
      apply rbind_ok_inv in Htt as (t1 & _ & Htt).
      apply rbind_ok_inv in Htt as (t2 & _ & Htt).
      injection Htt as <- <- <-.
      split; [| split].
      + intros Hy. destruct (is_none ys3 || is_none xs3).
        * eapply suffix_of_part_keeps_y; eauto.
        * injection Hfold as <- _. reflexivity.
      + intros Hx. destruct (is_none ys3 || is_none xs3).
        * eapply suffix_of_part_keeps_x; eauto.
        * injection Hfold as _ <-. reflexivity.
      + eexists. split; [reflexivity |].
        destruct (startswith t2 "<br>") eqn:Hs; cbn [negb];
          [exact Hs | apply str_prefix_app].
    - injection Htt as <- <- <-. auto. }
  destruct Hkeep as (Hy & Hx & Hbr).
  do 5 (split; [assumption || reflexivity |]).
  destruct tl as [[|c t]|]; reflexivity.
Qed.

(** X5: when [_dataset_layout] returns for a configuration that has a
    [tt_label], the trace parameters hold a hover template that starts with
    the sample name in bold, goes on with a label that starts with a line
    break, and ends with the empty extra box; without [tt_label] the hover
    template wraps the default label as it is given, and there is none
    when the default is unset or empty. *)
Theorem dataset_layout_hovertemplate (p d : gmap string value)
    (tt : option string) (layout : DatasetLayout) (trace : gmap string value) :
  _dataset_layout p d tt = Ok (layout, trace) ->
  (dict_has (dict_update p d) "tt_label" = true ->
   exists t,
     trace !! "hovertemplate"
     = Some (VStr ("<b>%{text}</b>" +:+ t +:+ "<extra></extra>"))
     /\ startswith t "<br>" = true)
  /\ (dict_has (dict_update p d) "tt_label" = false ->
      trace !! "hovertemplate"
      = match tt with
        | Some (String c t) =>
            Some (VStr ("<b>%{text}</b>" +:+ String c t +:+ "<extra></extra>"))
        | _ => None
        end).
Proof.
  intros H. apply dataset_layout_inv in H
    as (ys1 & xs1 & ys3 & xs3 & ysF & xsF & tl & _ & _ & _ & _ & _ & _ & _ & _
        & Htl & ->).
  unfold dict_update. split; intros Hhas; rewrite Hhas in Htl.
  - destruct Htl as (t & -> & Hbr). exists t.
    destruct t as [|c t]; [discriminate |]. split; [reflexivity | exact Hbr].
  - destruct Htl as (-> & _). destruct tt as [[|c t]|]; reflexivity.
Qed.

Lemma py_or_str s : py_or (VStr s) (VStr "") = VStr s.
Proof.
  unfold py_or. simpl. destruct (String.eqb_spec s "") as [-> | _]; reflexivity.
Qed.

Lemma explicit_suffix_kept s labformat lab :
  suffix_of_labformat (VStr s) labformat = Ok (VStr s)
  /\ suffix_of_label (VStr s) lab = Ok (VStr s).
Proof. split; reflexivity. Qed.

(** X6: a tick suffix given as a string under [ysuffix] (or [xsuffix])
    is what [_dataset_layout] puts on the axis, whatever the axis label or
    the tooltip label suggest: as given, or with a leading space for the
    base-pair units [bp], [kbp] and [Mbp]. *)
Theorem dataset_layout_explicit_suffix (p d : gmap string value)
    (tt : option string) (layout : DatasetLayout) (trace : gmap string value) :
  _dataset_layout p d tt = Ok (layout, trace) ->
  (forall s, dict_update p d !! "ysuffix" = Some (VStr s) ->
     ticksuffix (dl_yaxis layout) = VStr (known_spelling s))
  /\ (forall s, dict_update p d !! "xsuffix" = Some (VStr s) ->
        ticksuffix (dl_xaxis layout) = VStr (known_spelling s)).
Proof.
  intros H. apply dataset_layout_inv in H
    as (ys1 & xs1 & ys3 & xs3 & ysF & xsF & tl & Hys1 & Hxs1 & Hys3 & Hxs3
        & Hy & Hx & Hty & Htx & _ & _).
  unfold dict_update. split; intros s Hs.
  - unfold dict_get in Hys1. rewrite Hs in Hys1.
    rewrite (proj1 (explicit_suffix_kept s _ VNone)) in Hys1. injection Hys1 as <-.
    rewrite fold_set_space_str in Hys3.
    rewrite (proj2 (explicit_suffix_kept _ VNone _)) in Hys3. injection Hys3 as <-.
    rewrite Hty, (Hy eq_refl). apply py_or_str.
  - unfold dict_get_none, dict_get in Hxs1. rewrite Hs in Hxs1.
    rewrite (proj1 (explicit_suffix_kept s _ VNone)) in Hxs1. injection Hxs1 as <-.
    rewrite fold_set_space_str in Hxs3.
    rewrite (proj2 (explicit_suffix_kept _ VNone _)) in Hxs3. injection Hxs3 as <-.
    rewrite Htx, (Hx eq_refl). apply py_or_str.
Qed.

(** ** Deprecated keys *)

(** One renaming: [if old in conf: conf[new] = conf.pop(old)]. *)
Lemma rename_step_lookup (conf : gmap string value) (old new k : string) v :
  conf !! old = Some v -> k <> old -> k <> new ->
  (<[new := v]> (delete old conf)) !! k = conf !! k.
Proof.
  intros _ Ho Hn. rewrite lookup_insert_ne by congruence.
  apply lookup_delete_ne. congruence.
Qed.

(** X8: whenever [rename_deprecated_highcharts_keys] returns, every key
    other than the six it reads or writes has the value it had. *)
Theorem rename_deprecated_pass_through (conf conf' : gmap string value)
    (k : string) :
  rename_deprecated_highcharts_keys conf = Ok conf' ->
  k ∉ renamed_keys ->
  conf' !! k = conf !! k.
Proof.
  unfold rename_deprecated_highcharts_keys, renamed_keys, dict_has, dict_pop.
  intros H Hk.
  assert (Hne : k <> "y_ceiling" /\ k <> "yaxis" /\ k <> "xAxis" /\ k <> "xaxis"
                /\ k <> "tooltip" /\ k <> "hovertemplate").
  { repeat split; intros ->; apply Hk; set_solver. }
  destruct Hne as (H1 & H2 & H3 & H4 & H5 & H6).
  apply rbind_ok_inv in H as (c1 & Hc1 & H).
  apply rbind_ok_inv in H as (c2 & Hc2 & H).
  apply rbind_ok_inv in H as (c3 & Hc3 & H). injection H as <-.
  assert (E1 : c1 !! k = conf !! k).
  { destruct (conf !! "yCeiling") as [w|]; [| injection Hc1 as <-; reflexivity].
    destruct (conf !! "y_ceiling") as [v|] eqn:Ev; [| discriminate].
    injection Hc1 as <-. eapply rename_step_lookup; eauto. }
  assert (E2 : c2 !! k = c1 !! k).
  { destruct (c1 !! "xAxis") as [v|] eqn:Ev; injection Hc2 as <-; [| reflexivity].
    eapply rename_step_lookup; eauto. }
  assert (E3 : c3 !! k = c2 !! k).
  { destruct (c2 !! "tooltip") as [v|] eqn:Ev; injection Hc3 as <-; [| reflexivity].
    eapply rename_step_lookup; eauto. }
  congruence.
Qed.

(** X9: on a configuration without [yCeiling],
    [rename_deprecated_highcharts_keys] returns; the result has neither
    [xAxis] nor [tooltip]; their values, when they were there, are under
    [xaxis] and [hovertemplate], which otherwise keep theirs; and renaming
    the result again changes nothing. *)
Theorem rename_deprecated_legacy_keys (conf : gmap string value) :
  conf !! "yCeiling" = None ->
  exists conf',
    rename_deprecated_highcharts_keys conf = Ok conf'
    /\ conf' !! "xAxis" = None
    /\ conf' !! "tooltip" = None
    /\ conf' !! "xaxis"
       = match conf !! "xAxis" with Some v => Some v | None => conf !! "xaxis" end
    /\ conf' !! "hovertemplate"
       = match conf !! "tooltip" with
         | Some v => Some v
         | None => conf !! "hovertemplate"
         end
    /\ rename_deprecated_highcharts_keys conf' = Ok conf'.
Proof.
  intros Hy. unfold rename_deprecated_highcharts_keys, dict_has, dict_pop.
  rewrite Hy. cbn [rbind].
  destruct (conf !! "xAxis") as [vx|] eqn:Hx; cbn [rbind].
  - rewrite lookup_insert_ne, lookup_delete_ne by discriminate.
    destruct (conf !! "tooltip") as [vt|] eqn:Ht; cbn [rbind];
      eexists; (split; [reflexivity |]); simplify_map_eq; repeat split; reflexivity.
  - destruct (conf !! "tooltip") as [vt|] eqn:Ht; cbn [rbind];
      eexists; (split; [reflexivity |]); simplify_map_eq; repeat split; reflexivity.
Qed.

Lemma step_lift_raise {A B} (x : result A) (k : A -> M B) e st :
  x = Raise e -> bind (lift x) k st = (Raise e, st).
Proof. intros ->. reflexivity. Qed.

Lemma rbind_raise_inv {A B} (r : result A) (k : A -> result B) e :
  rbind r k = Raise e -> r = Raise e \/ exists a, r = Ok a /\ k a = Raise e.
Proof. destruct r as [a|e']; simpl; intros H; [right; eauto | left; injection H as ->; reflexivity]. Qed.

(** The loop body of [get_figure] raises where the resolution of the axis
    does, and has then written to the object at [r] only. *)
Lemma resolve_axis_put_raise E self ds r lg pc axis st l a e :
  r < length (heap st) -> layout_axis l axis = Ok a ->
  resolved_axis E (Plot.pct_axis_update self)
    (Plot.pct_bound ds axis "min" (VInt 0))
    (Plot.pct_bound ds axis "max" (VInt 100)) lg pc a = Raise e ->
  exists l', Plot.resolve_axis E self ds r lg pc axis (put r l st)
             = (Raise e, put r l' st).
Proof.
  intros Hlt Ha Hres.
  unfold Plot.resolve_axis, resolved_axis in *.
  destruct (layout_axis_ok _ _ _ Ha) as [-> | ->]; simpl in Ha; injection Ha as <-;
  destruct pc, lg; try discriminate;
    (apply rbind_raise_inv in Hres as [Hmn | (mn & Hmn & Hres)];
     [| apply rbind_raise_inv in Hres as [Hmx | (mx & Hmx & Hres)]; [| discriminate]]);
    eexists; exec Hlt;
    erewrite step_lift_raise by eassumption; reflexivity.
Qed.

Lemma resolve_axis_put_noaxis E self ds r lg pc axis st l e :
  r < length (heap st) -> layout_axis l axis = Raise e ->
  Plot.resolve_axis E self ds r lg pc axis (put r l st) = (Raise e, put r l st).
Proof.
  intros Hlt Ha. unfold Plot.resolve_axis.
  apply bind_raise. rewrite load_axis_put by exact Hlt. rewrite Ha. reflexivity.
Qed.

Lemma layout_set_axis_total l name a a' :
  layout_axis l name = Ok a -> exists l', layout_set_axis l name a' = Ok l'.
Proof.
  intros Ha. apply layout_set_axis_ok. eapply layout_axis_ok. exact Ha.
Qed.

(** The loop of [get_figure] over the axes has the outcome of
    [resolved_layout]; when it raises, it has written to the object at [r]
    only. *)
Lemma for_each_put_raise E self ds r lg pc axes : forall st l e,
  r < length (heap st) ->
  resolved_layout E self ds lg pc axes l = Raise e ->
  exists l',
    for_each axes (Plot.resolve_axis E self ds r lg pc) (put r l st)
    = (Raise e, put r l' st).
Proof.
  induction axes as [|axis axes IH]; intros st l e Hlt H; simpl in *; [discriminate |].
  destruct (layout_axis l axis) as [a|e1] eqn:Ha; simpl in H.
  - destruct (resolved_axis E (Plot.pct_axis_update self)
                (Plot.pct_bound ds axis "min" (VInt 0))
                (Plot.pct_bound ds axis "max" (VInt 100)) lg pc a) as [a'|e2] eqn:Ha';
      simpl in H.
    + destruct (resolve_axis_put E self ds r lg pc axis st l a a' Hlt Ha Ha')
        as (l1 & Hl1 & Hrun).
      rewrite Hl1 in H. simpl in H.
      destruct (IH st l1 e Hlt H) as (l' & Hl').
      exists l'. unfold bind. rewrite Hrun. exact Hl'.
    + injection H as ->.
      destruct (resolve_axis_put_raise E self ds r lg pc axis st l a e Hlt Ha Ha')
        as (l' & Hrun).
      exists l'. apply bind_raise. exact Hrun.
  - injection H as ->. exists l. apply bind_raise.
    apply resolve_axis_put_noaxis; assumption.
Qed.

(** [get_figure] raises where the index, the layout object or the
    resolution of an axis does; the store then holds at most one more
    object. *)
Lemma get_figure_raise E self dataset_id lg pc flat st base ds e :
  heap st !! Plot.layout self = Some base ->
  list_index (Plot.datasets self) dataset_id = Ok ds ->
  resolved_layout E self ds lg pc (Plot.axis_controlled_by_switches self)
    (merged_layout base ds flat) = Raise e ->
  exists l',
    Plot.get_figure E self dataset_id lg pc flat st
    = (Raise e, set_heap (heap st ++ [l']) st).
Proof.
  intros Hb Hd Hr. unfold Plot.get_figure.
  rewrite (step_lift _ _ ds) by exact Hd.
  unfold bind at 1. unfold load at 1. rewrite Hb.
  unfold bind at 1. unfold alloc at 1.
  set (st1 := set_heap (heap st ++ [base]) st).
  set (r := length (heap st)).
  assert (Hlt : r < length (heap st1)).
  { unfold st1, r. simpl. rewrite length_app. simpl. lia. }
  assert (H1 : heap st1 !! r = Some base).
  { unfold st1, r. simpl. apply list_lookup_middle. reflexivity. }
  rewrite <- (put_id r base st1 H1).
  rewrite step_load by exact Hlt. rewrite step_store.
  assert (Hm : (if flat
       then let* l := load r in store r (set_width (VInt FLAT_PLOT_WIDTH) l)
       else ret ()) (put r (layout_update base (BaseDataset.layout ds)) st1)
     = (Ok tt, put r (merged_layout base ds flat) st1)).
  { unfold merged_layout. destruct flat; [| reflexivity].
    rewrite step_load by exact Hlt. apply store_put. }
  unfold bind at 1. rewrite Hm.
  destruct (for_each_put_raise E self ds r lg pc _ st1 _ e Hlt Hr) as (l' & Hrun).
  exists l'. unfold bind at 1. rewrite Hrun. f_equal.
  unfold put, st1, r, set_heap. simpl. f_equal.
  replace (length (heap st)) with (length (heap st) + 0) at 1 by lia.
  rewrite insert_app_r. reflexivity.
Qed.

(** A figure returned by [get_figure] is the figure of the resolved
    layout, and that layout is the one object added to the store. *)
Lemma get_figure_inv E self dataset_id lg pc flat st fig st' :
  Plot.get_figure E self dataset_id lg pc flat st = (Ok fig, st') ->
  exists ds base l',
    list_index (Plot.datasets self) dataset_id = Ok ds
    /\ heap st !! Plot.layout self = Some base
    /\ resolved_layout E self ds lg pc (Plot.axis_controlled_by_switches self)
         (merged_layout base ds flat) = Ok l'
    /\ fig = create_figure ds l' lg pc
    /\ st' = set_heap (heap st ++ [l']) st.
Proof.
  intros H.
  destruct (list_index (Plot.datasets self) dataset_id) as [ds|e] eqn:Hd.
  2:{ unfold Plot.get_figure in H. rewrite Hd in H. discriminate. }
  destruct (heap st !! Plot.layout self) as [base|] eqn:Hb.
  2:{ unfold Plot.get_figure in H. rewrite Hd in H.
      unfold bind, lift, load in H. rewrite Hb in H. discriminate. }
  destruct (resolved_layout E self ds lg pc (Plot.axis_controlled_by_switches self)
              (merged_layout base ds flat)) as [l'|e] eqn:Hr.
  - rewrite (get_figure_ok E self dataset_id lg pc flat st base ds l' Hb Hd Hr) in H.
    injection H as <- <-. exists ds, base, l'.
    split; [reflexivity |]. split; [reflexivity |]. split; [exact Hr |].
    split; reflexivity.
  - destruct (get_figure_raise E self dataset_id lg pc flat st base ds e Hb Hd Hr)
      as (l' & Hrun).
    rewrite Hrun in H. discriminate.
Qed.

(** ** Views of a figure *)

Lemma list_index_out_of_range {A} (l : list A) (i : Z) :
  (Z.of_nat (length l) <= i \/ i < - Z.of_nat (length l))%Z ->
  list_index l i = Raise IndexError.
Proof.
  intros H. unfold list_index.
  destruct (Z.ltb_spec i 0) as [Hi | Hi].
  - destruct (Z.ltb_spec (Z.of_nat (length l) + i) 0) as [Hj | Hj]; [reflexivity | lia].
  - destruct (Z.ltb_spec i 0) as [Hj | Hj]; [lia |].
    rewrite lookup_ge_None_2; [reflexivity | lia].
Qed.

Lemma list_index_raises {A} (l : list A) (i : Z) e :
  list_index l i = Raise e -> e = IndexError.
Proof.
  unfold list_index.
  destruct (_ <? 0)%Z; [congruence |]. destruct (l !! _); congruence.
Qed.

(** The one effect of [get_figure], whatever its outcome: at most one new
    object in the store. *)
Lemma get_figure_state E self dataset_id lg pc flat st res st' :
  Plot.get_figure E self dataset_id lg pc flat st = (res, st') ->
  st' = st \/ exists l, st' = set_heap (heap st ++ [l]) st.
Proof.
  intros H.
  destruct (list_index (Plot.datasets self) dataset_id) as [ds|e] eqn:Hd.
  2:{ unfold Plot.get_figure in H. rewrite Hd in H. injection H as <- <-.
      left; reflexivity. }
  destruct (heap st !! Plot.layout self) as [base|] eqn:Hb.
  2:{ unfold Plot.get_figure in H. rewrite Hd in H.
      unfold bind, lift, load in H. rewrite Hb in H. injection H as <- <-.
      left; reflexivity. }
  destruct (resolved_layout E self ds lg pc
              (Plot.axis_controlled_by_switches self)
              (merged_layout base ds flat)) as [l'|e] eqn:Hr.
  - rewrite (get_figure_ok E self dataset_id lg pc flat st base ds l' Hb Hd Hr) in H.
    injection H as <- <-. right; eexists; reflexivity.
  - destruct (get_figure_raise E self dataset_id lg pc flat st base ds e Hb Hd Hr)
      as (l' & Hrun).
    rewrite Hrun in H. injection H as <- <-. right; eexists; reflexivity.
Qed.

(** X10: the only thing [get_figure] does to the state is to add at most
    one layout object to the store: when it returns a figure, exactly the
    layout of that figure; the log, the files, the lint errors and the
    objects already in the store are as before.  A dataset index outside
    the list raises [IndexError] and leaves the state as it was. *)
Theorem get_figure_store (E : Env) (self : Plot.t) (dataset_id : Z)
    (is_log is_pct flat : bool) (st : State) (res : result Figure) (st' : State) :
  Plot.get_figure E self dataset_id is_log is_pct flat st = (res, st') ->
  (forall fig, res = Ok fig -> st' = set_heap (heap st ++ [fig_layout fig]) st)
  /\ (st' = st \/ exists l, st' = set_heap (heap st ++ [l]) st)
  /\ ((Z.of_nat (length (Plot.datasets self)) <= dataset_id
       \/ dataset_id < - Z.of_nat (length (Plot.datasets self)))%Z ->
      res = Raise IndexError /\ st' = st).
Proof.
  intros H. split; [| split].
  - intros fig ->.
    apply get_figure_inv in H as (ds & base & l' & _ & _ & _ & -> & ->). reflexivity.
  - eapply get_figure_state. exact H.
  - intros Hout. apply list_index_out_of_range in Hout.
    unfold Plot.get_figure in H. rewrite Hout in H. injection H as <- <-.
    split; reflexivity.
Qed.


Lemma resolved_axis_pct E upd pmin pmax lg a a' :
  resolved_axis E upd pmin pmax lg true a = Ok a' ->
  ticksuffix a' = upd_ticksuffix upd
  /\ hoverformat a' = upd_hoverformat upd
  /\ (if lg then log10_bound E pmin else Ok pmin) = Ok (minallowed (autorangeoptions a'))
  /\ (if lg then log10_bound E pmax else Ok pmax) = Ok (maxallowed (autorangeoptions a')).
Proof.
  unfold resolved_axis. destruct lg.
  - intros H. apply rbind_ok_inv in H as (mn & Hmn & H).
    apply rbind_ok_inv in H as (mx & Hmx & H). injection H as <-.
    repeat split; assumption.
  - intros [= <-]. repeat split; reflexivity.
Qed.

(** Every axis of the list has, in the end, the form that its last
    resolution gave it. *)
Lemma resolved_layout_last E self ds lg pc axes : forall l l' x,
  x ∈ axes -> resolved_layout E self ds lg pc axes l = Ok l' ->
  exists a a',
    resolved_axis E (Plot.pct_axis_update self)
      (Plot.pct_bound ds x "min" (VInt 0))
      (Plot.pct_bound ds x "max" (VInt 100)) lg pc a = Ok a'
    /\ layout_axis l' x = Ok a'.
Proof.
  induction axes as [|y axes IH]; intros l l' x Hin H.
  - apply elem_of_nil in Hin. destruct Hin.
  - apply resolved_layout_inv in H as (a & a' & l1 & Ha & Ha' & Hl1 & H).
    destruct (decide (x ∈ axes)) as [Hx | Hx].
    + eapply IH; eassumption.
    + apply elem_of_cons in Hin as [-> | Hin]; [| contradiction].
      exists a, a'. split; [exact Ha' |].
      rewrite (resolved_layout_notin E self ds lg pc axes l1 l' y Hx H).
      eapply layout_axis_set. exact Hl1.
Qed.

Lemma resolved_layout_size E self ds lg pc axes : forall l l',
  resolved_layout E self ds lg pc axes l = Ok l' ->
  width l' = width l /\ height l' = height l /\ title l' = title l.
Proof.
  induction axes as [|y axes IH]; intros l l' H.
  - injection H as <-. repeat split.
  - apply resolved_layout_inv in H as (a & a' & l1 & Ha & Ha' & Hl1 & H).
    apply IH in H as (Hw & Hh & Ht). rewrite Hw, Hh, Ht.
    unfold layout_set_axis in Hl1.
    destruct (String.eqb y "xaxis"); [injection Hl1 as <-; repeat split |].
    destruct (String.eqb y "yaxis"); [injection Hl1 as <-; repeat split | discriminate].
Qed.


(** X12: in the percentage view, every axis under the switches of a
    figure returned by [get_figure] carries the tick suffix and the hover
    format of the percentage update of the plot, and its bounds are those
    of the percentage range of the dataset (0 and 100 when the range names
    none), passed through the logarithm when the view is logarithmic as
    well. *)
Theorem get_figure_percent_view (E : Env) (self : Plot.t) (dataset_id : Z)
    (is_log flat : bool) (st : State) (fig : Figure) (st' : State) (axis : string) :
  Plot.get_figure E self dataset_id is_log true flat st = (Ok fig, st') ->
  axis ∈ Plot.axis_controlled_by_switches self ->
  exists a,
    layout_axis (fig_layout fig) axis = Ok a
    /\ ticksuffix a = upd_ticksuffix (Plot.pct_axis_update self)
    /\ hoverformat a = upd_hoverformat (Plot.pct_axis_update self)
    /\ (if is_log
        then log10_bound E (Plot.pct_bound (fig_dataset fig) axis "min" (VInt 0))
        else Ok (Plot.pct_bound (fig_dataset fig) axis "min" (VInt 0)))
       = Ok (minallowed (autorangeoptions a))
    /\ (if is_log
        then log10_bound E (Plot.pct_bound (fig_dataset fig) axis "max" (VInt 100))
        else Ok (Plot.pct_bound (fig_dataset fig) axis "max" (VInt 100)))
       = Ok (maxallowed (autorangeoptions a)).
Proof.
  intros H Hin. apply get_figure_inv in H as (ds & base & l' & Hd & Hb & Hr & -> & _).
  destruct (resolved_layout_last E self ds is_log true _ _ _ axis Hin Hr)
    as (a & a' & Ha' & Hl).
  exists a'. split; [exact Hl |]. simpl.
  eapply resolved_axis_pct. exact Ha'.
Qed.

(** ** Static images: exports and visibility *)

Lemma reported_nil st : reported [] [] 0 st = st.
Proof.
  destruct st. unfold reported. simpl. rewrite !app_nil_r. reflexivity.
Qed.

Lemma export_loop_run (short long : string -> string) (l : list string) : forall st,
  for_each l (fun x => logger DEBUG (WritingPlot (short x)) ;; write_file (long x)) st
  = (Ok tt, reported (map (fun x => (DEBUG, WritingPlot (short x))) l) (map long l) 0 st).
Proof.
  induction l as [|x l IH]; intros st; simpl.
  - rewrite reported_nil. reflexivity.
  - unfold bind at 1. unfold bind at 1. simpl. rewrite IH.
    unfold reported. simpl. rewrite <- !app_assoc. reflexivity.
Qed.

(** The image that [fig_to_static_html] returns for a figure with a width
    and a file name, and the state it leaves. *)
Lemma fig_to_static_html_run E fig active export_plots embed name st :
  truthy (width (fig_layout fig)) = true ->
  fig_to_static_html E fig active export_plots embed (Some name) st
  = (Ok {| img_id := if String.eqb name "" then
                       "plot-" +:+ pretty (random_randint E (draws st))
                     else name;
           img_hidden := negb active;
           img_src := if embed then SrcData fig
                      else SrcPath (path3 (plots_dir_name (config E)) "png"
                                      (name +:+ ".png"));
           img_height := height (fig_layout fig);
           img_width := width (fig_layout fig) |},
     reported (if export_plots then export_messages E name else [])
       (if export_plots then exported_files E name else [])
       (if String.eqb name "" then 1 else 0) st).
Proof.
  intros Hw. unfold fig_to_static_html. rewrite Hw.
  rewrite (bind_ok _ _ st tt st) by reflexivity.
  set (st1 := reported (if export_plots then export_messages E name else [])
                (if export_plots then exported_files E name else []) 0 st).
  assert (Hexp :
    (if export_plots
     then for_each (export_plot_formats (config E)) (fun file_ext =>
            logger DEBUG
              (WritingPlot (path3 (plots_dir_name (config E)) file_ext
                              (name +:+ "." +:+ file_ext))) ;;
            write_file (path3 (plots_tmp_dir (config E)) file_ext
                          (name +:+ "." +:+ file_ext)))
     else ret tt) st = (Ok tt, st1)).
  { unfold st1. destruct export_plots; [| rewrite reported_nil; reflexivity].
    apply (export_loop_run
             (fun file_ext =>
                path3 (plots_dir_name (config E)) file_ext (name +:+ "." +:+ file_ext))
             (fun file_ext =>
                path3 (plots_tmp_dir (config E)) file_ext (name +:+ "." +:+ file_ext))). }
  rewrite (bind_ok _ _ st tt st1) by exact Hexp.
  destruct name as [|c name]; destruct embed; reflexivity.
Qed.


(** What a returned image tells about the call. *)
Lemma fig_to_static_html_inv E fig active export_plots embed name st img st' :
  fig_to_static_html E fig active export_plots embed (Some name) st = (Ok img, st') ->
  truthy (width (fig_layout fig)) = true
  /\ img_hidden img = negb active
  /\ (name <> "" -> img_id img = name)
  /\ heap st' = heap st.
Proof.
  intros H. destruct (truthy (width (fig_layout fig))) eqn:Hw.
  - rewrite fig_to_static_html_run in H by exact Hw. injection H as <- <-.
    split; [reflexivity |]. split; [reflexivity |]. split; [| reflexivity].
    simpl. intros Hn. apply String.eqb_neq in Hn. rewrite Hn. reflexivity.
  - unfold fig_to_static_html in H. rewrite Hw in H. discriminate.
Qed.


(** ** What a computation leaves in place *)

Section Preserved.
Variable R : State -> State -> Prop.
Hypothesis R_refl : forall st, R st st.
Hypothesis R_trans : forall st1 st2 st3, R st1 st2 -> R st2 st3 -> R st1 st3.

Lemma pres_ret {A} (a : A) : preserves R (ret a).
Proof. intros st res st' [= <- <-]. apply R_refl. Qed.

Lemma pres_raise {A} e : preserves R (@raise A e).
Proof. intros st res st' [= <- <-]. apply R_refl. Qed.

Lemma pres_lift {A} (x : result A) : preserves R (lift x).
Proof. intros st res st' [= <- <-]. apply R_refl. Qed.

Lemma pres_bind {A B} (m : M A) (k : A -> M B) :
  preserves R m -> (forall a, preserves R (k a)) -> preserves R (bind m k).
Proof.
  intros Hm Hk st res st'. unfold bind.
  destruct (m st) as [[a|e] st1] eqn:Em; intros H.
  - eapply R_trans; [eapply Hm; eauto | eapply Hk; eauto].
  - injection H as <- <-. eapply Hm; eauto.
Qed.

Lemma pres_for_each {A} (l : list A) (body : A -> M unit) :
  (forall x, preserves R (body x)) -> preserves R (for_each l body).
Proof.
  intros Hb. induction l as [|x l IH]; simpl.
  - apply pres_ret.
  - apply pres_bind; [apply Hb | intros; apply IH].
Qed.

End Preserved.

Lemma only_adds_refl st : only_adds st st.
Proof. repeat split; auto. Qed.

Lemma only_adds_trans st1 st2 st3 :
  only_adds st1 st2 -> only_adds st2 st3 -> only_adds st1 st3.
Proof.
  intros (L1 & H1 & G1 & F1 & E1) (L2 & H2 & G2 & F2 & E2).
  split; [lia |]. split; [| split; [| split]].
  - intros l Hl. rewrite H2 by lia. apply H1. exact Hl.
  - etrans; eassumption.
  - etrans; eassumption.
  - congruence.
Qed.

Lemma only_adds_reported msgs paths n st : only_adds st (reported msgs paths n st).
Proof.
  unfold only_adds, reported. simpl.
  split; [lia |]. split; [auto |]. split; [apply prefix_app_r; reflexivity |].
  split; [apply prefix_app_r; reflexivity | reflexivity].
Qed.

Lemma only_adds_alloc l st : only_adds st (set_heap (heap st ++ [l]) st).
Proof.
  unfold only_adds. simpl. rewrite length_app. simpl.
  split; [lia |]. split; [intros; apply lookup_app_l; assumption |].
  repeat split; reflexivity.
Qed.

Lemma pres_get_figure E self dataset_id lg pc flat :
  preserves only_adds (Plot.get_figure E self dataset_id lg pc flat).
Proof.
  intros st res st' H. apply get_figure_state in H as [-> | (l & ->)].
  - apply only_adds_refl.
  - apply only_adds_alloc.
Qed.

Lemma pres_fig_to_static_html E fig active export_plots embed file_name :
  preserves only_adds (fig_to_static_html E fig active export_plots embed file_name).
Proof.
  intros st res st' H.
  destruct (truthy (width (fig_layout fig))) eqn:Hw.
  2:{ unfold fig_to_static_html in H. rewrite Hw in H. injection H as <- <-.
      apply only_adds_refl. }
  destruct file_name as [name|].
  - rewrite fig_to_static_html_run in H by exact Hw. injection H as <- <-.
    apply only_adds_reported.
  - unfold fig_to_static_html in H. rewrite Hw in H.
    destruct export_plots; [injection H as <- <-; apply only_adds_refl |].
    destruct embed; injection H as <- <-; [| apply only_adds_refl].
    unfold only_adds. simpl. repeat split; auto.
Qed.

Ltac pres_step :=
  first
    [ apply pres_get_figure
    | apply pres_fig_to_static_html
    | apply pres_ret; exact only_adds_refl
    | apply pres_bind; [ exact only_adds_trans | | intros ]
    | match goal with
      | |- preserves _ (if ?b then _ else _) => destruct b
      end ].

Lemma pres_flat_plot_dataset E self i ds :
  preserves only_adds (Plot.flat_plot_dataset E self i ds).
Proof. unfold Plot.flat_plot_dataset. cbv zeta. repeat pres_step. Qed.

Lemma pres_flat_plot_datasets E self : forall l,
  preserves only_adds (Plot.flat_plot_datasets E self l).
Proof.
  induction l as [|[i ds] l IH]; simpl.
  - apply pres_ret. exact only_adds_refl.
  - apply pres_bind; [exact only_adds_trans | |].
    + apply pres_flat_plot_dataset.
    + intros html. apply pres_bind; [exact only_adds_trans | |].
      * apply IH.
      * intros. apply pres_ret. exact only_adds_refl.
Qed.

(** X15: whether they return or raise, [flat_plot] and [show] leave every
    object of the store as it was (the layout of the plot among them), add
    to the log and to the files without removing anything, and record no
    lint error. *)
Theorem flat_plot_only_adds (E : Env) (self : Plot.t) (st : State) :
  (forall res st', Plot.flat_plot E self st = (res, st') -> only_adds st st')
  /\ (forall dataset_id is_log is_pct flat res st',
        Plot.show E self dataset_id is_log is_pct flat st = (res, st') ->
        only_adds st st').
Proof.
  split.
  - intros res st'. revert st res st'.
    change (preserves only_adds (Plot.flat_plot E self)).
    unfold Plot.flat_plot. apply pres_bind; [exact only_adds_trans | |].
    + apply pres_flat_plot_datasets.
    + intros. apply pres_ret. exact only_adds_refl.
  - intros dataset_id is_log is_pct flat res st'. revert st res st'.
    change (preserves only_adds (Plot.show E self dataset_id is_log is_pct flat)).
    unfold Plot.show. repeat pres_step.
Qed.

Lemma visible_ids_app h1 h2 : visible_ids (h1 ++ h2) = visible_ids h1 ++ visible_ids h2.
Proof. unfold visible_ids. apply flat_map_app. Qed.

(** The calls of a run of [flat_plot_dataset] that returned, one by one. *)
Ltac unrender :=
  repeat match goal with
    | H : bind _ _ _ = (Ok _, _) |- _ => apply bind_ok_inv in H as (? & ? & ? & ?)
    | H : ret _ _ = (Ok _, _) |- _ => unfold ret in H; injection H as <- <-
    | H : fig_to_static_html _ _ _ _ _ (Some _) _ = (Ok _, _) |- _ =>
        apply fig_to_static_html_inv in H as (_ & ? & ? & _)
    | H : Plot.get_figure _ _ _ _ _ _ _ = (Ok _, _) |- _ => clear H
    end.

Ltac read_images Hu :=
  repeat match goal with
    | H : _ <> "" -> img_id _ = _ |- _ =>
        rewrite (H ltac:(first [exact Hu | apply append_nonempty; discriminate]));
        clear H
    | H : img_hidden _ = _ |- _ => rewrite H; clear H
    end.

(** The images of one dataset that are shown when the page loads: those
    of the active views for the first dataset, none for the others. *)
Lemma flat_plot_dataset_visible E self i ds st html st' :
  Plot.flat_plot_dataset E self i ds st = (Ok html, st') ->
  BaseDataset.uid ds <> "" ->
  (Plot.p_active self = true -> Plot.add_pct_tab self = true) ->
  (Plot.l_active self = true -> Plot.add_log_tab self = true) ->
  visible_ids html = if i =? 0 then active_names self ds else [].
Proof.
  intros H Hu Hp Hl.
  unfold Plot.flat_plot_dataset, active_names in *. cbv zeta in H.
  destruct (Plot.add_pct_tab self), (Plot.add_log_tab self);
    destruct (Plot.p_active self); try (specialize (Hp eq_refl); discriminate);
    destruct (Plot.l_active self); try (specialize (Hl eq_refl); discriminate);
    cbn [negb andb] in *; unrender;
    unfold visible_ids; simpl; read_images Hu;
    destruct (i =? 0); reflexivity.
Qed.

Lemma flat_plot_datasets_hidden E self : forall l k st html st',
  Plot.flat_plot_datasets E self (Plot.enumerate (S k) l) st = (Ok html, st') ->
  Forall (fun ds => BaseDataset.uid ds <> "") l ->
  (Plot.p_active self = true -> Plot.add_pct_tab self = true) ->
  (Plot.l_active self = true -> Plot.add_log_tab self = true) ->
  visible_ids html = [].
Proof.
  induction l as [|d l IH]; intros k st html st' H Hu Hp Hl; simpl in H.
  - injection H as <- <-. reflexivity.
  - apply bind_ok_inv in H as (h1 & st1 & H1 & H).
    apply bind_ok_inv in H as (h2 & st2 & H2 & H). injection H as <- <-.
    inversion Hu as [|? ? Hd Hrest]; subst.
    rewrite visible_ids_app.
    rewrite (flat_plot_dataset_visible _ _ _ _ _ _ _ H1 Hd Hp Hl).
    rewrite (IH _ _ _ _ H2 Hrest Hp Hl). reflexivity.
Qed.

(** X16: on the page that [flat_plot] returns for a plot whose datasets
    have uids and whose active switches exist, the images shown on load all
    belong to the first dataset: its counts when no switch is active, its
    percentage or its logarithmic view when one is, and three images
    (percentage, logarithmic and both) when both switches are active. *)
Theorem flat_plot_visible (E : Env) (self : Plot.t) (st : State)
    (html : list Html) (st' : State) :
  Plot.flat_plot E self st = (Ok html, st') ->
  Forall (fun ds => BaseDataset.uid ds <> "") (Plot.datasets self) ->
  (Plot.p_active self = true -> Plot.add_pct_tab self = true) ->
  (Plot.l_active self = true -> Plot.add_log_tab self = true) ->
  visible_ids html
  = match Plot.datasets self with
    | [] => []
    | ds :: _ => active_names self ds
    end
  /\ length (visible_ids html)
     = match Plot.datasets self with
       | [] => 0
       | _ :: _ => if Plot.p_active self && Plot.l_active self then 3 else 1
       end.
Proof.
  intros H Hu Hp Hl. unfold Plot.flat_plot in H.
  apply bind_ok_inv in H as (images & st1 & H & Hret). injection Hret as Hhtml _.
  assert (Hv : visible_ids images
               = match Plot.datasets self with
                 | [] => []
                 | ds :: _ => active_names self ds
                 end).
  { destruct (Plot.datasets self) as [|d l]; simpl in H.
    - injection H as <- <-. reflexivity.
    - apply bind_ok_inv in H as (h1 & st2 & H1 & H).
      apply bind_ok_inv in H as (h2 & st3 & H2 & H). injection H as <- <-.
      inversion Hu as [|? ? Hd Hrest]; subst.
      rewrite visible_ids_app.
      rewrite (flat_plot_dataset_visible _ _ _ _ _ _ _ H1 Hd Hp Hl).
      rewrite (flat_plot_datasets_hidden _ _ _ _ _ _ _ H2 Hrest Hp Hl).
      apply app_nil_r. }
  assert (Hall : visible_ids html = visible_ids images).
  { rewrite <- Hhtml. cbv zeta. rewrite !visible_ids_app.
    destruct (simple_output (config E)); simpl; apply app_nil_r. }
  rewrite Hall, Hv. split; [reflexivity |].
  destruct (Plot.datasets self) as [|d l]; [reflexivity |].
  unfold active_names.
  destruct (Plot.p_active self), (Plot.l_active self); reflexivity.
Qed.

(** ** Buttons *)

Lemma button_attrs_app c1 c2 : button_attrs (c1 ++ c2) = button_attrs c1 ++ button_attrs c2.
Proof. unfold button_attrs. apply flat_map_app. Qed.

Lemma dataset_buttons_app c1 c2 :
  dataset_buttons (c1 ++ c2) = dataset_buttons c1 ++ dataset_buttons c2.
Proof. unfold dataset_buttons. apply flat_map_app. Qed.

Lemma dataset_switch_attrs self : forall l k,
  Forall (names_plot self)
    (button_attrs
       (map (fun ids : nat * BaseDataset.t =>
               Plot._btn self "mr-auto" (BaseDataset.label (snd ids))
                 [("dataset-index", VInt (Z.of_nat (fst ids)));
                  ("dataset-uid", VStr (BaseDataset.uid (snd ids)))]
                 (fst ids =? 0))
            (Plot.enumerate k l))).
Proof.
  induction l as [|d l IH]; intros k; simpl.
  - constructor.
  - constructor; [reflexivity | apply IH].
Qed.

(** X18: every button that [buttons] builds carries the id of the plot as
    its one [pid] attribute, and there is an export button exactly when the
    plot is not flat. *)
Theorem buttons_name_plot (self : Plot.t) (flat : bool) :
  Forall (names_plot self) (button_attrs (fst (Plot.buttons self flat)))
  /\ Forall (names_plot self) (button_attrs (snd (Plot.buttons self flat)))
  /\ length (snd (Plot.buttons self flat)) = (if flat then 0 else 1).
Proof.
  unfold Plot.buttons. cbv zeta. cbn [fst snd]. split; [| split].
  - destruct (1 <? length (Plot.datasets self)).
    + rewrite !button_attrs_app. rewrite !Forall_app.
      split; [| split; [constructor | split; [apply dataset_switch_attrs | constructor]]].
      destruct (Plot.add_pct_tab self), (Plot.add_log_tab self); simpl;
        repeat constructor.
    + destruct (Plot.add_pct_tab self), (Plot.add_log_tab self); simpl;
        repeat constructor.
  - destruct flat; simpl; repeat constructor.
  - destruct flat; reflexivity.
Qed.

Lemma dataset_switch_buttons self : forall l k,
  dataset_buttons
    (map (fun ids : nat * BaseDataset.t =>
            Plot._btn self "mr-auto" (BaseDataset.label (snd ids))
              [("dataset-index", VInt (Z.of_nat (fst ids)));
               ("dataset-uid", VStr (BaseDataset.uid (snd ids)))]
              (fst ids =? 0))
         (Plot.enumerate k l))
  = imap (fun i ds =>
            (BaseDataset.label ds, VInt (Z.of_nat (k + i)),
             VStr (BaseDataset.uid ds), k + i =? 0)) l.
Proof.
  induction l as [|d l IH]; intros k; simpl.
  - reflexivity.
  - rewrite Nat.add_0_r. f_equal. rewrite IH. apply imap_ext.
    intros i x _. simpl. replace (k + S i) with (S (k + i)) by lia. reflexivity.
Qed.

(** X19: [buttons] builds a dataset switch exactly when the plot has more
    than one dataset: one button per dataset, in order, labelled with the
    label of the dataset and carrying its index and its uid, the first one
    pressed; with the percentage and the log switch that makes as many
    buttons as there are switches and switched datasets. *)
Theorem buttons_dataset_switch (self : Plot.t) (flat : bool) :
  dataset_buttons (fst (Plot.buttons self flat))
  = (if 1 <? length (Plot.datasets self)
     then imap (fun i ds =>
                  (BaseDataset.label ds, VInt (Z.of_nat i),
                   VStr (BaseDataset.uid ds), i =? 0))
               (Plot.datasets self)
     else [])
  /\ length (button_attrs (fst (Plot.buttons self flat)))
     = b2n (Plot.add_pct_tab self) + b2n (Plot.add_log_tab self)
       + (if 1 <? length (Plot.datasets self) then length (Plot.datasets self) else 0).
Proof.
  unfold Plot.buttons. cbv zeta. cbn [fst snd].
  assert (Hsw : forall cls,
    dataset_buttons
      (if Plot.add_pct_tab self || Plot.add_log_tab self
       then (if Plot.add_pct_tab self
             then [Plot._btn self (cls +:+ " percent-switch")
                     (dict_get (Plot.pconfig self) "cpswitch_percent_label"
                        (VStr "Percentages")) [] (Plot.p_active self)]
             else [])
            ++ (if Plot.add_log_tab self
                then [Plot._btn self (cls +:+ " log10-switch")
                        (dict_get (Plot.pconfig self) "logswitch_label" (VStr "Log10"))
                        [] (Plot.l_active self)]
                else [])
       else []) = []
    /\ length (button_attrs
      (if Plot.add_pct_tab self || Plot.add_log_tab self
       then (if Plot.add_pct_tab self
             then [Plot._btn self (cls +:+ " percent-switch")
                     (dict_get (Plot.pconfig self) "cpswitch_percent_label"
                        (VStr "Percentages")) [] (Plot.p_active self)]
             else [])
            ++ (if Plot.add_log_tab self
                then [Plot._btn self (cls +:+ " log10-switch")
                        (dict_get (Plot.pconfig self) "logswitch_label" (VStr "Log10"))
                        [] (Plot.l_active self)]
                else [])
       else []))
       = b2n (Plot.add_pct_tab self) + b2n (Plot.add_log_tab self)).
  { intros cls. destruct (Plot.add_pct_tab self), (Plot.add_log_tab self);
      split; reflexivity. }
  destruct (1 <? length (Plot.datasets self)).
  - rewrite !dataset_buttons_app, !button_attrs_app, !length_app.
    rewrite (proj1 (Hsw _)), (proj2 (Hsw _)).
    rewrite dataset_switch_buttons. simpl. rewrite app_nil_r. split; [reflexivity |].
    assert (Hlen : forall l k,
      length (button_attrs
        (map (fun ids : nat * BaseDataset.t =>
                Plot._btn self "mr-auto" (BaseDataset.label (snd ids))
                  [("dataset-index", VInt (Z.of_nat (fst ids)));
                   ("dataset-uid", VStr (BaseDataset.uid (snd ids)))]
                  (fst ids =? 0))
             (Plot.enumerate k l))) = length l).
    { induction l as [|d l IH]; intros k; simpl; [reflexivity | rewrite IH; reflexivity]. }
    rewrite Hlen. lia.
  - rewrite (proj1 (Hsw _)), (proj2 (Hsw _)). split; [reflexivity | lia].
Qed.

(** *** The files of a flat plot *)

Lemma page_files_app E h1 h2 : page_files E (h1 ++ h2) = page_files E h1 ++ page_files E h2.
Proof.
  unfold page_files. destruct (export_plots (import_config E)); [| reflexivity].
  rewrite image_ids_app. apply flat_map_app.
Qed.

Lemma get_figure_files E self i lg pc flat st res st' :
  Plot.get_figure E self i lg pc flat st = (res, st') -> files st' = files st.
Proof.
  intros H. apply get_figure_state in H as [-> | (l & ->)]; reflexivity.
Qed.

Lemma fig_to_static_html_files E fig active embed name st img st' :
  fig_to_static_html E fig active (export_plots (import_config E)) embed (Some name) st
  = (Ok img, st') ->
  name <> "" ->
  files st' = files st ++ page_files E [Image img].
Proof.
  intros H Hn. destruct (truthy (width (fig_layout fig))) eqn:Hw.
  - rewrite fig_to_static_html_run in H by exact Hw. injection H as <- <-.
    unfold page_files, image_ids. simpl. apply String.eqb_neq in Hn. rewrite Hn.
    destruct (export_plots (import_config E)); [rewrite app_nil_r |]; reflexivity.
  - unfold fig_to_static_html in H. rewrite Hw in H. discriminate.
Qed.

(** A view rendered and wrapped: the files of its image. *)
Lemma view_files E self i lg pc active embed name st img st' :
  (let* fig := Plot.get_figure E self i lg pc true in
   fig_to_static_html E fig active (export_plots (import_config E)) embed (Some name)) st
  = (Ok img, st') ->
  name <> "" ->
  files st' = files st ++ page_files E [Image img].
Proof.
  intros H Hn. apply bind_ok_inv in H as (fig & st1 & Hg & H).
  rewrite (fig_to_static_html_files _ _ _ _ _ _ _ _ H Hn).
  rewrite (get_figure_files _ _ _ _ _ _ _ _ _ Hg). reflexivity.
Qed.

(** A view rendered, wrapped and added to the page. *)
Lemma append_view E self i lg pc active embed name (html : list Html) st html' st' :
  (let* fig := Plot.get_figure E self i lg pc true in
   let* img :=
     fig_to_static_html E fig active (export_plots (import_config E)) embed (Some name) in
   ret (html ++ [Image img])) st
  = (Ok html', st') ->
  name <> "" ->
  exists img, html' = html ++ [Image img]
              /\ files st' = files st ++ page_files E [Image img].
Proof.
  intros H Hn. apply bind_ok_inv in H as (fig & st1 & Hg & H).
  apply bind_ok_inv in H as (img & st2 & Hs & H). injection H as <- <-.
  exists img. split; [reflexivity |].
  rewrite (fig_to_static_html_files _ _ _ _ _ _ _ _ Hs Hn).
  rewrite (get_figure_files _ _ _ _ _ _ _ _ _ Hg). reflexivity.
Qed.

Ltac this_view V Hu :=
  first
    [ apply append_view in V as (? & -> & ?);
      [| first [exact Hu | apply append_nonempty; discriminate]]
    | unfold ret in V; injection V as <- <- ].

Ltac next_view H Hu :=
  let h := fresh "h" in
  let s := fresh "s" in
  let V := fresh "V" in
  apply bind_ok_inv in H as (h & s & V & H); this_view V Hu.

Lemma flat_plot_dataset_files E self i ds st html st' :
  Plot.flat_plot_dataset E self i ds st = (Ok html, st') ->
  BaseDataset.uid ds <> "" ->
  files st' = files st ++ page_files E html.
Proof.
  intros H Hu. unfold Plot.flat_plot_dataset in H. cbv zeta in H.
  apply bind_ok_inv in H as (f1 & s1 & G1 & H).
  apply bind_ok_inv in H as (i1 & t1 & S1 & H).
  apply get_figure_files in G1.
  apply fig_to_static_html_files in S1;
    [| destruct (negb _ && negb _);
       first [exact Hu | apply append_nonempty; discriminate]].
  destruct (Plot.add_pct_tab self), (Plot.add_log_tab self); cbn [andb] in H;
    next_view H Hu; next_view H Hu; this_view H Hu;
    repeat match goal with Hf : files _ = _ |- _ => rewrite Hf; clear Hf end;
    unfold page_files, image_ids; destruct (export_plots (import_config E)); simpl;
    rewrite ?app_nil_r, <- ?app_assoc; reflexivity.
Qed.

Lemma flat_plot_datasets_files E self : forall l st html st',
  Plot.flat_plot_datasets E self l st = (Ok html, st') ->
  Forall (fun ids : nat * BaseDataset.t => BaseDataset.uid (snd ids) <> "") l ->
  files st' = files st ++ page_files E html.
Proof.
  induction l as [|[i d] l IH]; intros st html st' H Hu; simpl in H.
  - injection H as <- <-. unfold page_files.
    destruct (export_plots (import_config E)); simpl; rewrite app_nil_r; reflexivity.
  - apply bind_ok_inv in H as (h1 & st1 & H1 & H).
    apply bind_ok_inv in H as (h2 & st2 & H2 & H). injection H as <- <-.
    inversion Hu as [|? ? Hd Hrest]; subst.
    rewrite page_files_app, (IH _ _ _ H2 Hrest).
    rewrite (flat_plot_dataset_files _ _ _ _ _ _ _ H1 Hd).
    rewrite <- app_assoc. reflexivity.
Qed.

Lemma enumerate_snd {A} (P : A -> Prop) : forall (l : list A) k,
  Forall P l -> Forall (fun ids : nat * A => P (snd ids)) (Plot.enumerate k l).
Proof.
  induction l as [|x l IH]; intros k H; simpl; [constructor |].
  inversion H; subst. constructor; [assumption | apply IH; assumption].
Qed.

(** X17: [flat_plot] leaves [export_plots] to its default, the setting
    of the configuration as the module was imported.  When the export was
    on then, the files that [flat_plot] writes are, for each image of the
    page in order, one file per export format of the configuration, named
    after the id of the image; when it was off then, [flat_plot] writes no
    file, whatever the configuration says at the call. *)
Theorem flat_plot_exports (E : Env) (self : Plot.t) (st : State)
    (html : list Html) (st' : State) :
  Plot.flat_plot E self st = (Ok html, st') ->
  Forall (fun ds => BaseDataset.uid ds <> "") (Plot.datasets self) ->
  files st'
  = files st
    ++ (if export_plots (import_config E)
        then flat_map (exported_files E) (image_ids html)
        else []).
Proof.
  intros H Hu. unfold Plot.flat_plot in H.
  apply bind_ok_inv in H as (images & st1 & H & Hret). injection Hret as <- <-.
  apply flat_plot_datasets_files in H;
    [| apply (enumerate_snd (fun ds => BaseDataset.uid ds <> "")); exact Hu].
  rewrite H. f_equal. fold (page_files E images). cbv zeta.
  match goal with |- _ = (if _ then flat_map _ (image_ids ?h) else []) =>
    fold (page_files E h) end.
  rewrite !page_files_app.
  assert (Hnil : forall h, image_ids h = [] -> page_files E h = []).
  { intros h Hh. unfold page_files. rewrite Hh. destruct (export_plots _); reflexivity. }
  rewrite (Hnil [PlotGroupClose]) by reflexivity.
  rewrite app_nil_r.
  destruct (simple_output (config E)); cbn [negb];
    match goal with
    | |- _ = page_files E ?h ++ _ => rewrite (Hnil h) by reflexivity
    end; reflexivity.
Qed.

(** ** Construction: the plot id, the labels, the effects *)

Lemma quiet_at_refl r st : quiet_at r st st.
Proof. split; [apply frame_refl | auto]. Qed.

Lemma quiet_at_trans r st1 st2 st3 :
  quiet_at r st1 st2 -> quiet_at r st2 st3 -> quiet_at r st1 st3.
Proof.
  intros (F1 & A1 & B1 & C1) (F2 & A2 & B2 & C2).
  split; [eapply frame_trans; eassumption |]. repeat split; congruence.
Qed.

Lemma keeps_log_refl r axis st : keeps_log r axis st st.
Proof. intros H. exact H. Qed.

Lemma keeps_log_trans r axis st1 st2 st3 :
  keeps_log r axis st1 st2 -> keeps_log r axis st2 st3 -> keeps_log r axis st1 st3.
Proof. unfold keeps_log. auto. Qed.

Lemma qa_load r r' : preserves (quiet_at r) (load r').
Proof.
  intros st res st'. unfold load.
  destruct (heap st !! r'); intros [= <- <-]; apply quiet_at_refl.
Qed.

Lemma qa_store r l : preserves (quiet_at r) (store r l).
Proof.
  intros st res st' H. split; [eapply wo_store; exact H |].
  injection H as <- <-. auto.
Qed.

Lemma qa_logger r lv msg : preserves (quiet_at r) (logger lv msg).
Proof. intros st res st' [= <- <-]. split; [split; auto | auto]. Qed.

Lemma qa_validate_str r v : preserves (quiet_at r) (Plot.validate_str v).
Proof. destruct v; intros st res st' [= <- <-]; apply quiet_at_refl. Qed.

Lemma kl_load r axis r' : preserves (keeps_log r axis) (load r').
Proof.
  intros st res st'. unfold load.
  destruct (heap st !! r'); intros [= <- <-]; apply keeps_log_refl.
Qed.

Lemma kl_logger r axis lv msg : preserves (keeps_log r axis) (logger lv msg).
Proof. intros st res st' [= <- <-] H. exact H. Qed.

Lemma kl_validate_str r axis v : preserves (keeps_log r axis) (Plot.validate_str v).
Proof. destruct v; intros st res st' [= <- <-]; apply keeps_log_refl. Qed.

(** A store to another axis, or of a logarithmic axis, keeps the axis
    logarithmic. *)
Lemma kl_store_axis r axis name a :
  name <> axis \/ type a = Some "log" ->
  preserves (keeps_log r axis) (store_axis r name a).
Proof.
  intros Hor st res st' H (l & a0 & Hl & Ha0 & Ht).
  unfold store_axis, bind, load, lift in H. rewrite Hl in H.
  destruct (layout_set_axis l name a) as [l'|e] eqn:Hset.
  - injection H as <- <-. simpl.
    assert (Hr : r < length (heap st)) by (eapply lookup_lt_Some; exact Hl).
    destruct (decide (axis = name)) as [-> | Hne].
    + exists l', a. split; [apply list_lookup_insert_eq; exact Hr |].
      split; [eapply layout_axis_set; exact Hset |].
      destruct Hor as [Hor | Hor]; [congruence | exact Hor].
    + exists l', a0. split; [apply list_lookup_insert_eq; exact Hr |].
      split; [| exact Ht].
      rewrite (layout_axis_set_ne _ _ _ _ axis Hset Hne). exact Ha0.
  - injection H as <- <-. exists l, a0. auto.
Qed.

Ltac pres_auto Hrefl Htrans prims :=
  repeat first
    [ apply pres_ret; exact Hrefl
    | apply pres_raise; exact Hrefl
    | apply pres_lift; exact Hrefl
    | solve [prims]
    | apply pres_bind; [exact Htrans | | intros]
    | apply pres_for_each; [exact Hrefl | exact Htrans | intros]
    | match goal with
      | |- preserves _ (if ?b then _ else _) => destruct b
      | |- preserves _ (let (_, _) := ?p in _) => destruct p
      | |- preserves _ (match ?x with _ => _ end) => destruct x
      end ].

Ltac qa_prims r :=
  first [ apply qa_load | apply qa_store | apply qa_logger | apply qa_validate_str ].

Ltac qa_auto r := pres_auto (quiet_at_refl r) (quiet_at_trans r) ltac:(qa_prims r).

Lemma qa_load_axis r name : preserves (quiet_at r) (load_axis r name).
Proof. unfold load_axis. qa_auto r. Qed.

Lemma qa_store_axis r name a : preserves (quiet_at r) (store_axis r name a).
Proof. unfold store_axis. qa_auto r. Qed.

Lemma qa_set_axis_log_scale E r axis :
  preserves (quiet_at r) (_set_axis_log_scale E r axis).
Proof.
  unfold _set_axis_log_scale.
  pres_auto (quiet_at_refl r) (quiet_at_trans r)
    ltac:(first [apply qa_load_axis | apply qa_store_axis]).
Qed.

Lemma qa_initialize_dataset r pconfig n id tt idx :
  preserves (quiet_at r) (Plot.initialize_dataset pconfig n id tt idx).
Proof. unfold Plot.initialize_dataset. cbv zeta. qa_auto r. Qed.

Lemma qa_initialize_datasets r n id tt : forall idxs pconfig,
  preserves (quiet_at r) (Plot.initialize_datasets pconfig n id tt idxs).
Proof.
  induction idxs as [|idx idxs IH]; intros pconfig; cbn [Plot.initialize_datasets].
  - apply pres_ret. exact (quiet_at_refl r).
  - apply pres_bind; [exact (quiet_at_trans r) | apply qa_initialize_dataset |].
    intros [ds pc]. apply pres_bind; [exact (quiet_at_trans r) | apply IH |].
    intros [dss pc']. apply pres_ret. exact (quiet_at_refl r).
Qed.

Lemma initialize_dataset_plot_id pconfig n pid tt idx st ds pconfig' st' :
  Plot.initialize_dataset pconfig n (VStr pid) tt idx st = (Ok (ds, pconfig'), st') ->
  BaseDataset.plot_id ds = pid.
Proof.
  unfold Plot.initialize_dataset. intros H. cbv zeta in H.
  apply bind_ok_inv in H as (p1 & s1 & H1 & H). injection H1 as <- <-.
  apply bind_ok_inv in H as (p2 & s2 & H2 & H).
  apply bind_ok_inv in H as (len & s3 & _ & H).
  apply bind_ok_inv in H as (dconfig & s4 & _ & H).
  apply bind_ok_inv in H as ([] & s5 & _ & H).
  apply bind_ok_inv in H as ([layout trace_params] & s6 & _ & H).
  injection H as <- _ _. reflexivity.
Qed.

Lemma initialize_datasets_plot_id n pid tt : forall idxs pconfig st dss pconfig' st',
  Plot.initialize_datasets pconfig n (VStr pid) tt idxs st = (Ok (dss, pconfig'), st') ->
  Forall (fun ds => BaseDataset.plot_id ds = pid) dss.
Proof.
  induction idxs as [|idx idxs IH]; intros pconfig st dss pconfig' st' H.
  - injection H as <- _ _. constructor.
  - cbn [Plot.initialize_datasets] in H.
    apply bind_ok_inv in H as ([ds pc1] & s1 & H1 & H).
    apply bind_ok_inv in H as ([dss1 pc2] & s2 & H2 & H).
    injection H as <- _ _. constructor.
    + eapply initialize_dataset_plot_id; eauto.
    + eapply IH; eauto.
Qed.

Lemma qa_log_step E r (on : bool) axis (acs : list string) :
  preserves (quiet_at r)
    (if on then
       _set_axis_log_scale E r axis ;;
       ret (if Plot.list_has axis acs then Plot.list_remove axis acs else acs)
     else ret acs).
Proof.
  pres_auto (quiet_at_refl r) (quiet_at_trans r) ltac:(apply qa_set_axis_log_scale).
Qed.

Lemma qa_set_types r (on : bool) (acs : list string) :
  preserves (quiet_at r)
    (if on then
       for_each acs (fun axis =>
         let* a := load_axis r axis in store_axis r axis (set_type "log" a))
     else ret tt).
Proof.
  pres_auto (quiet_at_refl r) (quiet_at_trans r)
    ltac:(first [apply qa_load_axis | apply qa_store_axis]).
Qed.

(** The steps of a construction that returns: the id, kept or drawn; the
    lint check of the title; the layout, a new object; and the rest, which
    writes to that object and to the log only. *)
Lemma initialize_trace E pt pconfig n id acs tt st plot st' :
  Plot.initialize E pt pconfig n id acs tt st = (Ok plot, st') ->
  exists s1 s2 base,
    (if is_none (given_id pconfig id)
     then let* uniq_suffix := draw (random_sample E) in
          ret (VStr ("mqc_plot_" +:+ uniq_suffix))
     else ret (given_id pconfig id)) st
    = (Ok (VStr (Plot.id plot)), s1)
    /\ (if negb (truthy (dict_get pconfig "table_title" (dict_get_none pconfig "title")))
           && strict (config E)
        then logger ERROR (LintTitleMissing (VStr (Plot.id plot))) ;;
             lint_append (LintTitleMissing (VStr (Plot.id plot)))
        else ret ()) s1
       = (Ok (), s2)
    /\ Plot.layout plot = length (heap s2)
    /\ quiet_at (length (heap s2)) (set_heap (heap s2 ++ [base]) s2) st'.
Proof.
  unfold Plot.initialize. intros H.
  destruct (n =? 0)%Z eqn:En; [discriminate |].
  cbv zeta in H. fold (given_id pconfig id) in H.
  apply bind_ok_inv in H as (idv & s1 & H1 & H).
  apply bind_ok_inv in H as ([] & s2 & H2 & H).
  apply bind_ok_inv in H as (layout & s3 & H3 & H).
  apply bind_ok_inv in H as (acs1 & s4 & H4 & H).
  apply bind_ok_inv in H as (acs2 & s5 & H5 & H).
  apply bind_ok_inv in H as ([] & s6 & H6 & H).
  apply bind_ok_inv in H as ([datasets pconfig'] & s7 & Hds & H).
  apply bind_ok_inv in H as (pid & s8 & Hid & H).
  apply validate_str_inv in Hid as [-> ->].
  apply bind_ok_inv in H as (lt & s9 & Hv1 & H). apply validate_bool_state in Hv1 as ->.
  apply bind_ok_inv in H as (la & s10 & Hv2 & H). apply validate_bool_state in Hv2 as ->.
  apply bind_ok_inv in H as (sq & s11 & Hv3 & H). apply validate_bool_state in Hv3 as ->.
  injection H as <- <-. cbn [Plot.id Plot.layout].
  apply new_layout_inv in H3 as (text & _ & -> & ->).
  pose proof (qa_log_step _ _ _ _ _ _ _ _ H4) as Q4.
  pose proof (qa_log_step _ _ _ _ _ _ _ _ H5) as Q5.
  pose proof (qa_set_types _ _ _ _ _ _ H6) as Q6.
  pose proof (qa_initialize_datasets (length (heap s2)) _ _ _ _ _ _ _ _ Hds) as Q7.
  eexists s1, s2, _. split; [exact H1 |]. split; [exact H2 |].
  split; [reflexivity |].
  exact (quiet_at_trans _ _ _ _ Q4 (quiet_at_trans _ _ _ _ Q5
           (quiet_at_trans _ _ _ _ Q6 Q7))).
Qed.

(** X20: the id of a plot built by [initialize] is the id given as
    argument, or else the [id] of the configuration; when neither is given
    it is [mqc_plot_] followed by a random suffix, the only case in which a
    random number is drawn.  Every dataset of the plot carries that id as
    its plot id. *)
Theorem initialize_plot_id (E : Env) (pt : PlotType)
    (pconfig : gmap string value) (n : Z) (id : option string)
    (acs : option (list string)) (tt : option string) (st : State)
    (plot : Plot.t) (st' : State) :
  Plot.initialize E pt pconfig n id acs tt st = (Ok plot, st') ->
  (if is_none (given_id pconfig id)
   then Plot.id plot = "mqc_plot_" +:+ random_sample E (draws st)
        /\ draws st' = S (draws st)
   else given_id pconfig id = VStr (Plot.id plot) /\ draws st' = draws st)
  /\ Forall (fun ds => BaseDataset.plot_id ds = Plot.id plot) (Plot.datasets plot).
Proof.
  intros H. split.
  - destruct (initialize_trace _ _ _ _ _ _ _ _ _ _ H)
      as (s1 & s2 & base & H1 & H2 & _ & (_ & _ & _ & Hd)).
    simpl in Hd. rewrite Hd.
    assert (Hd2 : draws s2 = draws s1).
    { destruct (negb _ && strict (config E)); injection H2 as <-; reflexivity. }
    rewrite Hd2.
    destruct (is_none (given_id pconfig id)).
    + injection H1 as <- <-. split; reflexivity.
    + injection H1 as -> <-. split; reflexivity.
  - apply initialize_inv in H as (_ & _ & _ & _ & _ & pc' & sa & sb & Hds).
    eapply initialize_datasets_plot_id. exact Hds.
Qed.

(** X21: a successful [initialize] adds one object to the store, the
    layout of the new plot, and leaves the others as they were; it writes
    no file; it records a lint error, for a missing title, in strict mode
    only. *)
Theorem initialize_effects (E : Env) (pt : PlotType)
    (pconfig : gmap string value) (n : Z) (id : option string)
    (acs : option (list string)) (tt : option string) (st : State)
    (plot : Plot.t) (st' : State) :
  Plot.initialize E pt pconfig n id acs tt st = (Ok plot, st') ->
  Plot.layout plot = length (heap st)
  /\ length (heap st') = S (length (heap st))
  /\ (forall l, l < length (heap st) -> heap st' !! l = heap st !! l)
  /\ files st' = files st
  /\ lint_errors st'
     = lint_errors st
       ++ (if negb (truthy (dict_get pconfig "table_title" (dict_get_none pconfig "title")))
              && strict (config E)
           then [LintTitleMissing (VStr (Plot.id plot))] else []).
Proof.
  intros H.
  destruct (initialize_trace _ _ _ _ _ _ _ _ _ _ H)
    as (s1 & s2 & base & H1 & H2 & Hlay & ((Hlen & Hfr) & Hf & Hl & _)).
  simpl in Hlen, Hfr, Hf, Hl.
  assert (E1 : heap s1 = heap st /\ files s1 = files st
               /\ lint_errors s1 = lint_errors st).
  { destruct (is_none (given_id pconfig id)); injection H1 as _ <-;
      repeat split; reflexivity. }
  destruct E1 as (Eh1 & Ef1 & El1).
  assert (E2 : heap s2 = heap s1 /\ files s2 = files s1
               /\ lint_errors s2
                  = lint_errors s1
                    ++ (if negb (truthy (dict_get pconfig "table_title"
                                           (dict_get_none pconfig "title")))
                           && strict (config E)
                        then [LintTitleMissing (VStr (Plot.id plot))] else [])).
  { destruct (negb _ && strict (config E)); injection H2 as <-;
      repeat split; try reflexivity. symmetry. apply app_nil_r. }
  destruct E2 as (Eh2 & Ef2 & El2).
  rewrite Hlay, Hlen, length_app, Hf, Ef2, Ef1, Hl, El2, El1, Eh2, Eh1.
  split; [reflexivity |]. split; [simpl; lia |].
  split; [| split; reflexivity].
  intros l Hlt. rewrite Hfr by (rewrite Eh2, Eh1; lia).
  rewrite Eh2, Eh1. apply lookup_app_l. exact Hlt.
Qed.

(** *** Labels *)

Lemma py_or_list l : py_or (VList l) (VList []) = VList l.
Proof. destruct l; reflexivity. Qed.

Lemma list_index_lt {A} (l : list A) (i : nat) :
  i < length l -> exists v, l !! i = Some v /\ list_index l (Z.of_nat i) = Ok v.
Proof.
  intros Hi. destruct (lookup_lt_is_Some_2 l i Hi) as [v Hv].
  exists v. split; [exact Hv | apply list_index_nat; exact Hv].
Qed.

(** One round of the loop over the datasets, for a configuration whose
    [data_labels] is a list: the label is that of the entry, and the
    other entries stay as they are. *)
Lemma initialize_dataset_label pconfig n pid tt idx st ds pconfig' st' l :
  Plot.initialize_dataset pconfig n (VStr pid) tt idx st = (Ok (ds, pconfig'), st') ->
  pconfig !! "data_labels" = Some (VList l) ->
  BaseDataset.label ds = label_of l idx
  /\ exists l', pconfig' !! "data_labels" = Some (VList l')
       /\ forall j, j <> idx -> l' !! j = l !! j.
Proof.
  unfold Plot.initialize_dataset. intros H Hl. cbv zeta in H.
  assert (Hdc : py_or (dict_get_none pconfig "data_labels") (VList []) = VList l).
  { unfold dict_get_none, dict_get. rewrite Hl. apply py_or_list. }
  rewrite Hdc in H. clear Hdc.
  apply bind_ok_inv in H as (p1 & s1 & H1 & H).
  apply bind_ok_inv in H as (p2 & s2 & H2 & H).
  apply bind_ok_inv in H as (len & s3 & Hlen & H). injection Hlen as <- <-.
  apply bind_ok_inv in H as (dconfig & s4 & Hd & H).
  apply bind_ok_inv in H as ([] & s5 & _ & H).
  apply bind_ok_inv in H as ([layout trace_params] & s6 & _ & H).
  injection H as <- <- _. cbn [BaseDataset.label].
  unfold label_of, Plot.write_back. rewrite Hl.
  destruct (idx <? length l) eqn:Hlt;
    [apply Nat.ltb_lt in Hlt | apply Nat.ltb_ge in Hlt].
  - destruct (list_index_lt l idx Hlt) as (v & Hv & Hi).
    unfold lift, Plot.py_item in Hd. rewrite Hi in Hd. injection Hd as <- _.
    rewrite Hv. split.
    + destruct v; try reflexivity.
    + destruct v; try (exists l; split; [exact Hl | reflexivity]).
      eexists. split; [apply lookup_insert_eq |].
      intros j Hj. apply list_lookup_insert_ne. congruence.
  - injection Hd as <- _. rewrite (lookup_ge_None_2 l idx Hlt).
    split; [reflexivity |]. exists l. split; [exact Hl | reflexivity].
Qed.

Lemma initialize_dataset_unlabelled pconfig n pid tt idx st ds pconfig' st' :
  Plot.initialize_dataset pconfig n (VStr pid) tt idx st = (Ok (ds, pconfig'), st') ->
  pconfig !! "data_labels" = None ->
  BaseDataset.label ds = VStr (pretty (idx + 1))
  /\ pconfig' !! "data_labels" = None.
Proof.
  unfold Plot.initialize_dataset. intros H Hl. cbv zeta in H.
  assert (Hdc : py_or (dict_get_none pconfig "data_labels") (VList []) = VList []).
  { unfold dict_get_none, dict_get. rewrite Hl. reflexivity. }
  rewrite Hdc in H. clear Hdc.
  apply bind_ok_inv in H as (p1 & s1 & H1 & H).
  apply bind_ok_inv in H as (p2 & s2 & H2 & H).
  apply bind_ok_inv in H as (len & s3 & Hlen & H). injection Hlen as <- <-.
  apply bind_ok_inv in H as (dconfig & s4 & Hd & H).
  apply bind_ok_inv in H as ([] & s5 & _ & H).
  apply bind_ok_inv in H as ([layout trace_params] & s6 & _ & H).
  injection H as <- <- _. cbn [BaseDataset.label].
  unfold Plot.write_back. rewrite Hl.
  change (idx <? length []) with false in Hd.
  injection Hd as <- _. split; [reflexivity | exact Hl].
Qed.

Lemma initialize_datasets_labels n pid tt entries : forall m k pconfig st dss pconfig' st' l,
  Plot.initialize_datasets pconfig n (VStr pid) tt (seq k m) st
  = (Ok (dss, pconfig'), st') ->
  pconfig !! "data_labels" = Some (VList l) ->
  (forall j, k <= j -> l !! j = entries !! j) ->
  forall i ds, dss !! i = Some ds -> BaseDataset.label ds = label_of entries (k + i).
Proof.
  induction m as [|m IH]; intros k pconfig st dss pconfig' st' l H Hl Hsame i ds Hi.
  - injection H as <- _ _. discriminate.
  - cbn [seq Plot.initialize_datasets] in H.
    apply bind_ok_inv in H as ([d pc1] & s1 & H1 & H).
    apply bind_ok_inv in H as ([dss1 pc2] & s2 & H2 & H).
    injection H as <- _ _.
    destruct (initialize_dataset_label _ _ _ _ _ _ _ _ _ _ H1 Hl)
      as (Hlab & l' & Hl' & Hother).
    destruct i as [|i]; simpl in Hi.
    + injection Hi as <-. rewrite Nat.add_0_r, Hlab.
      unfold label_of. rewrite Hsame by lia. reflexivity.
    + replace (k + S i) with (S k + i) by lia.
      eapply (IH (S k)); [exact H2 | exact Hl' | | exact Hi].
      intros j Hj. rewrite Hother by lia. apply Hsame. lia.
Qed.

Lemma initialize_datasets_unlabelled n pid tt : forall m k pconfig st dss pconfig' st',
  Plot.initialize_datasets pconfig n (VStr pid) tt (seq k m) st
  = (Ok (dss, pconfig'), st') ->
  pconfig !! "data_labels" = None ->
  forall i ds, dss !! i = Some ds -> BaseDataset.label ds = VStr (pretty (k + i + 1)).
Proof.
  induction m as [|m IH]; intros k pconfig st dss pconfig' st' H Hl i ds Hi.
  - injection H as <- _ _. discriminate.
  - cbn [seq Plot.initialize_datasets] in H.
    apply bind_ok_inv in H as ([d pc1] & s1 & H1 & H).
    apply bind_ok_inv in H as ([dss1 pc2] & s2 & H2 & H).
    injection H as <- _ _.
    destruct (initialize_dataset_unlabelled _ _ _ _ _ _ _ _ _ H1 Hl) as (Hlab & Hl').
    destruct i as [|i]; simpl in Hi.
    + injection Hi as <-. rewrite Nat.add_0_r. exact Hlab.
    + replace (k + S i) with (S k + i) by lia.
      eapply (IH (S k)); [exact H2 | exact Hl' | exact Hi].
Qed.

(** X22: the dataset of index [i] of a plot built by [initialize] is
    labelled by the entry [i] of [data_labels]: by the entry itself when it
    is no dictionary, by the [name] or else the [label] of a dictionary,
    and by [i + 1] where the list has no entry or no name; the keys that
    the loop adds to the entries do not change the labels of the later
    datasets. *)
Theorem initialize_labels (E : Env) (pt : PlotType)
    (pconfig : gmap string value) (n : Z) (id : option string)
    (acs : option (list string)) (tt : option string) (st : State)
    (plot : Plot.t) (st' : State) :
  Plot.initialize E pt pconfig n id acs tt st = (Ok plot, st') ->
  (forall entries, pconfig !! "data_labels" = Some (VList entries) ->
     forall i ds, Plot.datasets plot !! i = Some ds ->
       BaseDataset.label ds = label_of entries i)
  /\ (pconfig !! "data_labels" = None ->
      forall i ds, Plot.datasets plot !! i = Some ds ->
        BaseDataset.label ds = VStr (pretty (i + 1))).
Proof.
  intros H. apply initialize_inv in H as (_ & _ & _ & _ & _ & pc' & sa & sb & Hds).
  split.
  - intros entries Hl i ds Hi.
    apply (initialize_datasets_labels _ _ _ entries _ _ _ _ _ _ _ entries Hds Hl
             ltac:(reflexivity) i ds Hi).
  - intros Hl i ds Hi.
    apply (initialize_datasets_unlabelled _ _ _ _ _ _ _ _ _ _ Hds Hl i ds Hi).
Qed.

(** *** An axis that is logarithmic from the start *)

Lemma load_axis_inv r name st a st' :
  load_axis r name st = (Ok a, st') ->
  st' = st /\ exists l, heap st !! r = Some l /\ layout_axis l name = Ok a.
Proof.
  unfold load_axis, bind, load, lift.
  destruct (heap st !! r) as [l|]; [| discriminate].
  intros [= Ha <-]. eauto.
Qed.

(** After a store of a logarithmic axis, the axis is logarithmic. *)
Lemma store_axis_log r name a st st' :
  store_axis r name a st = (Ok tt, st') -> type a = Some "log" -> log_at r name st'.
Proof.
  unfold store_axis, bind, load, lift.
  destruct (heap st !! r) as [l|] eqn:Hl; [| discriminate].
  destruct (layout_set_axis l name a) as [l'|] eqn:Hset; [| discriminate].
  intros [= <-] Ht. exists l', a. simpl.
  split; [apply list_lookup_insert_eq; eapply lookup_lt_Some; exact Hl |].
  split; [eapply layout_axis_set; exact Hset | exact Ht].
Qed.

Lemma load_axis_log r name st a st' :
  load_axis r name st = (Ok a, st') -> log_at r name st ->
  st' = st /\ type a = Some "log".
Proof.
  intros H (l & a0 & Hl & Ha0 & Ht).
  apply load_axis_inv in H as (-> & l' & Hl' & Ha).
  split; [reflexivity | congruence].
Qed.

Lemma set_axis_log_scale_log E r axis st st' :
  _set_axis_log_scale E r axis st = (Ok tt, st') -> log_at r axis st'.
Proof.
  unfold _set_axis_log_scale. intros H.
  apply bind_ok_inv in H as (a0 & s1 & _ & H).
  apply bind_ok_inv in H as ([] & s2 & H2 & H).
  apply store_axis_log in H2; [| reflexivity].
  apply bind_ok_inv in H as (a1 & s3 & H3 & H).
  apply (load_axis_log _ _ _ _ _) in H3 as [-> Ht1]; [| exact H2].
  apply bind_ok_inv in H as (mn & s4 & H4 & H).
  apply bind_ok_inv in H as (mx & s5 & H5 & H).
  unfold lift in H4, H5.
  injection H4 as _ <-. injection H5 as _ <-.
  apply bind_ok_inv in H as (a2 & s6 & H6 & H).
  apply (load_axis_log _ _ _ _ _) in H6 as [-> Ht2]; [| exact H2].
  apply bind_ok_inv in H as ([] & s7 & H7 & H).
  apply store_axis_log in H7; [| exact Ht2].
  apply bind_ok_inv in H as (a3 & s8 & H8 & H).
  apply (load_axis_log _ _ _ _ _) in H8 as [-> Ht3]; [| exact H7].
  eapply store_axis_log; [exact H | exact Ht3].
Qed.

Ltac kl_auto r axis prims :=
  pres_auto (keeps_log_refl r axis) (keeps_log_trans r axis) prims.

Lemma kl_load_axis r axis name : preserves (keeps_log r axis) (load_axis r name).
Proof. unfold load_axis. kl_auto r axis ltac:(apply kl_load). Qed.

Lemma kl_set_axis_log_scale E r axis other :
  other <> axis -> preserves (keeps_log r axis) (_set_axis_log_scale E r other).
Proof.
  intros Hne. unfold _set_axis_log_scale.
  kl_auto r axis ltac:(first [apply kl_load_axis | apply kl_store_axis; left; exact Hne]).
Qed.

Lemma kl_set_types r axis (on : bool) (acs : list string) :
  preserves (keeps_log r axis)
    (if on then
       for_each acs (fun axis =>
         let* a := load_axis r axis in store_axis r axis (set_type "log" a))
     else ret tt).
Proof.
  kl_auto r axis
    ltac:(first [apply kl_load_axis | apply kl_store_axis; right; reflexivity]).
Qed.

Lemma kl_initialize_dataset r axis pconfig n id tt idx :
  preserves (keeps_log r axis) (Plot.initialize_dataset pconfig n id tt idx).
Proof.
  unfold Plot.initialize_dataset. cbv zeta.
  kl_auto r axis ltac:(first [apply kl_logger | apply kl_validate_str]).
Qed.

Lemma kl_initialize_datasets r axis n id tt : forall idxs pconfig,
  preserves (keeps_log r axis) (Plot.initialize_datasets pconfig n id tt idxs).
Proof.
  induction idxs as [|idx idxs IH]; intros pconfig; cbn [Plot.initialize_datasets].
  - apply pres_ret. exact (keeps_log_refl r axis).
  - apply pres_bind; [exact (keeps_log_trans r axis) | apply kl_initialize_dataset |].
    intros [ds pc]. apply pres_bind; [exact (keeps_log_trans r axis) | apply IH |].
    intros [dss pc']. apply pres_ret. exact (keeps_log_refl r axis).
Qed.

(** [l.remove(x)] on a list without repetitions. *)
Lemma list_remove_subset x y : forall l, y ∈ Plot.list_remove x l -> y ∈ l.
Proof.
  induction l as [|z l IH]; simpl; [auto |].
  destruct (String.eqb x z).
  - intros H. apply elem_of_cons. right. exact H.
  - intros H. apply elem_of_cons in H as [-> | H].
    + apply elem_of_cons. left. reflexivity.
    + apply elem_of_cons. right. apply IH. exact H.
Qed.

Lemma list_remove_NoDup x : forall l, NoDup l -> NoDup (Plot.list_remove x l).
Proof.
  induction l as [|z l IH]; simpl; intros H; [exact H |].
  apply NoDup_cons in H as [Hz H].
  destruct (String.eqb x z); [exact H |].
  apply NoDup_cons. split; [| apply IH; exact H].
  intros Hin. apply Hz. eapply list_remove_subset. exact Hin.
Qed.

Lemma list_remove_notin x : forall l, NoDup l -> x ∉ Plot.list_remove x l.
Proof.
  induction l as [|z l IH]; simpl; intros H.
  - apply not_elem_of_nil.
  - apply NoDup_cons in H as [Hz H].
    destruct (String.eqb_spec x z) as [-> | Hne]; [exact Hz |].
    intros Hin. apply elem_of_cons in Hin as [-> | Hin]; [congruence |].
    apply (IH H). exact Hin.
Qed.

Lemma list_has_false x l : Plot.list_has x l = false -> x ∉ l.
Proof.
  unfold Plot.list_has. intros H Hin.
  assert (Ht : existsb (String.eqb x) l = true).
  { apply existsb_exists. exists x. split; [| apply String.eqb_refl].
    apply list_elem_of_In. exact Hin. }
  congruence.
Qed.

(** [if x in l: l.remove(x)] *)
Lemma removed_notin x l :
  NoDup l -> x ∉ (if Plot.list_has x l then Plot.list_remove x l else l).
Proof.
  intros H. destruct (Plot.list_has x l) eqn:Hh.
  - apply list_remove_notin. exact H.
  - apply list_has_false. exact Hh.
Qed.

Lemma removed_subset x y l :
  y ∈ (if Plot.list_has x l then Plot.list_remove x l else l) -> y ∈ l.
Proof. destruct (Plot.list_has x l); [apply list_remove_subset | auto]. Qed.

Lemma removed_NoDup x l :
  NoDup l -> NoDup (if Plot.list_has x l then Plot.list_remove x l else l).
Proof. destruct (Plot.list_has x l); [apply list_remove_NoDup | auto]. Qed.

(** An axis outside the switches that is logarithmic in the layout of the
    plot is logarithmic in every figure. *)
Lemma get_figure_log_axis E self axis st i lg pc flat fig st2 :
  log_at (Plot.layout self) axis st ->
  axis ∉ Plot.axis_controlled_by_switches self ->
  Plot.get_figure E self i lg pc flat st = (Ok fig, st2) ->
  exists a, layout_axis (fig_layout fig) axis = Ok a /\ type a = Some "log".
Proof.
  intros (base & a & Hb & Ha & Ht) Hnin H.
  apply get_figure_inv in H as (ds & base' & l' & _ & Hb' & Hr & -> & _).
  rewrite Hb in Hb'. injection Hb' as <-. simpl.
  rewrite (resolved_layout_notin _ _ _ _ _ _ _ _ _ Hnin Hr), layout_axis_merged.
  destruct (layout_axis_ok _ _ _ Ha) as [-> | ->]; simpl in Ha; injection Ha as <-;
    eexists; (split; [reflexivity | exact Ht]).
Qed.

(** X23: an axis that the configuration makes logarithmic ([xlog],
    [ylog]) is taken off the axes under the switches, given as a list
    without repetition, and is logarithmic in every figure that
    [get_figure] returns for the plot, whatever the view. *)
Theorem static_log_axis (E : Env) (pt : PlotType)
    (pconfig : gmap string value) (n : Z) (id : option string)
    (acs : option (list string)) (tt : option string) (st : State)
    (plot : Plot.t) (st' : State) :
  Plot.initialize E pt pconfig n id acs tt st = (Ok plot, st') ->
  NoDup (default [] acs) ->
  (truthy (dict_get pconfig "xlog" (dict_get_none pconfig "xLog")) = true ->
   ("xaxis" ∉ Plot.axis_controlled_by_switches plot)
   /\ forall i is_log is_pct flat fig st2,
        Plot.get_figure E plot i is_log is_pct flat st' = (Ok fig, st2) ->
        type (xaxis (fig_layout fig)) = Some "log")
  /\ (truthy (dict_get pconfig "ylog" (dict_get_none pconfig "yLog")) = true ->
      ("yaxis" ∉ Plot.axis_controlled_by_switches plot)
      /\ forall i is_log is_pct flat fig st2,
           Plot.get_figure E plot i is_log is_pct flat st' = (Ok fig, st2) ->
           type (yaxis (fig_layout fig)) = Some "log").
Proof.
  unfold Plot.initialize. intros H Hnd.
  destruct (n =? 0)%Z eqn:En; [discriminate |].
  cbv zeta in H.
  apply bind_ok_inv in H as (idv & s1 & H1 & H).
  apply bind_ok_inv in H as ([] & s2 & H2 & H).
  apply bind_ok_inv in H as (layout & s3 & H3 & H).
  apply bind_ok_inv in H as (acs1 & s4 & H4 & H).
  apply bind_ok_inv in H as (acs2 & s5 & H5 & H).
  apply bind_ok_inv in H as ([] & s6 & H6 & H).
  apply bind_ok_inv in H as ([datasets pconfig'] & s7 & Hds & H).
  apply bind_ok_inv in H as (pid & s8 & Hid & H).
  apply validate_str_inv in Hid as [-> ->].
  apply bind_ok_inv in H as (lt & s9 & Hv1 & H). apply validate_bool_state in Hv1 as ->.
  apply bind_ok_inv in H as (la & s10 & Hv2 & H). apply validate_bool_state in Hv2 as ->.
  apply bind_ok_inv in H as (sq & s11 & Hv3 & H). apply validate_bool_state in Hv3 as ->.
  apply new_layout_inv in H3 as (text & _ & -> & ->).
  set (r := length (heap s2)) in *.
  replace (match acs with Some l => l | None => [] end) with (default [] acs) in *
    by (destruct acs; reflexivity).
  assert (Hplot : Plot.layout plot = r /\ Plot.axis_controlled_by_switches plot = acs2
                  /\ st' = s7).
  { injection H as <- <-. repeat split; reflexivity. }
  destruct Hplot as (Hlay & Hacs & ->). rewrite Hacs. clear H.
  assert (Hfig : forall axis, log_at r axis s7 -> axis ∉ acs2 ->
            forall i is_log is_pct flat fig st2,
              Plot.get_figure E plot i is_log is_pct flat s7 = (Ok fig, st2) ->
              exists a, layout_axis (fig_layout fig) axis = Ok a /\ type a = Some "log").
  { intros axis Hlog Hnin i lg pc flat fig st2 Hg.
    eapply get_figure_log_axis; [| | exact Hg].
    - rewrite Hlay. exact Hlog.
    - rewrite Hacs. exact Hnin. }
  pose proof (kl_set_types r "xaxis" _ _ _ _ _ H6) as K6x.
  pose proof (kl_set_types r "yaxis" _ _ _ _ _ H6) as K6y.
  pose proof (kl_initialize_datasets r "xaxis" _ _ _ _ _ _ _ _ Hds) as K7x.
  pose proof (kl_initialize_datasets r "yaxis" _ _ _ _ _ _ _ _ Hds) as K7y.
  split.
  - intros Hx. rewrite Hx in H4.
    apply bind_ok_inv in H4 as ([] & s3' & H4 & Hret). injection Hret as <- <-.
    apply set_axis_log_scale_log in H4.
    assert (Hnin : "xaxis" ∉ acs2).
    { destruct (truthy (dict_get pconfig "ylog" (dict_get_none pconfig "yLog"))).
      - apply bind_ok_inv in H5 as ([] & s4' & _ & Hret). injection Hret as <- _.
        intros Hin. apply removed_subset in Hin. revert Hin.
        apply removed_notin. exact Hnd.
      - injection H5 as <- _. apply removed_notin. exact Hnd. }
    assert (Hlog : log_at r "xaxis" s7).
    { apply K7x, K6x.
      destruct (truthy (dict_get pconfig "ylog" (dict_get_none pconfig "yLog"))).
      - apply bind_ok_inv in H5 as ([] & s4' & H5 & Hret). injection Hret as _ <-.
        eapply (kl_set_axis_log_scale E r "xaxis" "yaxis"); [discriminate | exact H5 |].
        exact H4.
      - injection H5 as _ <-. exact H4. }
    split; [exact Hnin |].
    intros i lg pc flat fig st2 Hg.
    destruct (Hfig "xaxis" Hlog Hnin i lg pc flat fig st2 Hg) as (a & Ha & Ht).
    injection Ha as <-. exact Ht.
  - intros Hy. rewrite Hy in H5.
    apply bind_ok_inv in H5 as ([] & s4' & H5 & Hret). injection Hret as <- <-.
    apply set_axis_log_scale_log in H5.
    assert (Hnd1 : NoDup acs1).
    { destruct (truthy (dict_get pconfig "xlog" (dict_get_none pconfig "xLog"))).
      - apply bind_ok_inv in H4 as ([] & s3' & _ & Hret). injection Hret as <- _.
        apply removed_NoDup. exact Hnd.
      - injection H4 as <- _. exact Hnd. }
    assert (Hnin : "yaxis" ∉
              (if Plot.list_has "yaxis" acs1 then Plot.list_remove "yaxis" acs1 else acs1))
      by (apply removed_notin; exact Hnd1).
    assert (Hlog : log_at r "yaxis" s7) by (apply K7y, K6y; exact H5).
    split; [exact Hnin |].
    intros i lg pc flat fig st2 Hg.
    destruct (Hfig "yaxis" Hlog Hnin i lg pc flat fig st2 Hg) as (a & Ha & Ht).
    injection Ha as <-. exact Ht.
Qed.

(** *** The size of a figure *)

Lemma keeps_size_refl r h w st : keeps_size r h w st st.
Proof. intros H. exact H. Qed.

Lemma keeps_size_trans r h w st1 st2 st3 :
  keeps_size r h w st1 st2 -> keeps_size r h w st2 st3 -> keeps_size r h w st1 st3.
Proof. unfold keeps_size. auto. Qed.

Lemma ks_load r h w r' : preserves (keeps_size r h w) (load r').
Proof.
  intros st res st'. unfold load.
  destruct (heap st !! r'); intros [= <- <-]; apply keeps_size_refl.
Qed.

Lemma ks_logger r h w lv msg : preserves (keeps_size r h w) (logger lv msg).
Proof. intros st res st' [= <- <-] H. exact H. Qed.

Lemma ks_validate_str r h w v : preserves (keeps_size r h w) (Plot.validate_str v).
Proof. destruct v; intros st res st' [= <- <-]; apply keeps_size_refl. Qed.

(** A store to an axis leaves the size of the layout. *)
Lemma ks_store_axis r h w name a : preserves (keeps_size r h w) (store_axis r name a).
Proof.
  intros st res st' H (l & Hl & Hh & Hw).
  unfold store_axis, bind, load, lift in H. rewrite Hl in H.
  destruct (layout_set_axis l name a) as [l'|e] eqn:Hset.
  - injection H as <- <-. exists l'. simpl.
    split; [apply list_lookup_insert_eq; eapply lookup_lt_Some; exact Hl |].
    apply layout_set_axis_size in Hset as [-> ->]. auto.
  - injection H as <- <-. exists l. auto.
Qed.

Ltac ks_auto r h w prims :=
  pres_auto (keeps_size_refl r h w) (keeps_size_trans r h w) prims.

Lemma ks_load_axis r h w name : preserves (keeps_size r h w) (load_axis r name).
Proof. unfold load_axis. ks_auto r h w ltac:(apply ks_load). Qed.

Lemma ks_log_step E r h w (on : bool) axis (acs : list string) :
  preserves (keeps_size r h w)
    (if on then
       _set_axis_log_scale E r axis ;;
       ret (if Plot.list_has axis acs then Plot.list_remove axis acs else acs)
     else ret acs).
Proof.
  unfold _set_axis_log_scale.
  ks_auto r h w ltac:(first [apply ks_load_axis | apply ks_store_axis]).
Qed.

Lemma ks_set_types r h w (on : bool) (acs : list string) :
  preserves (keeps_size r h w)
    (if on then
       for_each acs (fun axis =>
         let* a := load_axis r axis in store_axis r axis (set_type "log" a))
     else ret tt).
Proof. ks_auto r h w ltac:(first [apply ks_load_axis | apply ks_store_axis]). Qed.

Lemma ks_initialize_dataset r h w pconfig n id tt idx :
  preserves (keeps_size r h w) (Plot.initialize_dataset pconfig n id tt idx).
Proof.
  unfold Plot.initialize_dataset. cbv zeta.
  ks_auto r h w ltac:(first [apply ks_logger | apply ks_validate_str]).
Qed.

Lemma ks_initialize_datasets r h w n id tt : forall idxs pconfig,
  preserves (keeps_size r h w) (Plot.initialize_datasets pconfig n id tt idxs).
Proof.
  induction idxs as [|idx idxs IH]; intros pconfig; cbn [Plot.initialize_datasets].
  - apply pres_ret. exact (keeps_size_refl r h w).
  - apply pres_bind; [exact (keeps_size_trans r h w) | apply ks_initialize_dataset |].
    intros [ds pc]. apply pres_bind; [exact (keeps_size_trans r h w) | apply IH |].
    intros [dss pc']. apply pres_ret. exact (keeps_size_refl r h w).
Qed.

(** X24: a figure of a plot built by [initialize] has the configured
    height, 500 by default; its width is 1100 when it is flat, and
    otherwise the height for a square plot and the configured width, if
    any, for the others. *)
Theorem figure_size (E : Env) (pt : PlotType)
    (pconfig : gmap string value) (n : Z) (id : option string)
    (acs : option (list string)) (tt : option string) (st : State)
    (plot : Plot.t) (st' : State)
    (dataset_id : Z) (is_log is_pct flat : bool) (fig : Figure) (st2 : State) :
  Plot.initialize E pt pconfig n id acs tt st = (Ok plot, st') ->
  Plot.get_figure E plot dataset_id is_log is_pct flat st' = (Ok fig, st2) ->
  height (fig_layout fig) = dict_get pconfig "height" (VInt 500)
  /\ width (fig_layout fig)
     = (if flat then VInt FLAT_PLOT_WIDTH
        else if truthy (dict_get_none pconfig "square")
             then dict_get pconfig "height" (VInt 500)
             else dict_get_none pconfig "width").
Proof.
  unfold Plot.initialize. intros H Hg.
  destruct (n =? 0)%Z eqn:En; [discriminate |].
  cbv zeta in H.
  apply bind_ok_inv in H as (idv & s1 & H1 & H).
  apply bind_ok_inv in H as ([] & s2 & H2 & H).
  apply bind_ok_inv in H as (layout & s3 & H3 & H).
  apply bind_ok_inv in H as (acs1 & s4 & H4 & H).
  apply bind_ok_inv in H as (acs2 & s5 & H5 & H).
  apply bind_ok_inv in H as ([] & s6 & H6 & H).
  apply bind_ok_inv in H as ([datasets pconfig'] & s7 & Hds & H).
  apply bind_ok_inv in H as (pid & s8 & Hid & H).
  apply validate_str_inv in Hid as [-> ->].
  apply bind_ok_inv in H as (lt & s9 & Hv1 & H). apply validate_bool_state in Hv1 as ->.
  apply bind_ok_inv in H as (la & s10 & Hv2 & H). apply validate_bool_state in Hv2 as ->.
  apply bind_ok_inv in H as (sq & s11 & Hv3 & H). apply validate_bool_state in Hv3 as ->.
  apply new_layout_inv in H3 as (text & _ & -> & ->).
  set (r := length (heap s2)) in *.
  set (h := dict_get pconfig "height" (VInt 500)) in *.
  set (w := if truthy (dict_get_none pconfig "square") then h
            else dict_get_none pconfig "width") in *.
  assert (Hplot : Plot.layout plot = r /\ st' = s7).
  { injection H as <- <-. split; reflexivity. }
  destruct Hplot as (Hlay & ->). clear H.
  assert (Hsize : size_at r h w s7).
  { apply (ks_initialize_datasets r h w _ _ _ _ _ _ _ _ Hds).
    apply (ks_set_types r h w _ _ _ _ _ H6).
    apply (ks_log_step E r h w _ _ _ _ _ _ H5).
    apply (ks_log_step E r h w _ _ _ _ _ _ H4).
    eexists. split; [apply list_lookup_middle; reflexivity |].
    split; reflexivity. }
  destruct Hsize as (base & Hb & Hh & Hw).
  apply get_figure_inv in Hg as (ds & base' & l' & _ & Hb' & Hr & -> & _).
  rewrite Hlay, Hb in Hb'. injection Hb' as <-.
  apply resolved_layout_size in Hr as (Hw' & Hh' & _). simpl.
  rewrite Hw', Hh'. unfold merged_layout.
  destruct flat; simpl; rewrite ?Hh, ?Hw; split; reflexivity.
Qed.

(** ** Configurations that [_dataset_layout] accepts *)

Lemma split_aux_cons sep : forall s skip cur,
  exists x l, split_aux sep skip cur s = x :: l.
Proof.
  induction s as [|c s IH]; intros skip cur; cbn [split_aux]; [eauto |].
  destruct skip as [|k]; [| apply IH].
  destruct (String.prefix sep (String c s)); [eauto | apply IH].
Qed.

Lemma split_first s sep : exists x, list_index (split s sep) 0 = Ok x.
Proof.
  unfold split. destruct (split_aux_cons sep s 0 "") as (x & l & ->).
  exists x. reflexivity.
Qed.

Lemma split_aux_two sep : forall s cur,
  sep <> "" -> contains sep s = true ->
  exists x y l, split_aux sep 0 cur s = x :: y :: l.
Proof.
  induction s as [|c s IH]; intros cur Hsep H.
  - simpl in H. destruct sep; [congruence | discriminate].
  - cbn [contains] in H. cbn [split_aux].
    destruct (String.prefix sep (String c s)) eqn:Hp.
    + destruct (split_aux_cons sep s (String.length sep - 1) "") as (y & l & ->).
      eauto.
    + simpl in H. apply IH; assumption.
Qed.

Lemma split_second s sep :
  sep <> "" -> contains sep s = true -> exists x, list_index (split s sep) 1 = Ok x.
Proof.
  intros Hsep H. unfold split.
  destruct (split_aux_two sep s "" Hsep H) as (x & y & l & ->).
  exists y. reflexivity.
Qed.

Lemma dict_get_text conf k v :
  text_or_none (dict_get_none conf k) = true -> text_or_none v = true ->
  text_or_none (dict_get conf k v) = true.
Proof.
  unfold dict_get_none, dict_get. destruct (conf !! k); auto.
Qed.

Lemma suffix_of_labformat_text suffix labformat :
  text_or_none suffix = true -> text_or_none labformat = true ->
  exists v, suffix_of_labformat suffix labformat = Ok v /\ text_or_none v = true.
Proof.
  intros Hs Hl. unfold suffix_of_labformat.
  destruct labformat as [|b|z|q|f|l|m]; try discriminate.
  - rewrite andb_false_r. eauto.
  - destruct (is_none suffix && truthy (VStr f)); [| eauto]. simpl.
    destruct (contains "}" f) eqn:Hc; [| eauto].
    destruct (split_second f "}" ltac:(discriminate) Hc) as (x & ->).
    simpl. eauto.
Qed.

Lemma set_space_text v suf : text_or_none v = true -> text_or_none (set_space v suf) = true.
Proof.
  intros H. unfold set_space.
  destruct (negb (is_none v) && eq_str v (strip suf)); [reflexivity | exact H].
Qed.

Lemma fold_set_space_text l : forall v,
  text_or_none v = true -> text_or_none (fold_left set_space l v) = true.
Proof.
  induction l as [|suf l IH]; intros v H; simpl; [exact H |].
  apply IH, set_space_text, H.
Qed.

Lemma fold_suffix_text (s : string) l : forall v,
  text_or_none v = true ->
  text_or_none
    (fold_left (fun acc suf =>
                  if endswith s (" (" +:+ strip suf +:+ ")") then VStr suf else acc)
       l v) = true.
Proof.
  induction l as [|suf l IH]; intros v H; simpl; [exact H |].
  apply IH. destruct (endswith _ _); [reflexivity | exact H].
Qed.

Lemma suffix_of_label_text suffix lab :
  text_or_none suffix = true -> text_or_none lab = true ->
  exists v, suffix_of_label suffix lab = Ok v /\ text_or_none v = true.
Proof.
  intros Hs Hl. unfold suffix_of_label.
  destruct lab as [|b|z|q|s|l|m]; try discriminate.
  - rewrite andb_false_r. eauto.
  - destruct (is_none suffix && truthy (VStr s)); [| eauto].
    eexists. split; [reflexivity |]. apply fold_suffix_text.
    destruct (_ || _); [reflexivity | exact Hs].
Qed.

Lemma info_of_part_total part :
  contains "}" part = true -> exists info, info_of_part part = Ok info.
Proof.
  intros H. unfold info_of_part.
  destruct (split_second part "}" ltac:(discriminate) H) as (x & ->). cbn [rbind].
  destruct (split_first (replace x "</b>" "") ":") as (y & ->). cbn [rbind].
  destruct (split_first y ",") as (z & ->). cbn [rbind].
  apply split_first.
Qed.

Lemma suffix_of_part_text y x part :
  text_or_none y = true -> text_or_none x = true ->
  exists y' x',
    suffix_of_part (Ok (y, x)) part = Ok (y', x')
    /\ text_or_none y' = true /\ text_or_none x' = true.
Proof.
  intros Hy Hx. unfold suffix_of_part. cbn [rbind].
  destruct (is_none y && startswith part "y" && contains "}" part) eqn:Ey.
  - apply andb_true_iff in Ey as [_ Hc].
    destruct (info_of_part_total part Hc) as (info & ->). cbn [rbind].
    destruct (if String.eqb info "" then None else known_suffix info); eauto.
  - destruct (is_none x && startswith part "x" && contains "}" part) eqn:Ex; [| eauto].
    apply andb_true_iff in Ex as [_ Hc].
    destruct (info_of_part_total part Hc) as (info & ->). cbn [rbind].
    destruct (if String.eqb info "" then None else known_suffix info); eauto.
Qed.

Lemma fold_suffix_of_part_text parts : forall y x,
  text_or_none y = true -> text_or_none x = true ->
  exists y' x',
    fold_left suffix_of_part parts (Ok (y, x)) = Ok (y', x')
    /\ text_or_none y' = true /\ text_or_none x' = true.
Proof.
  induction parts as [|p parts IH]; intros y x Hy Hx; cbn [fold_left]; [eauto |].
  destruct (suffix_of_part_text y x p Hy Hx) as (y1 & x1 & -> & Hy1 & Hx1).
  apply IH; assumption.
Qed.

Lemma drop_suffix_total placeholder suffix tt_label :
  text_or_none suffix = true -> exists t, drop_suffix placeholder suffix tt_label = Ok t.
Proof.
  intros H. unfold drop_suffix.
  destruct suffix as [|b|z|q|s|l|m]; try discriminate; simpl; eauto.
Qed.

(** On a text configuration every step of [_dataset_layout] returns. *)
Lemma dataset_layout_is_ok p d tt :
  text_config (dict_update p d) -> is_ok (_dataset_layout p d tt) = true.
Proof.
  intros [Hkeys Htt]. unfold _dataset_layout. cbv zeta.
  set (conf := dict_update p d) in *.
  unfold text_keys in Hkeys.
  repeat match type of Hkeys with
         | Forall _ (_ :: _) => apply Forall_cons in Hkeys as [? Hkeys]
         end.
  destruct (suffix_of_labformat_text
              (dict_get conf "ysuffix" (dict_get_none conf "tt_suffix"))
              (dict_get conf "ylab_format" (dict_get_none conf "yLabFormat")))
    as (ys1 & -> & Hys1); [apply dict_get_text; assumption.. |]. cbn [rbind].
  destruct (suffix_of_labformat_text (dict_get_none conf "xsuffix")
              (dict_get conf "xlab_format" (dict_get_none conf "xLabFormat")))
    as (xs1 & -> & Hxs1); [assumption | apply dict_get_text; assumption |].
  cbn [rbind]. rewrite fold_set_space_pair.
  destruct (suffix_of_label_text (fold_left set_space KNOWN_SUFFIXES ys1)
              (dict_get_none conf "ylab"))
    as (ys3 & -> & Hys3); [apply fold_set_space_text; assumption | assumption |].
  cbn [rbind].
  destruct (suffix_of_label_text (fold_left set_space KNOWN_SUFFIXES xs1)
              (dict_get_none conf "xlab"))
    as (xs3 & -> & Hxs3); [apply fold_set_space_text; assumption | assumption |].
  cbn [rbind].
  unfold dict_has, dict_get_none at 1, dict_get at 1.
  destruct (conf !! "tt_label") as [[|b|z|q|label|l|m]|]; try contradiction;
    cbn [rbind]; [| reflexivity].
  unfold _clean_config_tt_label. cbn [as_str rbind].
  match goal with
  | |- context [fold_left ?f ?l label] => set (tl := fold_left f l label)
  end.
  assert (Hfold : exists y x,
            (if is_none ys3 || is_none xs3
             then fold_left suffix_of_part (split tl "%{") (Ok (ys3, xs3))
             else Ok (ys3, xs3)) = Ok (y, x)
            /\ text_or_none y = true /\ text_or_none x = true).
  { destruct (is_none ys3 || is_none xs3); [| eauto].
    apply fold_suffix_of_part_text; assumption. }
  destruct Hfold as (y & x & -> & Hy & Hx). cbn [rbind].
  destruct (drop_suffix_total "{y}" y tl Hy) as (t1 & ->). cbn [rbind].
  destruct (drop_suffix_total "{x}" x t1 Hx) as (t2 & ->). cbn [rbind].
  reflexivity.
Qed.

(** X7: [_dataset_layout] returns, without raising, for every
    configuration whose suffixes, label formats and axis labels are unset
    or strings and whose tooltip label, when present, is a string. *)
Theorem dataset_layout_total (p d : gmap string value) (tt : option string) :
  text_config (dict_update p d) ->
  exists layout trace, _dataset_layout p d tt = Ok (layout, trace).
Proof.
  intros H. apply (dataset_layout_is_ok p d tt) in H.
  destruct (_dataset_layout p d tt) as [[layout trace]|e].
  - exists layout, trace. reflexivity.
  - discriminate.
Qed.

(** ** Configurations that [initialize] accepts *)

Lemma text_config_same c1 c2 : same_text c1 c2 -> text_config c1 -> text_config c2.
Proof.
  unfold same_text, text_config, dict_get_none, dict_get.
  intros Hs [Hk Ht].
  apply Forall_cons in Hs as [Htt Hs]. rewrite <- Htt. split; [| exact Ht].
  rewrite Forall_forall in *. intros k Hin.
  rewrite <- (Hs k Hin). apply Hk, Hin.
Qed.

Lemma same_text_refl c : same_text c c.
Proof. unfold same_text. apply Forall_forall. reflexivity. Qed.

(** Keys that are no text settings. *)
Lemma same_text_insert k v c :
  k ∉ "tt_label" :: text_keys -> same_text c (<[k := v]> c).
Proof.
  intros Hk. unfold same_text. apply Forall_forall. intros k' Hin.
  rewrite lookup_insert_ne; [reflexivity |]. intros ->. contradiction.
Qed.

Lemma same_text_union d c1 c2 : same_text c1 c2 -> same_text (d ∪ c1) (d ∪ c2).
Proof.
  unfold same_text. rewrite !Forall_forall. intros H k Hin.
  rewrite !lookup_union. rewrite (H k Hin). reflexivity.
Qed.

Lemma same_text_trans c1 c2 c3 : same_text c1 c2 -> same_text c2 c3 -> same_text c1 c3.
Proof.
  unfold same_text. rewrite !Forall_forall. intros H1 H2 k Hin.
  rewrite (H1 k Hin). apply H2, Hin.
Qed.

Lemma write_back_same_text pconfig idx dconfig :
  same_text pconfig (Plot.write_back pconfig idx dconfig).
Proof.
  unfold Plot.write_back.
  destruct (pconfig !! "data_labels") as [[|b|z|q|s|l|m]|]; try apply same_text_refl.
  destruct (l !! idx) as [[|b|z|q|s|l'|m]|]; try apply same_text_refl.
  apply same_text_insert. vm_compute. intros Hin.
  repeat (apply elem_of_cons in Hin as [Hin | Hin]; [discriminate |]).
  apply elem_of_nil in Hin. exact Hin.
Qed.

(** The axis label that the loop gives a dataset without one keeps the
    configuration a text configuration. *)
Lemma text_config_ylab v d c :
  text_or_none v = true -> text_config (d ∪ c) -> text_config (<["ylab" := v]> d ∪ c).
Proof.
  unfold text_config, dict_get_none, dict_get. intros Hv [Hk Ht]. split.
  - rewrite Forall_forall in *. intros k Hin.
    rewrite <- insert_union_l.
    destruct (decide (k = "ylab")) as [-> | Hne].
    + rewrite lookup_insert_eq. exact Hv.
    + rewrite lookup_insert_ne by congruence. apply Hk, Hin.
  - rewrite <- insert_union_l, lookup_insert_ne by discriminate. exact Ht.
Qed.

Lemma write_back_labels pconfig0 idx pconfig dconfig :
  labels_from pconfig0 idx pconfig ->
  labels_from pconfig0 (S idx) (Plot.write_back pconfig idx dconfig).
Proof.
  unfold labels_from, Plot.write_back.
  destruct (pconfig0 !! "data_labels") as [[|b|z|q|s|entries|m]|]; try contradiction.
  - intros (l & Hl & Hsame). rewrite Hl.
    destruct (l !! idx) as [[|b|z|q|s|l'|m]|];
      try (exists l; split; [exact Hl | intros j Hj; apply Hsame; lia]).
    eexists. split; [apply lookup_insert_eq |].
    intros j Hj. rewrite list_lookup_insert_ne by lia. apply Hsame. lia.
  - intros Hl. rewrite Hl. exact Hl.
Qed.

Lemma pick_entry {B} pconfig idx dconfig (K : value -> M B) st :
  entry_read pconfig idx dconfig ->
  (let* len := lift (Plot.py_len
                       (py_or (dict_get_none pconfig "data_labels") (VList []))) in
   let* dconfig :=
     if idx <? len
     then lift (Plot.py_item
                  (py_or (dict_get_none pconfig "data_labels") (VList [])) idx)
     else ret (VDict ∅) in
   K dconfig) st
  = K dconfig st.
Proof.
  intros (l & -> & [Hl | [Hl ->]]); unfold bind at 1; unfold lift at 1; simpl.
  - assert (Hlt : idx < length l) by (eapply lookup_lt_Some; exact Hl).
    apply Nat.ltb_lt in Hlt. rewrite Hlt.
    unfold bind, lift. rewrite (list_index_nat _ _ _ Hl). reflexivity.
  - apply lookup_ge_None_1 in Hl. apply Nat.ltb_ge in Hl. rewrite Hl. reflexivity.
Qed.

(** One round of the loop over the datasets returns when the entry is a
    string or a dictionary and the settings of the dataset, laid over
    those of the plot, are text. *)
Lemma initialize_dataset_run pconfig n pid dtt idx st (dconfig : value) :
  entry_read pconfig idx dconfig ->
  (exists s, dconfig = VStr s) \/ (exists d, dconfig = VDict d) ->
  let d0 := match dconfig with VDict d => d | _ => {[ "name" := dconfig ]} end in
  let d1 :=
    if negb (dict_has d0 "ylab") && negb (dict_has pconfig "ylab")
    then <["ylab" := dict_get d0 "name" (dict_get_none d0 "label")]> d0
    else d0 in
  text_config (dict_update (Plot.write_back pconfig idx d1) d1) ->
  exists ds,
    Plot.initialize_dataset pconfig n (VStr pid) dtt idx st
    = (Ok (ds, Plot.write_back pconfig idx d1), st).
Proof.
  intros Hsrc Hkind d0 d1 Htext.
  pose proof (dataset_layout_is_ok (Plot.write_back pconfig idx d1) d1 dtt Htext)
    as Hdl.
  destruct (_dataset_layout (Plot.write_back pconfig idx d1) d1 dtt)
    as [[layout trace]|e] eqn:Hrun; [clear Hdl; rename Hrun into Hdl | discriminate].
  unfold Plot.initialize_dataset. cbv zeta.
  unfold bind at 1. unfold Plot.validate_str at 1, ret at 1.
  unfold bind at 1. unfold Plot.validate_str at 1, ret at 1.
  rewrite (pick_entry pconfig idx dconfig _ st Hsrc).
  fold d0. fold d1.
  assert (Hlog : (match dconfig with
                  | VStr _ | VDict _ => ret tt
                  | _ => logger WARNING (InvalidDataLabelsType dconfig)
                  end) st = (Ok tt, st)).
  { destruct Hkind as [[s ->] | [d ->]]; reflexivity. }
  rewrite (bind_ok _ _ _ _ _ Hlog).
  unfold bind, lift. rewrite Hdl. eexists. reflexivity.
Qed.

Lemma entry_of_labels pconfig0 pconfig idx :
  plot_config_ok pconfig0 -> labels_from pconfig0 idx pconfig ->
  exists dconfig,
    entry_read pconfig idx dconfig
    /\ (dconfig = VDict ∅ \/ label_entry_ok pconfig0 dconfig).
Proof.
  intros [_ Hentries] Hfrom. unfold labels_from in Hfrom. unfold entry_read.
  destruct (pconfig0 !! "data_labels") as [[|b|z|q|s|entries|m]|]; try contradiction.
  - destruct Hfrom as (l & Hl & Hsame).
    assert (Hdc : py_or (dict_get_none pconfig "data_labels") (VList []) = VList l).
    { unfold dict_get_none, dict_get. rewrite Hl. apply py_or_list. }
    destruct (l !! idx) as [e|] eqn:He.
    + exists e. split; [exists l; auto |]. right.
      rewrite Hsame in He by lia.
      rewrite Forall_forall in Hentries. apply Hentries.
      eapply list_elem_of_lookup_2. exact He.
    + exists (VDict ∅). split; [exists l; auto | left; reflexivity].
  - exists (VDict ∅). split; [| left; reflexivity].
    exists []. unfold dict_get_none, dict_get. rewrite Hfrom. auto.
Qed.

Lemma text_config_round (d0 c pconfig : gmap string value) :
  text_config (d0 ∪ c) ->
  text_or_none (dict_get d0 "name" (dict_get_none d0 "label")) = true ->
  text_config
    ((if negb (dict_has d0 "ylab") && negb (dict_has pconfig "ylab")
      then <["ylab" := dict_get d0 "name" (dict_get_none d0 "label")]> d0
      else d0) ∪ c).
Proof.
  intros Hc Hv. destruct (negb _ && negb _); [| exact Hc].
  apply text_config_ylab; assumption.
Qed.

Lemma initialize_dataset_total pconfig0 pconfig n pid dtt idx st :
  plot_config_ok pconfig0 -> same_text pconfig0 pconfig ->
  labels_from pconfig0 idx pconfig ->
  exists ds pconfig',
    Plot.initialize_dataset pconfig n (VStr pid) dtt idx st = (Ok (ds, pconfig'), st)
    /\ same_text pconfig0 pconfig'
    /\ labels_from pconfig0 (S idx) pconfig'.
Proof.
  intros Hok Hsame Hfrom.
  destruct (entry_of_labels pconfig0 pconfig idx Hok Hfrom) as (dconfig & Hread & Hentry).
  set (d0 := match dconfig with VDict d => d | _ => {[ "name" := dconfig ]} end).
  set (d1 := if negb (dict_has d0 "ylab") && negb (dict_has pconfig "ylab")
             then <["ylab" := dict_get d0 "name" (dict_get_none d0 "label")]> d0
             else d0).
  assert (Hwb : same_text pconfig0 (Plot.write_back pconfig idx d1)).
  { eapply same_text_trans; [exact Hsame | apply write_back_same_text]. }
  assert (Hkind : (exists s, dconfig = VStr s) \/ (exists d, dconfig = VDict d)).
  { destruct Hentry as [-> | He]; [right; eauto |].
    destruct dconfig; try contradiction; [left | right]; eauto. }
  assert (Htext : text_config (dict_update (Plot.write_back pconfig idx d1) d1)).
  { unfold dict_update, d1. apply text_config_round.
    - destruct Hentry as [-> | He].
      + subst d0. cbv beta iota. rewrite (left_id ∅ (∪)).
        eapply text_config_same; [exact Hwb | apply Hok].
      + destruct dconfig as [|b|z|q|s|l|d]; try contradiction.
        * subst d0. cbv beta iota. rewrite <- insert_union_singleton_l.
          eapply text_config_same; [| apply Hok].
          eapply same_text_trans; [exact Hwb |].
          apply same_text_insert. vm_compute. intros Hin.
          repeat (apply elem_of_cons in Hin as [Hin | Hin]; [discriminate |]).
          apply elem_of_nil in Hin. exact Hin.
        * subst d0. cbv beta iota. destruct He as [He _].
          eapply text_config_same; [| exact He].
          apply same_text_union. exact Hwb.
    - destruct Hentry as [-> | He]; [reflexivity |].
      destruct dconfig as [|b|z|q|s|l|d]; try contradiction.
      + subst d0. cbv beta iota. unfold dict_get. rewrite lookup_singleton_eq.
        reflexivity.
      + apply He. }
  destruct (initialize_dataset_run pconfig n pid dtt idx st dconfig Hread Hkind Htext)
    as (ds & Hrun).
  exists ds, (Plot.write_back pconfig idx d1).
  split; [exact Hrun |]. split; [exact Hwb |].
  apply write_back_labels. exact Hfrom.
Qed.

Lemma initialize_datasets_total pconfig0 n pid dtt : forall m k pconfig st,
  plot_config_ok pconfig0 -> same_text pconfig0 pconfig ->
  labels_from pconfig0 k pconfig ->
  exists dss pconfig',
    Plot.initialize_datasets pconfig n (VStr pid) dtt (seq k m) st
    = (Ok (dss, pconfig'), st).
Proof.
  induction m as [|m IH]; intros k pconfig st Hok Hsame Hfrom;
    cbn [seq Plot.initialize_datasets].
  - eexists. eexists. reflexivity.
  - destruct (initialize_dataset_total pconfig0 pconfig n pid dtt k st Hok Hsame Hfrom)
      as (ds & pc1 & Hrun & Hsame1 & Hfrom1).
    destruct (IH (S k) pc1 st Hok Hsame1 Hfrom1) as (dss & pc2 & Hrest).
    rewrite (bind_ok _ _ _ _ _ Hrun). rewrite (bind_ok _ _ _ _ _ Hrest).
    eexists. eexists. reflexivity.
Qed.

Lemma set_axis_log_scale_unbounded E r axis st l :
  r < length (heap st) -> is_axis axis -> unbounded l ->
  exists l', _set_axis_log_scale E r axis (put r l st) = (Ok tt, put r l' st)
             /\ unbounded l'.
Proof.
  intros Hlt Hax (Hxmin & Hxmax & Hymin & Hymax).
  destruct Hax as [-> | ->].
  - destruct (set_axis_log_scale_put E r "xaxis" st l (xaxis l) VNone VNone Hlt)
      as (l' & Hl' & Hrun); [reflexivity | rewrite Hxmin; reflexivity
                             | rewrite Hxmax; reflexivity |].
    exists l'. split; [exact Hrun |]. injection Hl' as <-.
    repeat split; assumption.
  - destruct (set_axis_log_scale_put E r "yaxis" st l (yaxis l) VNone VNone Hlt)
      as (l' & Hl' & Hrun); [reflexivity | rewrite Hymin; reflexivity
                             | rewrite Hymax; reflexivity |].
    exists l'. split; [exact Hrun |]. injection Hl' as <-.
    repeat split; assumption.
Qed.

Lemma log_step_unbounded E r (on : bool) axis (acs : list string) st l :
  r < length (heap st) -> is_axis axis -> unbounded l ->
  exists l',
    (if on then
       _set_axis_log_scale E r axis ;;
       ret (if Plot.list_has axis acs then Plot.list_remove axis acs else acs)
     else ret acs) (put r l st)
    = (Ok (if on then (if Plot.list_has axis acs then Plot.list_remove axis acs else acs)
           else acs), put r l' st)
    /\ unbounded l'.
Proof.
  intros Hlt Hax Hl. destruct on; [| exists l; split; [reflexivity | exact Hl]].
  destruct (set_axis_log_scale_unbounded E r axis st l Hlt Hax Hl) as (l' & Hrun & Hl').
  exists l'. split; [| exact Hl']. rewrite (bind_ok _ _ _ _ _ Hrun). reflexivity.
Qed.

Lemma set_types_total r (acs : list string) : forall st l,
  r < length (heap st) -> Forall is_axis acs ->
  exists l',
    for_each acs (fun axis =>
      let* a := load_axis r axis in store_axis r axis (set_type "log" a)) (put r l st)
    = (Ok tt, put r l' st).
Proof.
  induction acs as [|axis acs IH]; intros st l Hlt Hax; simpl.
  - exists l. reflexivity.
  - inversion Hax as [|? ? Ha Hrest]; subst.
    destruct (is_axis_layout_axis l axis Ha) as (a & Hla).
    destruct (layout_set_axis_ok l axis (set_type "log" a) Ha) as (l1 & Hl1).
    destruct (IH st l1 Hlt Hrest) as (l' & Hrun).
    exists l'. rewrite bind_assoc.
    rewrite (step_load_axis r axis l st _ a Hlt Hla).
    rewrite (step_store_axis r axis _ l l1 st _ Hlt Hl1). exact Hrun.
Qed.

Lemma layout_size_ok prop v : size_ok v = true -> Plot.layout_size prop v = Ok v.
Proof.
  destruct v as [|b|z|q|s|l|m]; simpl; intros H; try discriminate.
  - reflexivity.
  - unfold Plot.layout_size, Qle_bool. simpl.
    rewrite !Z.mul_1_r, H. reflexivity.
  - unfold Plot.layout_size. simpl. rewrite H. reflexivity.
Qed.

(** [go.Layout] takes a title that is unset or a string, and a height
    and a width that are unset or numbers from 10 on. *)
Lemma new_layout_ok E v h w flat st :
  text_or_none v = true -> size_ok h = true -> size_ok w = true ->
  Plot.new_layout E v h w flat st
  = (Ok (length (heap st)),
     set_heap
       (heap st
        ++ [{| title := v; xaxis := Plot.new_axis; yaxis := Plot.new_axis;
               height := h; width := w; showlegend := flat; legend := flat |}]) st).
Proof.
  intros Hv Hh Hw. unfold Plot.new_layout.
  assert (Ht : Plot.title_text E v = Ok v)
    by (destruct v; try discriminate; reflexivity).
  rewrite Ht, (layout_size_ok _ _ Hh), (layout_size_ok _ _ Hw). reflexivity.
Qed.

Lemma switch_ok_and x c : switch_ok x = true -> exists b, py_and x (VBool c) = VBool b.
Proof.
  unfold switch_ok, py_and. destruct (truthy x) eqn:T; [eauto |].
  simpl. destruct x as [| [] | | | | |]; try discriminate. eauto.
Qed.

Lemma write_back_other pconfig idx d k :
  k <> "data_labels" -> Plot.write_back pconfig idx d !! k = pconfig !! k.
Proof.
  intros Hk. unfold Plot.write_back.
  destruct (pconfig !! "data_labels") as [[| | | | |l|]|]; try reflexivity.
  destruct (l !! idx) as [[| | | | | |]|]; try reflexivity.
  apply lookup_insert_ne. congruence.
Qed.

(** The loop over the datasets writes to [data_labels] only. *)
Lemma initialize_dataset_other pconfig n id tt idx st ds pconfig' st' k :
  Plot.initialize_dataset pconfig n id tt idx st = (Ok (ds, pconfig'), st') ->
  k <> "data_labels" -> pconfig' !! k = pconfig !! k.
Proof.
  unfold Plot.initialize_dataset. intros H Hk. cbv zeta in H.
  apply bind_ok_inv in H as (p1 & s1 & _ & H).
  apply bind_ok_inv in H as (p2 & s2 & _ & H).
  apply bind_ok_inv in H as (len & s3 & _ & H).
  apply bind_ok_inv in H as (dconfig & s4 & _ & H).
  apply bind_ok_inv in H as ([] & s5 & _ & H).
  apply bind_ok_inv in H as ([layout trace_params] & s6 & _ & H).
  injection H as _ <- _. apply write_back_other. exact Hk.
Qed.

Lemma initialize_datasets_other n id tt k : forall idxs pconfig st dss pconfig' st',
  Plot.initialize_datasets pconfig n id tt idxs st = (Ok (dss, pconfig'), st') ->
  k <> "data_labels" -> pconfig' !! k = pconfig !! k.
Proof.
  induction idxs as [|idx idxs IH]; intros pconfig st dss pconfig' st' H Hk.
  - injection H as _ <- _. reflexivity.
  - cbn [Plot.initialize_datasets] in H.
    apply bind_ok_inv in H as ([ds pc1] & s1 & H1 & H).
    apply bind_ok_inv in H as ([dss1 pc2] & s2 & H2 & H).
    injection H as _ <- _.
    rewrite (IH _ _ _ _ _ H2 Hk). eapply initialize_dataset_other; eauto.
Qed.

(** X25: [initialize] returns a plot, without raising, for every number
    of datasets other than zero, when the text settings of the
    configuration are unset or strings, [data_labels] is absent or a list
    of strings and of dictionaries with text settings, the title is unset
    or a string, the height and the width are unset or numbers from 10 on,
    [logswitch] is [False] or counts as true, [square] is absent or a
    boolean, the id is a string or unset, and the axes under the switches
    are axes of the layout. *)
Theorem initialize_total (E : Env) (pt : PlotType)
    (pconfig : gmap string value) (n : Z) (id : option string)
    (acs : option (list string)) (dtt : option string) (st : State) :
  n <> 0%Z ->
  plot_config_ok pconfig ->
  fields_ok pconfig ->
  text_or_none (given_id pconfig id) = true ->
  Forall is_axis (default [] acs) ->
  exists plot st', Plot.initialize E pt pconfig n id acs dtt st = (Ok plot, st').
Proof.
  intros Hn Hok (Ht & Hh & Hw & Hsw & Hsq) Hid Hax. unfold Plot.initialize.
  apply Z.eqb_neq in Hn. rewrite Hn. cbv zeta. fold (given_id pconfig id).
  destruct (switch_ok_and _ (PlotType_eqb pt BAR || PlotType_eqb pt LINE) Hsw)
    as (b1 & Hb1).
  rewrite Hb1.
  assert (Hb2 : py_and (VBool b1) (VBool (is_True (dict_get_none pconfig "logswitch_active")))
                = VBool (b1 && is_True (dict_get_none pconfig "logswitch_active")))
    by (destruct b1; reflexivity).
  rewrite Hb2.
  replace (match acs with Some l => l | None => [] end) with (default [] acs)
    by (destruct acs; reflexivity).
  assert (H1 : exists pid s1,
    (if is_none (given_id pconfig id)
     then let* uniq_suffix := draw (random_sample E) in
          ret (VStr ("mqc_plot_" +:+ uniq_suffix))
     else ret (given_id pconfig id)) st = (Ok (VStr pid), s1)).
  { destruct (given_id pconfig id) as [|b|z|q|s|l|m]; try discriminate;
      eexists; eexists; reflexivity. }
  destruct H1 as (pid & s1 & H1). rewrite (bind_ok _ _ _ _ _ H1).
  assert (H2 : exists s2,
    (if negb (truthy (dict_get pconfig "table_title" (dict_get_none pconfig "title")))
        && strict (config E)
     then logger ERROR (LintTitleMissing (VStr pid)) ;;
          lint_append (LintTitleMissing (VStr pid))
     else ret ()) s1 = (Ok (), s2))
    by (destruct (negb _ && strict (config E)); eexists; reflexivity).
  destruct H2 as (s2 & H2). rewrite (bind_ok _ _ _ _ _ H2).
  assert (Hw' : size_ok (if truthy (dict_get_none pconfig "square")
                        then dict_get pconfig "height" (VInt 500)
                        else dict_get_none pconfig "width") = true)
    by (destruct (truthy (dict_get_none pconfig "square")); assumption).
  rewrite (bind_ok _ _ _ _ _ (new_layout_ok E _ _ _ _ s2 Ht Hh Hw')).
  match goal with
  | |- context [set_heap (heap s2 ++ [?L]) s2] =>
      set (L0 := L); set (s3 := set_heap (heap s2 ++ [L0]) s2)
  end.
  set (r := length (heap s2)).
  assert (Hlt : r < length (heap s3)).
  { unfold s3, r. simpl. rewrite length_app. simpl. lia. }
  assert (H3 : heap s3 !! r = Some L0).
  { unfold s3, r. simpl. apply list_lookup_middle. reflexivity. }
  rewrite <- (put_id r L0 s3 H3).
  assert (HL0 : unbounded L0) by (repeat split; reflexivity).
  destruct (log_step_unbounded E r
              (truthy (dict_get pconfig "xlog" (dict_get_none pconfig "xLog")))
              "xaxis" (default [] acs) s3 L0 Hlt (or_introl eq_refl) HL0)
    as (l1 & H4 & Hl1).
  rewrite (bind_ok _ _ _ _ _ H4).
  match type of H4 with _ = (Ok ?a, _) => set (acs1 := a) in * end.
  destruct (log_step_unbounded E r
              (truthy (dict_get pconfig "ylog" (dict_get_none pconfig "yLog")))
              "yaxis" acs1 s3 l1 Hlt (or_intror eq_refl) Hl1)
    as (l2 & H5 & Hl2).
  rewrite (bind_ok _ _ _ _ _ H5).
  match type of H5 with _ = (Ok ?a, _) => set (acs2 := a) in * end.
  assert (Hax2 : Forall is_axis acs2).
  { rewrite Forall_forall in *. intros x Hx. apply Hax.
    unfold acs2 in Hx.
    assert (Hx1 : x ∈ acs1).
    { destruct (truthy (dict_get pconfig "ylog" _)); [| exact Hx].
      eapply removed_subset. exact Hx. }
    unfold acs1 in Hx1.
    destruct (truthy (dict_get pconfig "xlog" _)); [| exact Hx1].
    eapply removed_subset. exact Hx1. }
  match goal with
  | |- context [bind (if ?c then for_each acs2 ?body else ret ()) _ (put r l2 s3)] =>
      assert (H6 : exists l3,
                (if c then for_each acs2 body else ret ()) (put r l2 s3)
                = (Ok (), put r l3 s3))
  end.
  { match goal with
    | |- context [if ?c then for_each _ _ else _] => destruct c
    end; [| exists l2; reflexivity].
    apply set_types_total; assumption. }
  destruct H6 as (l3 & H6). rewrite (bind_ok _ _ _ _ _ H6).
  assert (Hfrom : labels_from pconfig 0 pconfig).
  { unfold labels_from. destruct Hok as [_ Hl].
    destruct (pconfig !! "data_labels") as [[|b|z|q|s|entries|m]|] eqn:Hd;
      try contradiction; [| reflexivity].
    exists entries. split; reflexivity. }
  destruct (initialize_datasets_total pconfig n pid dtt (Z.to_nat n) 0 pconfig
              (put r l3 s3) Hok (same_text_refl pconfig) Hfrom)
    as (dss & pc' & H7).
  rewrite (bind_ok _ _ _ _ _ H7).
  assert (Hsq' : exists b, dict_get pc' "square" (VBool false) = VBool b).
  { unfold dict_get.
    rewrite (initialize_datasets_other _ _ _ "square" _ _ _ _ _ _ H7) by discriminate.
    destruct (pconfig !! "square") as [[|b|z|q|s|l|m]|]; try contradiction; eauto. }
  destruct Hsq' as (b3 & ->).
  eexists. eexists. reflexivity.
Qed.

(** *** What every plot built by [initialize] satisfies *)

Lemma nonempty_append (u t : string) : u <> "" -> u +:+ t <> "".
Proof. destruct u as [|c u]; [congruence | discriminate]. Qed.

Lemma dataset_uid_nonempty n pid idx : pid <> "" -> dataset_uid n pid idx <> "".
Proof.
  intros H. unfold dataset_uid. destruct (n >? 1)%Z; [| exact H].
  apply nonempty_append. exact H.
Qed.

(** X26: in a plot built by [initialize] an active switch is a switch
    that exists, the datasets have non-empty uids when the plot has a
    non-empty id, the layout of the plot is in the store, and the axes
    under the switches are among those given. *)
Theorem initialize_well_formed (E : Env) (pt : PlotType)
    (pconfig : gmap string value) (n : Z) (id : option string)
    (acs : option (list string)) (tt : option string) (st : State)
    (plot : Plot.t) (st' : State) :
  Plot.initialize E pt pconfig n id acs tt st = (Ok plot, st') ->
  (Plot.p_active plot = true -> Plot.add_pct_tab plot = true)
  /\ (Plot.l_active plot = true -> Plot.add_log_tab plot = true)
  /\ (Plot.id plot <> "" ->
      Forall (fun ds => BaseDataset.uid ds <> "") (Plot.datasets plot))
  /\ is_Some (heap st' !! Plot.layout plot)
  /\ Plot.axis_controlled_by_switches plot ⊆ default [] acs.
Proof.
  intros H.
  pose proof (initialize_inv _ _ _ _ _ _ _ _ _ _ H)
    as (_ & _ & _ & Hl & Hp & pc' & sa & sb & Hds).
  pose proof (initialize_trace _ _ _ _ _ _ _ _ _ _ H)
    as (s1' & s2' & base & _ & _ & Hlay & ((Hlen & _) & _)).
  split; [| split; [| split; [| split]]].
  - rewrite Hp. intros Ha. apply andb_true_iff in Ha as [Ha _]. exact Ha.
  - rewrite Hl. intros Ha. apply andb_true_iff in Ha as [Ha _]. exact Ha.
  - intros Hid. apply initialize_datasets_uids in Hds.
    apply Forall_forall. intros ds Hin.
    assert (Hu : BaseDataset.uid ds ∈ BaseDataset.uid <$> Plot.datasets plot)
      by (apply list_elem_of_fmap; exists ds; auto).
    rewrite Hds in Hu. apply list_elem_of_fmap in Hu as (idx & -> & _).
    apply dataset_uid_nonempty. exact Hid.
  - apply lookup_lt_is_Some. rewrite Hlay, Hlen. simpl.
    rewrite length_app. simpl. lia.
  - unfold Plot.initialize in H.
    destruct (n =? 0)%Z; [discriminate |]. cbv zeta in H.
    apply bind_ok_inv in H as (idv & s1 & H1 & H).
    apply bind_ok_inv in H as ([] & s2 & H2 & H).
    apply bind_ok_inv in H as (layout & s3 & H3 & H).
    apply bind_ok_inv in H as (acs1 & s4 & H4 & H).
    apply bind_ok_inv in H as (acs2 & s5 & H5 & H).
    apply bind_ok_inv in H as ([] & s6 & H6 & H).
    apply bind_ok_inv in H as ([datasets pconfig'] & s7 & Hds' & H).
    apply bind_ok_inv in H as (pid & s8 & Hid & H).
    apply bind_ok_inv in H as (lt & s9 & _ & H).
    apply bind_ok_inv in H as (la & s10 & _ & H).
    apply bind_ok_inv in H as (sq & s11 & _ & H).
    injection H as <- _. cbn [Plot.axis_controlled_by_switches].
    replace (match acs with Some l => l | None => [] end) with (default [] acs) in *
      by (destruct acs; reflexivity).
    assert (Hsub1 : acs1 ⊆ default [] acs).
    { destruct (truthy (dict_get pconfig "xlog" _)).
      - apply bind_ok_inv in H4 as ([] & s3' & _ & Hret). injection Hret as <- _.
        intros x Hx. eapply removed_subset. exact Hx.
      - injection H4 as <- _. reflexivity. }
    destruct (truthy (dict_get pconfig "ylog" _)).
    + apply bind_ok_inv in H5 as ([] & s4' & _ & Hret). injection Hret as <- _.
      intros x Hx. apply Hsub1. eapply removed_subset. exact Hx.
    + injection H5 as <- _. exact Hsub1.
Qed.

(** ** Instances of the further theorems *)

(** A label of two words on lines of three characters: the second line is
    the second word. *)
Lemma split_long_string_lines_witness :
  "bb" <> ""
  /\ ((Z.of_nat (String.length "bb") <= 3)%Z \/ "bb" ∈ re_split_nonword "aa bb").
Proof.
  apply (split_long_string_lines "aa bb" 3 "bb"). vm_compute. repeat constructor.
Defined.

Lemma split_long_string_short_witness :
  split_long_string "Sample" 20 = ["Sample"].
Proof. apply split_long_string_short; [discriminate | simpl; lia]. Defined.

Lemma clean_config_tt_label_plain_witness :
  _clean_config_tt_label (VStr "%{x}: %{y:.2f}") = Ok "%{x}: %{y:.2f}".
Proof.
  apply clean_config_tt_label_plain. vm_compute. repeat constructor.
Defined.

(** A tooltip label in the older syntax: the hover template starts with
    the sample name and a line break. *)
Lemma dataset_layout_hovertemplate_witness :
  exists layout trace t,
    _dataset_layout {[ "tt_label" := VStr "{point.x}: {point.y}" ]} ∅ None
    = Ok (layout, trace)
    /\ trace !! "hovertemplate"
       = Some (VStr ("<b>%{text}</b>" +:+ t +:+ "<extra></extra>"))
    /\ startswith t "<br>" = true.
Proof.
  destruct (_dataset_layout {[ "tt_label" := VStr "{point.x}: {point.y}" ]} ∅ None)
    as [[layout trace]|e] eqn:H; [| vm_compute in H; discriminate].
  destruct (proj1 (dataset_layout_hovertemplate _ _ _ _ _ H)) as (t & Ht & Hbr);
    [vm_compute; reflexivity |].
  exists layout, trace, t. split; [reflexivity |]. split; [exact Ht | exact Hbr].
Defined.

(** The suffix [bp], given as such, is the tick suffix with its space. *)
Lemma dataset_layout_explicit_suffix_witness :
  exists layout trace,
    _dataset_layout {[ "ysuffix" := VStr "bp"; "ylab" := VStr "% of reads" ]} ∅ None
    = Ok (layout, trace)
    /\ ticksuffix (dl_yaxis layout) = VStr " bp".
Proof.
  destruct (_dataset_layout {[ "ysuffix" := VStr "bp"; "ylab" := VStr "% of reads" ]}
              ∅ None) as [[layout trace]|e] eqn:H; [| vm_compute in H; discriminate].
  exists layout, trace. split; [reflexivity |].
  apply (proj1 (dataset_layout_explicit_suffix _ _ _ _ _ H) "bp").
  vm_compute. reflexivity.
Defined.

Lemma rename_deprecated_pass_through_witness :
  exists conf',
    rename_deprecated_highcharts_keys {[ "tooltip" := VStr "x"; "id" := VStr "p" ]}
    = Ok conf'
    /\ conf' !! "id" = Some (VStr "p").
Proof.
  destruct (rename_deprecated_highcharts_keys
              {[ "tooltip" := VStr "x"; "id" := VStr "p" ]}) as [conf'|e] eqn:H;
    [| vm_compute in H; discriminate].
  exists conf'. split; [reflexivity |].
  rewrite (rename_deprecated_pass_through _ _ "id" H); [vm_compute; reflexivity |].
  vm_compute. intros Hin.
  repeat (apply elem_of_cons in Hin as [Hin | Hin]; [discriminate |]).
  apply elem_of_nil in Hin. exact Hin.
Defined.

Lemma rename_deprecated_legacy_keys_witness :
  exists conf',
    rename_deprecated_highcharts_keys {[ "xAxis" := VInt 1 ]} = Ok conf'
    /\ conf' !! "xAxis" = None
    /\ conf' !! "xaxis" = Some (VInt 1)
    /\ rename_deprecated_highcharts_keys conf' = Ok conf'.
Proof.
  destruct (rename_deprecated_legacy_keys {[ "xAxis" := VInt 1 ]})
    as (conf' & Hrun & Hx & _ & Hx' & _ & Hid); [vm_compute; reflexivity |].
  exists conf'. split; [exact Hrun |]. split; [exact Hx |].
  split; [exact Hx' | exact Hid].
Defined.

(** The sample plot has two datasets: there is no dataset of index 7. *)
Lemma get_figure_store_witness :
  Plot.get_figure sample_env sample_plot 7 false false false sample_state
  = (Raise IndexError, sample_state).
Proof.
  destruct (Plot.get_figure sample_env sample_plot 7 false false false sample_state)
    as [res st'] eqn:H.
  destruct (proj2 (proj2 (get_figure_store _ _ _ _ _ _ _ _ _ H))) as [-> ->];
    [left; vm_compute; discriminate | reflexivity].
Defined.


(** The percentage view of the first dataset of the sample plot. *)
Lemma get_figure_percent_view_witness :
  exists fig st' a,
    Plot.get_figure sample_env sample_plot 0 false true false sample_state
    = (Ok fig, st')
    /\ layout_axis (fig_layout fig) "yaxis" = Ok a
    /\ ticksuffix a = VStr "%"
    /\ hoverformat a = HoverLiteral ".1f".
Proof.
  destruct (Plot.get_figure sample_env sample_plot 0 false true false sample_state)
    as [[fig|e] st'] eqn:H; [| vm_compute in H; discriminate].
  destruct (get_figure_percent_view _ _ _ _ _ _ _ _ "yaxis" H)
    as (a & Ha & Ht & Hh & _); [vm_compute; left |].
  exists fig, st', a. split; [reflexivity |]. split; [exact Ha |].
  split; [exact Ht | exact Hh].
Defined.



(** The page of the sample plot shows the counts of the first dataset. *)
Lemma flat_plot_visible_witness :
  exists html st',
    Plot.flat_plot sample_env sample_plot sample_state = (Ok html, st')
    /\ visible_ids html = ["p_1-cnt"].
Proof.
  destruct (Plot.flat_plot sample_env sample_plot sample_state)
    as [[html|e] st'] eqn:H; [| vm_compute in H; discriminate].
  exists html, st'. split; [reflexivity |].
  apply (flat_plot_visible _ _ _ _ _ H).
  - vm_compute. repeat constructor; discriminate.
  - intros _. vm_compute. reflexivity.
  - intros _. vm_compute. reflexivity.
Defined.

(** A plot built without an id takes a random one. *)
Lemma initialize_plot_id_witness :
  exists plot st',
    Plot.initialize sample_env BAR ∅ 1 None None None empty_state = (Ok plot, st')
    /\ Plot.id plot = "mqc_plot_qwertyuiop"
    /\ draws st' = 1.
Proof.
  destruct (Plot.initialize sample_env BAR ∅ 1 None None None empty_state)
    as [[plot|e] st'] eqn:H; [| vm_compute in H; discriminate].
  exists plot, st'. split; [reflexivity |].
  apply (proj1 (initialize_plot_id _ _ _ _ _ _ _ _ _ _ H)).
Defined.

(** The layout of the sample plot is the one object of the store. *)
Lemma initialize_effects_witness :
  Plot.layout sample_plot = 0
  /\ length (heap sample_state) = 1
  /\ files sample_state = []
  /\ lint_errors sample_state = [].
Proof.
  destruct (initialize_effects _ _ _ _ _ _ _ _ _ _ sample_run_ok)
    as (Hl & Hh & _ & Hf & He).
  split; [exact Hl |]. split; [exact Hh |]. split; [exact Hf | exact He].
Defined.

(** Three datasets and two labels: the third is numbered. *)
Lemma initialize_labels_witness :
  exists plot st',
    Plot.initialize sample_env LINE
      {[ "data_labels" := VList [VStr "A"; VDict {[ "name" := VStr "B" ]}] ]}
      3 (Some "p") None None empty_state
    = (Ok plot, st')
    /\ BaseDataset.label <$> Plot.datasets plot = [VStr "A"; VStr "B"; VStr "3"].
Proof.
  destruct (Plot.initialize sample_env LINE
              {[ "data_labels" := VList [VStr "A"; VDict {[ "name" := VStr "B" ]}] ]}
              3 (Some "p") None None empty_state)
    as [[plot|e] st'] eqn:H; [| vm_compute in H; discriminate].
  exists plot, st'. split; [reflexivity |].
  pose proof (proj1 (initialize_labels _ _ _ _ _ _ _ _ _ _ H) _ eq_refl) as Hlab.
  destruct (Plot.datasets plot) as [|d0 [|d1 [|d2 [|d3 l]]]] eqn:Hd;
    try (vm_compute in H; injection H as <- _; discriminate).
  rewrite !fmap_cons, (Hlab 0 d0 eq_refl), (Hlab 1 d1 eq_refl), (Hlab 2 d2 eq_refl).
  reflexivity.
Defined.

(** A plot with a logarithmic x axis and both axes under the switches:
    the x axis is logarithmic in the plain view. *)
Lemma static_log_axis_witness :
  exists plot st' fig st2,
    Plot.initialize sample_env LINE {[ "xlog" := VBool true ]} 1 (Some "p")
      (Some ["xaxis"; "yaxis"]) None empty_state
    = (Ok plot, st')
    /\ Plot.get_figure sample_env plot 0 false false false st' = (Ok fig, st2)
    /\ type (xaxis (fig_layout fig)) = Some "log"
    /\ type (yaxis (fig_layout fig)) = Some "linear".
Proof.
  destruct (Plot.initialize sample_env LINE {[ "xlog" := VBool true ]} 1 (Some "p")
              (Some ["xaxis"; "yaxis"]) None empty_state)
    as [[plot|e] st'] eqn:H; [| vm_compute in H; discriminate].
  assert (Hnd : NoDup (default [] (Some ["xaxis"; "yaxis"])))
    by (apply (bool_decide_unpack _); vm_compute; exact I).
  destruct (proj1 (static_log_axis _ _ _ _ _ _ _ _ _ _ H Hnd) eq_refl) as [_ Hfig].
  destruct (Plot.get_figure sample_env plot 0 false false false st')
    as [[fig|e] st2] eqn:Hg.
  - exists plot, st', fig, st2. split; [reflexivity |]. split; [exact Hg |].
    split; [apply (Hfig _ _ _ _ _ _ Hg) |].
    vm_compute in H. injection H as <- <-. vm_compute in Hg. injection Hg as <- _.
    reflexivity.
  - vm_compute in H. injection H as <- <-. vm_compute in Hg. discriminate.
Defined.

(** The page of the sample plot, exported: every image in both formats
    when the export was on at the import of the module, and no file when
    it is switched on later. *)
Lemma flat_plot_exports_witness :
  (exists html st',
     Plot.flat_plot export_env sample_plot sample_state = (Ok html, st')
     /\ files st' = flat_map (exported_files export_env) (image_ids html))
  /\ (exists html st',
        Plot.flat_plot late_export_env sample_plot sample_state = (Ok html, st')
        /\ files st' = []).
Proof.
  split.
  - destruct (Plot.flat_plot export_env sample_plot sample_state)
      as [[html|e] st'] eqn:H; [| vm_compute in H; discriminate].
    exists html, st'. split; [reflexivity |].
    apply (flat_plot_exports _ _ _ _ _ H).
    vm_compute. repeat constructor; discriminate.
  - destruct (Plot.flat_plot late_export_env sample_plot sample_state)
      as [[html|e] st'] eqn:H; [| vm_compute in H; discriminate].
    exists html, st'. split; [reflexivity |].
    rewrite (flat_plot_exports _ _ _ _ _ H);
      [reflexivity | vm_compute; repeat constructor; discriminate].
Defined.

(** The sample plot has the default height and no width; flat, it has
    the width of flat plots. *)
Lemma figure_size_witness :
  exists fig st2,
    Plot.get_figure sample_env sample_plot 0 false false true sample_state
    = (Ok fig, st2)
    /\ height (fig_layout fig) = VInt 500
    /\ width (fig_layout fig) = VInt 1100.
Proof.
  destruct (Plot.get_figure sample_env sample_plot 0 false false true sample_state)
    as [[fig|e] st2] eqn:Hg; [| vm_compute in Hg; discriminate].
  exists fig, st2. split; [reflexivity |].
  apply (figure_size _ _ _ _ _ _ _ _ _ _ _ _ _ _ _ _ sample_run_ok Hg).
Defined.

Lemma dataset_layout_total_witness :
  exists layout trace,
    _dataset_layout
      {[ "ylab" := VStr "% of reads"; "tt_label" := VStr "{point.x}: {point.y:.1f}%" ]}
      {[ "xsuffix" := VStr "bp" ]} None
    = Ok (layout, trace).
Proof.
  apply dataset_layout_total. split.
  - vm_compute. repeat constructor.
  - vm_compute. exact I.
Defined.

Lemma labelled_pconfig_ok : plot_config_ok labelled_pconfig.
Proof.
  split; [split; [vm_compute; repeat constructor | vm_compute; exact I] |].
  change (Forall (label_entry_ok labelled_pconfig)
            [VStr "Counts";
             VDict {[ "name" := VStr "Share"; "ysuffix" := VStr "%" ]}]).
  constructor; [exact I |]. constructor; [| constructor].
  split; [| reflexivity].
  split; [vm_compute; repeat constructor | vm_compute; exact I].
Qed.

(** A line graph of three datasets, two of them labelled. *)
Lemma initialize_total_witness :
  exists plot st',
    Plot.initialize sample_env LINE labelled_pconfig 3 None (Some ["yaxis"]) None
      empty_state
    = (Ok plot, st').
Proof.
  apply initialize_total.
  - discriminate.
  - exact labelled_pconfig_ok.
  - vm_compute. repeat split.
  - reflexivity.
  - apply is_axis_b_sound. reflexivity.
Defined.

(** The sample plot is well formed. *)
Lemma initialize_well_formed_witness :
  Forall (fun ds => BaseDataset.uid ds <> "") (Plot.datasets sample_plot)
  /\ is_Some (heap sample_state !! Plot.layout sample_plot)
  /\ Plot.axis_controlled_by_switches sample_plot ⊆ ["yaxis"].
Proof.
  destruct (initialize_well_formed _ _ _ _ _ _ _ _ _ _ sample_run_ok)
    as (_ & _ & Hu & Hs & Ha).
  split; [apply Hu; vm_compute; discriminate |]. split; [exact Hs | exact Ha].
Defined.
